(** * OutputChannel.js: a shallow embedding of the per-channel MIDI encoder

    The development follows [src/OutputChannel.js].  Every method of the
    [OutputChannel] class becomes a function in a small monad that records
    the messages handed to [this.output.send] and the exception, if any,
    that ends the call.  The imported [WebMidi] object (tables, time and
    note resolution) is not part of the file under study and is taken as a
    record of parameters. *)

From Stdlib Require Import QArith Qabs Qround Qcanon Qpower ZArith Lia Lqa Ascii String.
From stdpp Require Import base option list strings gmap.

Local Open Scope string_scope.
Local Open Scope Z_scope.
Local Open Scope list_scope.

(** ** JavaScript numbers and values

    A finite number is the rational it denotes; [NaN] is kept apart.  The
    binary64 numbers are those rationals that [binary64] leaves unchanged,
    and the statements below hold for every rational argument, the
    binary64 ones among them.  The infinities are not modelled: on finite
    arguments no operation of [OutputChannel] overflows, each result
    being either the product of a range-checked operand or no larger in
    magnitude than an argument of the call, up to an added 1 or 64.
    Results of the arithmetic are stored reduced, so that equal numbers
    are equal terms.

    A value is what a caller may pass where the documentation asks for a
    number: a number, or nothing, [null] or a boolean.  Strings appear
    only where the code tests [typeof x === "string"], as the name
    alternative of a controller, command or parameter. *)

Inductive Number : Type :=
| NaN
| Fin (q : Q).

Inductive JsValue : Type :=
| JUndefined
| JNull
| JBool (b : bool)
| JNumber (n : Number).

Definition num (z : Z) : Number := Fin (inject_Z z).
Definition JInt (z : Z) : JsValue := JNumber (num z).

Definition ToNumber (v : JsValue) : Number :=
  match v with
  | JUndefined => NaN
  | JNull => Fin 0
  | JBool true => Fin 1
  | JBool false => Fin 0
  | JNumber n => n
  end.

(** Truthiness, as tested by [if (x)], [!x] and [x || y]. *)
Definition truthy (v : JsValue) : bool :=
  match v with
  | JUndefined | JNull => false
  | JBool b => b
  | JNumber NaN => false
  | JNumber (Fin q) => negb (Qeq_bool q 0)
  end.

Definition isNaN (v : JsValue) : bool :=
  match ToNumber v with NaN => true | Fin _ => false end.

(** *** Arithmetic

    [+], [-], [*] and [/] compute the exact result and round it to the
    nearest binary64 number, ties to the even significand.  [round_even]
    is that rounding on integers, [binade q] is floor(log2 q) for a
    positive [q], and a positive number is rounded on the grid of its
    binade: 53 significant bits, the last one no finer than 2^-1074 (the
    subnormal range). *)
Definition round_even (q : Q) : Z :=
  let f := Qfloor q in
  match (q - inject_Z f ?= 1 # 2)%Q with
  | Lt => f
  | Gt => f + 1
  | Eq => if Z.even f then f else f + 1
  end.

Definition binade (q : Q) : Z :=
  let e := Z.log2 (Qnum q) - Z.log2 (Zpos (Qden q)) in
  if Qle_bool (2 ^ e) q then e else e - 1.

Definition binary64_pos (q : Q) : Q :=
  let k := Z.max (binade q - 52) (-1074) in
  (inject_Z (round_even (q * 2 ^ (- k))) * 2 ^ k)%Q.

Definition binary64 (q : Q) : Q :=
  match (q ?= 0)%Q with
  | Eq => 0%Q
  | Gt => Qred (binary64_pos q)
  | Lt => Qred (- binary64_pos (- q))
  end.

Definition add64 (a b : Number) : Number :=
  match a, b with Fin x, Fin y => Fin (binary64 (x + y)) | _, _ => NaN end.
Definition sub64 (a b : Number) : Number :=
  match a, b with Fin x, Fin y => Fin (binary64 (x - y)) | _, _ => NaN end.
Definition mul64 (a b : Number) : Number :=
  match a, b with Fin x, Fin y => Fin (binary64 (x * y)) | _, _ => NaN end.
(** Division is only ever by the non-zero literals 2 and 127. *)
Definition div64 (a b : Number) : Number :=
  match a, b with Fin x, Fin y => Fin (binary64 (x / y)) | _, _ => NaN end.

(** [Math.floor(value) + 64] and the decrements [z - 1] of the 1-based
    numbers have integer operands; on integers below 2^53 in magnitude the
    rounding changes nothing ([integer_arithmetic_exact] below), and these
    sums and differences are written as the exact ones. *)
Definition num_add (a b : Number) : Number :=
  match a, b with Fin x, Fin y => Fin (Qred (x + y)) | _, _ => NaN end.
Definition num_sub (a b : Number) : Number :=
  match a, b with Fin x, Fin y => Fin (Qred (x - y)) | _, _ => NaN end.

(** Comparisons are false as soon as one side is [NaN]. *)
Definition num_le (a b : Number) : bool :=
  match a, b with Fin x, Fin y => Qle_bool x y | _, _ => false end.
Definition num_ge (a b : Number) : bool := num_le b a.
Definition num_lt (a b : Number) : bool :=
  match a, b with Fin x, Fin y => negb (Qle_bool y x) | _, _ => false end.
Definition num_gt (a b : Number) : bool := num_lt b a.

Definition Math_floor (n : Number) : Number :=
  match n with NaN => NaN | Fin q => Fin (inject_Z (Qfloor q)) end.

(** [Math.round] rounds to the nearest integer, halves towards +infinity. *)
Definition round (q : Q) : Z := Qfloor (q + (1 # 2)).

Definition Math_round (n : Number) : Number :=
  match n with NaN => NaN | Fin q => Fin (inject_Z (round q)) end.

(** [parseFloat] renders its argument as a string and parses it back: a
    number comes back unchanged, [undefined], [null] and booleans do not
    parse. *)
Definition parseFloat (v : JsValue) : Number :=
  match v with JNumber n => n | _ => NaN end.

Definition Qtrunc (q : Q) : Z := Z.quot (Qnum q) (Zpos (Qden q)).

(** A number is rendered in plain decimal notation when it is zero or its
    magnitude lies in [1e-6, 1e21); otherwise the rendering has an
    exponent. *)
Definition plain_decimal (q : Q) : bool :=
  Qeq_bool q 0
  || (Qle_bool (1 # 1000000) (Qabs q)
      && negb (Qle_bool (inject_Z (10 ^ 21)) (Qabs q))).

Section Runtime.

(** What [parseInt] reads off the exponent rendering of a very large or
    very small number (its leading digits) depends on the shortest
    decimal form of the double and is left open. *)
Variable parseInt_exponent : Q -> Number.

Definition parseInt (v : JsValue) : Number :=
  match v with
  | JNumber (Fin q) =>
      if plain_decimal q then Fin (inject_Z (Qtrunc q))
      else parseInt_exponent q
  | _ => NaN
  end.

End Runtime.

(** 32-bit integer operators: [<<], [>>] and [&] work on [ToInt32] of
    their operands. *)
Definition ToInt32 (z : Z) : Z := (z + 2 ^ 31) mod 2 ^ 32 - 2 ^ 31.

(** The integer part a number contributes to a bit operator ([NaN] counts
    as 0). *)
Definition truncate (n : Number) : Z :=
  match n with NaN => 0 | Fin q => Qtrunc q end.

Definition js_shl (a n : Z) : Z := ToInt32 (Z.shiftl (ToInt32 a) (Z.land n 31)).
Definition js_sar (a n : Z) : Z := Z.shiftr (ToInt32 a) (Z.land n 31).
Definition js_and (a b : Z) : Z := Z.land (ToInt32 a) (ToInt32 b).

(** ** Errors, messages and the recording monad *)

Inductive JsError : Type :=
| Error (msg : string)
| TypeError (msg : string)
| RangeError (msg : string).

(** The time descriptor of [options.time]: absent, an absolute time, or the
    string ["+ms"] for a delay in milliseconds. *)
Inductive TimeSpec : Type :=
| TimeUndefined
| TimeAbsolute (t : Q)
| TimeRelative (ms : Q).

(** One call of [this.output.send(status, data, timestamp)]. *)
Record Message : Type := mkMessage {
  status : Z;
  data : list JsValue;
  timestamp : JsValue
}.

Inductive Completion (A : Type) : Type :=
| Normal (a : A)
| Throw (e : JsError).
Arguments Normal {A} a.
Arguments Throw {A} e.

(** The effect of a call: how it completes, and the messages it has handed
    to the output, oldest first.  Messages sent before an exception stay
    sent. *)
Record Run (A : Type) : Type := mkRun {
  completion : Completion A;
  sent : list Message
}.
Arguments mkRun {A} completion sent.
Arguments completion {A} r.
Arguments sent {A} r.

Definition run_ret {A} (a : A) : Run A := mkRun (Normal a) [].

Definition run_bind {A B} (f : A -> Run B) (m : Run A) : Run B :=
  match completion m with
  | Normal a => let r := f a in mkRun (completion r) (sent m ++ sent r)
  | Throw e => mkRun (Throw e) (sent m)
  end.

#[global] Instance Run_ret : MRet Run := @run_ret.
#[global] Instance Run_bind : MBind Run := @run_bind.

Definition throw {A} (e : JsError) : Run A := mkRun (Throw e) [].

(** A call of a collaborator that sends nothing itself: its completion
    becomes the caller's. *)
Definition call {A} (c : Completion A) : Run A := mkRun c [].

#[global] Instance Completion_ret : MRet Completion := @Normal.
#[global] Instance Completion_bind : MBind Completion :=
  fun A B f c => match c with Normal a => f a | Throw e => Throw e end.

(** The output is a recorder: it accepts every message. *)
Definition output_send (st : Z) (d : list JsValue) (ts : JsValue) : Run unit :=
  mkRun (Normal tt) [mkMessage st d ts].

Fixpoint forEach {A} (l : list A) (f : A -> Run unit) : Run unit :=
  match l with
  | [] => mret tt
  | x :: l' => f x ;; forEach l' f
  end.

(** ** Arguments of the methods *)

(** The [options] object.  A property that is not set reads [undefined]. *)
Record Options : Type := mkOptions {
  time : TimeSpec;
  duration : JsValue;
  attack : JsValue;
  rawAttack : JsValue;
  release : JsValue;
  rawRelease : JsValue;
  velocity : JsValue;
  rawVelocity : JsValue;
  useRawValue : JsValue;
  rawValue : JsValue
}.

(** The object literal [{}]. *)
Definition emptyOptions : Options :=
  mkOptions TimeUndefined JUndefined JUndefined JUndefined JUndefined
            JUndefined JUndefined JUndefined JUndefined JUndefined.

(** The object literal [{time: t}]. *)
Definition timeOptions (t : TimeSpec) : Options :=
  mkOptions t JUndefined JUndefined JUndefined JUndefined
            JUndefined JUndefined JUndefined JUndefined JUndefined.

(** The object literal [{duration: d, time: t}]. *)
Definition durationOptions (d : JsValue) (t : TimeSpec) : Options :=
  mkOptions t d JUndefined JUndefined JUndefined
            JUndefined JUndefined JUndefined JUndefined JUndefined.

(** Assignments [options.f = v]. *)
Definition set_attack (v : JsValue) (o : Options) : Options :=
  mkOptions (time o) (duration o) v (rawAttack o) (release o) (rawRelease o)
            (velocity o) (rawVelocity o) (useRawValue o) (rawValue o).
Definition set_rawAttack (v : JsValue) (o : Options) : Options :=
  mkOptions (time o) (duration o) (attack o) v (release o) (rawRelease o)
            (velocity o) (rawVelocity o) (useRawValue o) (rawValue o).
Definition set_release (v : JsValue) (o : Options) : Options :=
  mkOptions (time o) (duration o) (attack o) (rawAttack o) v (rawRelease o)
            (velocity o) (rawVelocity o) (useRawValue o) (rawValue o).
Definition set_rawRelease (v : JsValue) (o : Options) : Options :=
  mkOptions (time o) (duration o) (attack o) (rawAttack o) (release o) v
            (velocity o) (rawVelocity o) (useRawValue o) (rawValue o).

(** A parameter declared [options = {}]: the default replaces an omitted
    (undefined) argument. *)
Definition orEmpty (options : option Options) : Options :=
  default emptyOptions options.

(** Some call sites pass [this.number] where [options] is expected.  The
    default does not apply, and every property read on a number is
    [undefined]. *)
Definition numberAsOptions (n : Z) : option Options := Some emptyOptions.

(** Reading a property of [options] when the argument has no default:
    [undefined.p] is a [TypeError] of the runtime. *)
Definition readProperties (options : option Options) : Run Options :=
  match options with
  | Some o => mret o
  | None => throw (TypeError "Cannot read properties of undefined")
  end.

Module Note.
(** A resolved note, as returned by [WebMidi.getValidNoteArray]. *)
Record t : Type := mk {
  number : JsValue;
  rawAttack : JsValue;
  rawRelease : JsValue
}.
End Note.

(** What a caller may give as [note]. *)
Inductive NoteItem : Type :=
| NoteNumber (n : Z)
| NoteName (s : string)
| NoteObject (n : Note.t).

Inductive NoteInput : Type :=
| OneNote (n : NoteItem)
| NoteArray (l : list NoteItem).

(** [controller], [command] and [parameter] are given by name or by value. *)
Inductive Controller : Type :=
| ControllerName (s : string)
| ControllerValue (v : JsValue).

Inductive Command : Type :=
| CommandName (s : string)
| CommandValue (v : JsValue).

Inductive ParameterId : Type :=
| ParameterName (s : string)
| ParameterArray (l : list JsValue).

Inductive Data : Type :=
| DataValue (v : JsValue)
| DataArray (l : list JsValue).

(** [[].concat(data)] *)
Definition concat_data (d : Data) : list JsValue :=
  match d with DataValue v => [v] | DataArray l => l end.

(** [a[i]]: out of range reads [undefined]. *)
Definition array_get (a : list JsValue) (i : nat) : JsValue :=
  default JUndefined (a !! i).

(** [a[i] = v]: in range it overwrites, at [i = a.length] it extends (the
    only out-of-range write the code can make is [data[0]] on an empty
    array). *)
Definition array_set (a : list JsValue) (i : nat) (v : JsValue) : list JsValue :=
  if decide (i = length a) then a ++ [v] else <[i:=v]> a.

(** ** The imported [WebMidi] object *)

Record VoiceMessages : Type := mkVoiceMessages {
  noteoff : Z;
  noteon : Z;
  keyaftertouch : Z;
  controlchange : Z;
  channelmode : Z;
  programchange : Z;
  channelaftertouch : Z;
  pitchbend : Z
}.

Record WebMidiModule : Type := mkWebMidi {
  MIDI_CHANNEL_VOICE_MESSAGES : VoiceMessages;
  MIDI_CONTROL_CHANGE_MESSAGES : gmap string Z;
  MIDI_CHANNEL_MODE_MESSAGES : gmap string Z;
  MIDI_REGISTERED_PARAMETER : gmap string (list JsValue);
  convertToTimestamp : TimeSpec -> JsValue;
  getValidNoteArray : NoteInput -> option Options -> Completion (list Note.t)
}.

(** ** The channel *)

Record OutputChannel : Type := mkChannel {
  number : Z
}.

(** [x >= lo && x <= hi] *)
Definition between (lo hi : Z) (x : Number) : bool :=
  num_ge x (num lo) && num_le x (num hi).

(** ** The methods of [OutputChannel]

    Each method returns [this] for chaining; the model returns [tt].  The
    two note senders return the state in which they leave the [options]
    object they were given, because [playNote] hands the same object to
    both. *)

Section Methods.

Variable parseInt_exponent : Q -> Number.
Variable WebMidi : WebMidiModule.
Variable this : OutputChannel.

Local Abbreviation parseInt := (parseInt parseInt_exponent).
Local Abbreviation VOICE := (MIDI_CHANNEL_VOICE_MESSAGES WebMidi).

Definition send (status : Z) (data : list JsValue) (timestamp : JsValue)
  : Run unit :=
  output_send status data timestamp.

Definition setKeyAftertouch (note : NoteInput) (pressure : JsValue)
    (options : option Options) : Run unit :=
  let options := orEmpty options in
  let pressure := parseFloat pressure in
  let pressure := if isNaN (JNumber pressure) then Fin (1 # 2) else pressure in
  let pressure :=
    if truthy (useRawValue options) then div64 pressure (num 127)
    else pressure in
  if num_lt pressure (num 0) || num_gt pressure (num 1) then
    throw (RangeError "Pressure value must be between 0 and 1.")
  else
    notes ← call (getValidNoteArray WebMidi note None);
    forEach notes (fun n =>
      send (js_shl (keyaftertouch VOICE) 4 + (number this - 1))
           [Note.number n; JNumber (Math_round (mul64 pressure (num 127)))]
           (convertToTimestamp WebMidi (time options))).

Definition sendControlChange (controller : Controller) (value : JsValue)
    (options : option Options) : Run unit :=
  let options := orEmpty options in
  controller ←
    match controller with
    | ControllerName s =>
        match MIDI_CONTROL_CHANGE_MESSAGES WebMidi !! s with
        | None => throw (TypeError "Invalid controller name.")
        | Some c => mret (JInt c)
        end
    | ControllerValue v =>
        let c := Math_floor (ToNumber v) in
        if negb (between 0 119 c) then
          throw (RangeError "Controller numbers must be between 0 and 119.")
        else mret (JNumber c)
    end;
  send (js_shl (controlchange VOICE) 4 + (number this - 1))
       [controller; value]
       (convertToTimestamp WebMidi (time options)).

(** The two select helpers also store the floored bytes back into the
    array they were given (the caller's, or the entry of the table).
    Flooring twice is flooring once, so a later call that reads the same
    array selects the same bytes; the write is not modelled. *)
Definition _selectNonRegisteredParameter (parameter : list JsValue)
    (time : TimeSpec) : Run unit :=
  let p0 := Math_floor (ToNumber (array_get parameter 0)) in
  if negb (between 0 127 p0) then
    throw (RangeError "The control63 value must be between 0 and 127.")
  else
    let p1 := Math_floor (ToNumber (array_get parameter 1)) in
    if negb (between 0 127 p1) then
      throw (RangeError "The control62 value must be between 0 and 127.")
    else
      sendControlChange (ControllerValue (JInt 0x63)) (JNumber p0)
                        (Some (timeOptions time)) ;;
      sendControlChange (ControllerValue (JInt 0x62)) (JNumber p1)
                        (Some (timeOptions time)).

Definition _deselectRegisteredParameter (time : TimeSpec) : Run unit :=
  sendControlChange (ControllerValue (JInt 0x65)) (JInt 0x7F)
                    (Some (timeOptions time)) ;;
  sendControlChange (ControllerValue (JInt 0x64)) (JInt 0x7F)
                    (Some (timeOptions time)).

Definition _selectRegisteredParameter (parameter : list JsValue)
    (time : TimeSpec) : Run unit :=
  let p0 := Math_floor (ToNumber (array_get parameter 0)) in
  if negb (between 0 127 p0) then
    throw (RangeError "The control65 value must be between 0 and 127")
  else
    let p1 := Math_floor (ToNumber (array_get parameter 1)) in
    if negb (between 0 127 p1) then
      throw (RangeError "The control64 value must be between 0 and 127")
    else
      sendControlChange (ControllerValue (JInt 0x65)) (JNumber p0)
                        (Some (timeOptions time)) ;;
      sendControlChange (ControllerValue (JInt 0x64)) (JNumber p1)
                        (Some (timeOptions time)).

Definition _setCurrentRegisteredParameter (data : Data) (time : TimeSpec)
  : Run unit :=
  let data := concat_data data in
  (* MSB *)
  let d0 := parseInt (array_get data 0) in
  let data := array_set data 0 (JNumber d0) in
  (if negb (isNaN (JNumber d0)) && between 0 127 d0 then
     sendControlChange (ControllerValue (JInt 0x06)) (JNumber d0)
                       (Some (timeOptions time))
   else throw (RangeError "The msb value must be between 0 and 127.")) ;;
  if (length data <? 2)%nat then mret tt
  else
    (* LSB *)
    let d1 := parseInt (array_get data 1) in
    if negb (isNaN (JNumber d1)) && between 0 127 d1 then
      sendControlChange (ControllerValue (JInt 0x26)) (JNumber d1)
                        (Some (timeOptions time))
    else throw (RangeError "The lsb value must be between 0 and 127.").

(** In the three-argument calls [f(parameter, this.number, options.time)]
    below, the callee's second parameter [time] receives [this.number];
    the third argument is dropped. *)
Definition decrementRegisteredParameter (parameter : ParameterId)
    (options : option Options) : Run unit :=
  let options := orEmpty options in
  parameter ←
    match parameter with
    | ParameterArray l => mret l
    | ParameterName s =>
        match MIDI_REGISTERED_PARAMETER WebMidi !! s with
        | None => throw (TypeError "The specified parameter is not available.")
        | Some l => mret l
        end
    end;
  _selectRegisteredParameter parameter (TimeAbsolute (inject_Z (number this))) ;;
  sendControlChange (ControllerValue (JInt 0x61)) (JInt 0)
                    (numberAsOptions (number this)) ;;
  _deselectRegisteredParameter (time options).

Definition incrementRegisteredParameter (parameter : ParameterId)
    (options : option Options) : Run unit :=
  let options := orEmpty options in
  parameter ←
    match parameter with
    | ParameterArray l => mret l
    | ParameterName s =>
        match MIDI_REGISTERED_PARAMETER WebMidi !! s with
        | None => throw (Error "The specified parameter is not available.")
        | Some l => mret l
        end
    end;
  _selectRegisteredParameter parameter (time options) ;;
  sendControlChange (ControllerValue (JInt 0x60)) (JInt 0)
                    (Some (timeOptions (time options))) ;;
  _deselectRegisteredParameter (time options).

Definition sendNoteOff (note : NoteInput) (options : option Options)
  : Run Options :=
  (* Compatibility warning: [options.rawVelocity] is read first *)
  options ← readProperties options;
  let options :=
    if truthy (rawVelocity options)
    then set_rawRelease (velocity options) options else options in
  let options :=
    if truthy (velocity options)
    then set_release (velocity options) options else options in
  let nVelocity := JInt 64 in
  (* [options = options || {}] leaves an object unchanged *)
  let nVelocity :=
    if truthy (rawRelease options) then
      if negb (isNaN (rawRelease options))
         && between 0 127 (ToNumber (rawRelease options))
      then rawRelease options else nVelocity
    else
      if negb (isNaN (release options))
         && between 0 1 (ToNumber (release options))
      then JNumber (mul64 (ToNumber (release options)) (num 127))
      else nVelocity in
  (* Send note off messages *)
  let o := set_rawRelease nVelocity emptyOptions in
  notes ← call (getValidNoteArray WebMidi note (Some o));
  forEach notes (fun n =>
    send (js_shl (noteoff VOICE) 4 + (number this - 1))
         [Note.number n; Note.rawRelease n]
         (convertToTimestamp WebMidi (time options))) ;;
  mret options.

Definition stopNote (note : NoteInput) (options : option Options)
  : Run Options :=
  sendNoteOff note options.

Definition sendNoteOn (note : NoteInput) (options : option Options)
  : Run Options :=
  let options := orEmpty options in
  (* Compatibility warnings *)
  let options :=
    if truthy (rawVelocity options)
    then set_rawRelease (release options)
           (set_rawAttack (velocity options) options)
    else options in
  let options :=
    if truthy (velocity options)
    then set_attack (velocity options) options else options in
  let nVelocity := JInt 64 in
  let nVelocity :=
    if truthy (rawAttack options) then
      if negb (isNaN (attack options))
         && between 0 127 (ToNumber (attack options))
      then attack options else nVelocity
    else
      if negb (isNaN (attack options))
         && between 0 1 (ToNumber (attack options))
      then JNumber (mul64 (ToNumber (attack options)) (num 127))
      else nVelocity in
  let o := set_rawAttack nVelocity emptyOptions in
  notes ← call (getValidNoteArray WebMidi note (Some o));
  forEach notes (fun n =>
    send (js_shl (noteon VOICE) 4 + (number this - 1))
         [Note.number n; Note.rawAttack n]
         (convertToTimestamp WebMidi (time options))) ;;
  mret options.

Definition playNote (note : NoteInput) (options : option Options)
  : Run unit :=
  let options := orEmpty options in
  (* Send note on message and, optionally, note off message *)
  options ← sendNoteOn note (Some options);
  if negb (isNaN (duration options)) then
    sendNoteOff note (Some options) ;; mret tt
  else mret tt.

Definition sendChannelMode (command : Command) (value : JsValue)
    (options : option Options) : Run unit :=
  let options := orEmpty options in
  let command :=
    match command with
    | CommandName s =>
        match MIDI_CHANNEL_MODE_MESSAGES WebMidi !! s with
        | Some c => JInt c
        | None => JUndefined
        end
    | CommandValue v => JNumber (parseInt v)
    end in
  if isNaN command || negb (between 120 127 (ToNumber command)) then
    throw (TypeError "Invalid channel mode message name or number.")
  else
    let value :=
      let p := parseInt value in
      if truthy (JNumber p) then p else num 0 in
    if num_lt value (num 0) || num_gt value (num 127) then
      throw (RangeError "Value must be an integer between 0 and 127.")
    else
      send (js_shl (channelmode VOICE) 4 + (number this - 1))
           [command; JNumber value]
           (convertToTimestamp WebMidi (time options)).

Definition setOmniMode (state : JsValue) (options : option Options)
  : Run unit :=
  let options := orEmpty options in
  if match state with JUndefined => true | _ => truthy state end then
    sendChannelMode (CommandName "omnimodeon") (JInt 0) (Some options)
  else
    sendChannelMode (CommandName "omnimodeoff") (JInt 0) (Some options).

Definition setChannelAftertouch (pressure : JsValue)
    (options : option Options) : Run unit :=
  let options := orEmpty options in
  let pressure := parseFloat pressure in
  let pressure := if isNaN (JNumber pressure) then Fin (1 # 2) else pressure in
  let pressure :=
    if truthy (rawValue options) then div64 pressure (num 127)
    else pressure in
  if num_lt pressure (num 0) || num_gt pressure (num 1) then
    throw (RangeError "Pitch bend value must be between 0 and 1.")
  else
    send (js_shl (channelaftertouch VOICE) 4 + (number this - 1))
         [JNumber (Math_round (mul64 pressure (num 127)))]
         (convertToTimestamp WebMidi (time options)).

Definition setRegisteredParameter (parameter : ParameterId) (data : Data)
    (options : option Options) : Run unit :=
  let options := orEmpty options in
  parameter ←
    match parameter with
    | ParameterArray l => mret l
    | ParameterName s =>
        match MIDI_REGISTERED_PARAMETER WebMidi !! s with
        | None => throw (Error "The specified parameter is not available.")
        | Some l => mret l
        end
    end;
  _selectRegisteredParameter parameter (TimeAbsolute (inject_Z (number this))) ;;
  _setCurrentRegisteredParameter data (TimeAbsolute (inject_Z (number this))) ;;
  _deselectRegisteredParameter (time options).

Definition setMasterTuning (value : JsValue) (options : option Options)
  : Run unit :=
  let options := orEmpty options in
  let value :=
    let p := parseFloat value in
    if truthy (JNumber p) then p else num 0 in
  if num_le value (num (-65)) || num_ge value (num 64) then
    throw (RangeError
      "The value must be a decimal number larger than -65 and smaller than 64.")
  else
    let coarse := num_add (Math_floor value) (num 64) in
    let fine := sub64 value (Math_floor value) in
    (* Calculate MSB and LSB for fine adjustment (14bit resolution) *)
    let fine :=
      Math_round (mul64 (div64 (add64 fine (num 1)) (num 2)) (num 16383)) in
    let msb := js_and (js_sar (truncate fine) 7) 0x7F in
    let lsb := js_and (truncate fine) 0x7F in
    setRegisteredParameter (ParameterName "channelcoarsetuning")
      (DataValue (JNumber coarse)) (Some (timeOptions (time options))) ;;
    setRegisteredParameter (ParameterName "channelfinetuning")
      (DataArray [JInt msb; JInt lsb]) (Some (timeOptions (time options))).

Definition setModulationRange (semitones cents : JsValue)
    (options : option Options) : Run unit :=
  let options := orEmpty options in
  setRegisteredParameter (ParameterName "modulationrange")
    (DataArray [semitones; cents]) (Some (timeOptions (time options))).

Definition setNonRegisteredParameter (parameter : list JsValue) (data : Data)
    (options : option Options) : Run unit :=
  let options := orEmpty options in
  let data := DataArray (concat_data data) in
  _selectNonRegisteredParameter parameter (TimeAbsolute (inject_Z (number this))) ;;
  _setCurrentRegisteredParameter data (TimeAbsolute (inject_Z (number this))) ;;
  _deselectRegisteredParameter (time options).

Definition setPitchBend (value : JsValue) (options : option Options)
  : Run unit :=
  let options := orEmpty options in
  (* Validation *)
  let value := parseFloat value in
  let value := if isNaN (JNumber value) then num 0 else value in
  let value :=
    if truthy (rawValue options)
    then sub64 (mul64 (div64 value (num 127)) (num 2)) (num 1)
    else value in
  if num_lt value (num (-1)) || num_gt value (num 1) then
    throw (RangeError "Pitch bend value must be between -1.0 and 1.0.")
  else
    let nLevel :=
      Math_round (mul64 (div64 (add64 value (num 1)) (num 2)) (num 16383)) in
    let msb := js_and (js_sar (truncate nLevel) 7) 0x7F in
    let lsb := js_and (truncate nLevel) 0x7F in
    send (js_shl (pitchbend VOICE) 4 + (number this - 1))
         [JInt lsb; JInt msb]
         (convertToTimestamp WebMidi (time options)).

Definition setPitchBendRange (semitones cents : JsValue)
    (options : option Options) : Run unit :=
  let options := orEmpty options in
  setRegisteredParameter (ParameterName "pitchbendrange")
    (DataArray [semitones; cents]) (Some (timeOptions (time options))).

Definition setProgram (program : JsValue) (options : option Options)
  : Run unit :=
  let options := orEmpty options in
  let program := num_sub (parseFloat program) (num 1) in
  send (js_shl (programchange VOICE) 4 + (number this - 1))
       [JNumber program]
       (convertToTimestamp WebMidi (time options)).

(** In the four-argument calls below, [options] receives [this.number] and
    the object [{time: options.time}] is dropped. *)
Definition setTuningBank (value : JsValue) (options : option Options)
  : Run unit :=
  let options := orEmpty options in
  let value := parseInt value in
  if isNaN (JNumber value) || negb (between 1 128 value) then
    throw (RangeError "The program value must be between 1 and 128.")
  else
    setRegisteredParameter (ParameterName "tuningbank")
      (DataValue (JNumber (num_sub value (num 1))))
      (numberAsOptions (number this)).

Definition setTuningProgram (value : JsValue) (options : option Options)
  : Run unit :=
  let options := orEmpty options in
  let value := parseInt value in
  if isNaN (JNumber value) || negb (between 1 128 value) then
    throw (RangeError "The program value must be between 1 and 128.")
  else
    setRegisteredParameter (ParameterName "tuningprogram")
      (DataValue (JNumber (num_sub value (num 1))))
      (numberAsOptions (number this)).

Definition setLocalControl (state : JsValue) (options : option Options)
  : Run unit :=
  let options := orEmpty options in
  if truthy state then
    sendChannelMode (CommandName "localcontrol") (JInt 127) (Some options)
  else
    sendChannelMode (CommandName "localcontrol") (JInt 0) (Some options).

Definition turnNotesOff (options : option Options) : Run unit :=
  let options := orEmpty options in
  sendChannelMode (CommandName "allnotesoff") (JInt 0) (Some options).

Definition turnSoundOff (options : option Options) : Run unit :=
  let options := orEmpty options in
  sendChannelMode (CommandName "allsoundoff") (JInt 0) (Some options).

Definition resetAllControllers (options : option Options) : Run unit :=
  let options := orEmpty options in
  sendChannelMode (CommandName "resetallcontrollers") (JInt 0) (Some options).

(** [mode] is [Some s] for a string argument. *)
Definition setPolyphonicMode (mode : option string) (options : option Options)
  : Run unit :=
  let options := orEmpty options in
  if bool_decide (mode = Some "mono") then
    sendChannelMode (CommandName "monomodeon") (JInt 0) (Some options)
  else
    sendChannelMode (CommandName "polymodeon") (JInt 0) (Some options).

End Methods.

(** ** A reference environment

    [WebMidi.js] is not among the sources.  For closed examples the
    development uses the environment below. *)

Module Reference.

(** Modelled from the spec: the command table
    [WebMidi.MIDI_CHANNEL_VOICE_MESSAGES] is missing; the spec gives the
    status as [(commandNibble << 4) | (channel - 1)], with [0xB] for control
    change and a status in [128,255]; the nibbles are those of the protocol's
    summary of messages. *)
Definition voiceMessages : VoiceMessages :=
  mkVoiceMessages 0x8 0x9 0xA 0xB 0xB 0xC 0xD 0xE.

(** Modelled from the spec: the controller name table is missing; the
    entries are the ones listed in the documentation of
    [sendControlChange]. *)
Definition controlChangeMessages : gmap string Z :=
  list_to_map [
    ("bankselectcoarse", 0); ("modulationwheelcoarse", 1);
    ("breathcontrollercoarse", 2); ("footcontrollercoarse", 4);
    ("portamentotimecoarse", 5); ("dataentrycoarse", 6);
    ("volumecoarse", 7); ("balancecoarse", 8); ("pancoarse", 10);
    ("expressioncoarse", 11); ("effectcontrol1coarse", 12);
    ("effectcontrol2coarse", 13); ("generalpurposeslider1", 16);
    ("generalpurposeslider2", 17); ("generalpurposeslider3", 18);
    ("generalpurposeslider4", 19); ("bankselectfine", 32);
    ("modulationwheelfine", 33); ("breathcontrollerfine", 34);
    ("footcontrollerfine", 36); ("portamentotimefine", 37);
    ("dataentryfine", 38); ("volumefine", 39); ("balancefine", 40);
    ("panfine", 42); ("expressionfine", 43); ("effectcontrol1fine", 44);
    ("effectcontrol2fine", 45); ("holdpedal", 64); ("portamento", 65);
    ("sustenutopedal", 66); ("softpedal", 67); ("legatopedal", 68);
    ("hold2pedal", 69); ("soundvariation", 70); ("resonance", 71);
    ("soundreleasetime", 72); ("soundattacktime", 73); ("brightness", 74);
    ("soundcontrol6", 75); ("soundcontrol7", 76); ("soundcontrol8", 77);
    ("soundcontrol9", 78); ("soundcontrol10", 79);
    ("generalpurposebutton1", 80); ("generalpurposebutton2", 81);
    ("generalpurposebutton3", 82); ("generalpurposebutton4", 83);
    ("reverblevel", 91); ("tremololevel", 92); ("choruslevel", 93);
    ("celestelevel", 94); ("phaserlevel", 95); ("databuttonincrement", 96);
    ("databuttondecrement", 97); ("nonregisteredparametercoarse", 98);
    ("nonregisteredparameterfine", 99); ("registeredparametercoarse", 100);
    ("registeredparameterfine", 101) ].

(** Modelled from the spec: the channel-mode name table is missing; the
    entries are the ones listed in the documentation of
    [sendChannelMode]. *)
Definition channelModeMessages : gmap string Z :=
  list_to_map [
    ("allsoundoff", 120); ("resetallcontrollers", 121);
    ("localcontrol", 122); ("allnotesoff", 123); ("omnimodeoff", 124);
    ("omnimodeon", 125); ("monomodeon", 126); ("polymodeon", 127) ].

(** Modelled from the spec: the registered-parameter table is missing; the
    entries are the byte pairs listed in the documentation of
    [setRegisteredParameter]. *)
Definition registeredParameter : gmap string (list JsValue) :=
  list_to_map [
    ("pitchbendrange", [JInt 0x00; JInt 0x00]);
    ("channelfinetuning", [JInt 0x00; JInt 0x01]);
    ("channelcoarsetuning", [JInt 0x00; JInt 0x02]);
    ("tuningprogram", [JInt 0x00; JInt 0x03]);
    ("tuningbank", [JInt 0x00; JInt 0x04]);
    ("modulationrange", [JInt 0x00; JInt 0x05]);
    ("azimuthangle", [JInt 0x3D; JInt 0x00]);
    ("elevationangle", [JInt 0x3D; JInt 0x01]);
    ("gain", [JInt 0x3D; JInt 0x02]);
    ("distanceratio", [JInt 0x3D; JInt 0x03]);
    ("maximumdistance", [JInt 0x3D; JInt 0x04]);
    ("maximumdistancegain", [JInt 0x3D; JInt 0x05]);
    ("referencedistanceratio", [JInt 0x3D; JInt 0x06]);
    ("panspreadangle", [JInt 0x3D; JInt 0x07]);
    ("rollangle", [JInt 0x3D; JInt 0x08]) ].

(** Modelled from the spec: the time resolver [WebMidi.convertToTimestamp]
    is missing.  An absolute time stands for itself, ["+ms"] is a delay
    from now, and an absent or past time resolves to as soon as possible,
    that is, now. *)
Definition resolveTime (now : Q) (t : TimeSpec) : JsValue :=
  match t with
  | TimeUndefined => JNumber (Fin (Qred now))
  | TimeAbsolute t =>
      if Qle_bool now t then JNumber (Fin (Qred t))
      else JNumber (Fin (Qred now))
  | TimeRelative ms => JNumber (Fin (Qred (now + ms)))
  end.

(** Note names: a letter, an optional sharp or flat, and an octave from -1
    to 9, with C-1 the note number 0 and G9 the note number 127. *)
Definition letterSemitone (a : ascii) : option Z :=
  match a with
  | "C" => Some 0 | "D" => Some 2 | "E" => Some 4 | "F" => Some 5
  | "G" => Some 7 | "A" => Some 9 | "B" => Some 11
  | _ => None
  end%char.

Definition digitValue (a : ascii) : option Z :=
  let n := Z.of_nat (nat_of_ascii a) - 48 in
  if (0 <=? n) && (n <=? 9) then Some n else None.

Definition octaveOf (s : string) : option Z :=
  match s with
  | String "-" (String "1" EmptyString) => Some (-1)
  | String a EmptyString => digitValue a
  | _ => None
  end.

Definition noteNumberOfName (s : string) : option Z :=
  match s with
  | String l rest =>
      p ← letterSemitone l;
      match rest with
      | String "#" o => n ← octaveOf o; Some ((n + 1) * 12 + p + 1)
      | String "b" o => n ← octaveOf o; Some ((n + 1) * 12 + p - 1)
      | o => n ← octaveOf o; Some ((n + 1) * 12 + p)
      end
  | EmptyString => None
  end.

(** Velocities of a note given by number or name: the shared defaults of
    the options, 64 where they are absent. *)
Definition velocityOr64 (v : JsValue) : JsValue :=
  match v with JUndefined => JInt 64 | _ => v end.

Definition noteOfNumber (n : Z) (o : Options) : Completion Note.t :=
  if (0 <=? n) && (n <=? 127) then
    Normal (Note.mk (JInt n) (velocityOr64 (rawAttack o))
                    (velocityOr64 (rawRelease o)))
  else Throw (TypeError "An element could not be parsed as a note.").

Definition resolveItem (o : Options) (i : NoteItem) : Completion Note.t :=
  match i with
  | NoteNumber n => noteOfNumber n o
  | NoteName s =>
      match noteNumberOfName s with
      | Some n => noteOfNumber n o
      | None => Throw (TypeError "An element could not be parsed as a note.")
      end
  | NoteObject n => Normal n
  end.

Fixpoint resolveItems (o : Options) (l : list NoteItem)
  : Completion (list Note.t) :=
  match l with
  | [] => mret []
  | i :: l' => n ← resolveItem o i; ns ← resolveItems o l'; mret (n :: ns)
  end.

(** Modelled from the spec: the note resolver [WebMidi.getValidNoteArray] is
    missing.  It accepts a number, a name, a note object or an array of
    those, and returns the resolved notes in the order given, each with its
    own velocities or the shared defaults of the options. *)
Definition resolveNotes (note : NoteInput) (options : option Options)
  : Completion (list Note.t) :=
  match note with
  | OneNote i => resolveItems (orEmpty options) [i]
  | NoteArray l => resolveItems (orEmpty options) l
  end.

Definition WebMidi (now : Q) : WebMidiModule :=
  mkWebMidi voiceMessages controlChangeMessages channelModeMessages
            registeredParameter (resolveTime now) resolveNotes.

(** The examples only use numbers that are rendered in plain decimal;
    [parseInt] never reaches the exponent rendering, which the reference
    environment does not model. *)
Definition noExponent (q : Q) : Number := NaN.

(** For the examples that pass 1e21: its rendering is "1e+21", from which
    [parseInt] reads 1. *)
Definition readsE21 (q : Q) : Number :=
  if Qeq_bool q (inject_Z (10 ^ 21)) then num 1 else NaN.

Definition channel (n : Z) : OutputChannel := mkChannel n.

End Reference.

(** ** Notions used in the statements *)

(** The message of a control change, as [sendControlChange] builds it. *)
Definition controlChangeMessage (W : WebMidiModule) (this : OutputChannel)
    (controller value : JsValue) (t : TimeSpec) : Message :=
  mkMessage (js_shl (controlchange (MIDI_CHANNEL_VOICE_MESSAGES W)) 4
             + (number this - 1))
            [controller; value] (convertToTimestamp W t).

(** The time descriptor that the select and set helpers receive from
    [setRegisteredParameter]: the channel number. *)
Definition channelNumberAsTime (this : OutputChannel) : TimeSpec :=
  TimeAbsolute (inject_Z (number this)).

(** A value that is not a finite number: [parseFloat] gives [NaN]. *)
Definition non_numeric (v : JsValue) : Prop :=
  forall q : Q, v <> JNumber (Fin q).

(** A normalized velocity that the senders replace by the default: one
    that [isNaN] rejects, or a number outside [0, 1].  ([null] and the
    booleans are not among them: to [isNaN] and to the comparisons they
    are the numbers 0 and 1.) *)
Definition invalid_unit (v : JsValue) : Prop :=
  match ToNumber v with
  | NaN => True
  | Fin q => (q < 0)%Q \/ (1 < q)%Q
  end.

(** The number that [null] or a boolean converts to. *)
Definition coerced (v : JsValue) : option Z :=
  match v with
  | JNull => Some 0
  | JBool b => Some (if b then 1 else 0)
  | _ => None
  end.

(** The operations of the parameter protocol. *)
Inductive ParameterOperation : Type :=
| SetRegistered (parameter : ParameterId) (data : Data)
| SetNonRegistered (parameter : list JsValue) (data : Data)
| IncrementRegistered (parameter : ParameterId)
| DecrementRegistered (parameter : ParameterId).

Definition performParameterOperation (pe : Q -> Number) (W : WebMidiModule)
    (this : OutputChannel) (op : ParameterOperation)
    (options : option Options) : Run unit :=
  match op with
  | SetRegistered p d => setRegisteredParameter pe W this p d options
  | SetNonRegistered p d => setNonRegisteredParameter pe W this p d options
  | IncrementRegistered p => incrementRegisteredParameter W this p options
  | DecrementRegistered p => decrementRegisteredParameter W this p options
  end.

(** The two select bytes of an operation: given directly, or found under
    the parameter's name. *)
Definition parameterBytes (W : WebMidiModule) (p : ParameterId)
  : option (list JsValue) :=
  match p with
  | ParameterArray l => Some l
  | ParameterName s => MIDI_REGISTERED_PARAMETER W !! s
  end.

Definition selectBytes (W : WebMidiModule) (op : ParameterOperation)
  : option (list JsValue) :=
  match op with
  | SetRegistered p _ | IncrementRegistered p | DecrementRegistered p =>
      parameterBytes W p
  | SetNonRegistered l _ => Some l
  end.

(** A select byte is accepted when it is a number whose floor lies in
    [0, 127]. *)
Definition byte_in_range (v : JsValue) : Prop :=
  match ToNumber v with
  | NaN => False
  | Fin q => (0 <= q)%Q /\ (q < 128)%Q
  end.

Definition select_in_range (bytes : list JsValue) : Prop :=
  byte_in_range (array_get bytes 0) /\ byte_in_range (array_get bytes 1).

(** A data byte is accepted when [parseInt] reads a number in [0, 127]
    from it. *)
Definition data_in_range (pe : Q -> Number) (v : JsValue) : Prop :=
  match parseInt pe v with
  | NaN => False
  | Fin q => (0 <= q)%Q /\ (q <= 127)%Q
  end.

(** The data of the two operations that carry data, as the array
    [[].concat(data)]. *)
Definition operationData (op : ParameterOperation) : option (list JsValue) :=
  match op with
  | SetRegistered _ d | SetNonRegistered _ d => Some (concat_data d)
  | IncrementRegistered _ | DecrementRegistered _ => None
  end.

(** The two select messages of such an operation: controllers 0x65 and
    0x64 for a registered parameter, 0x63 and 0x62 for a non-registered
    one, with the floored select bytes. *)
Definition selectMessages (W : WebMidiModule) (this : OutputChannel)
    (op : ParameterOperation) (bytes : list JsValue) : list Message :=
  let c := match op with
           | SetNonRegistered _ _ => (0x63, 0x62)
           | _ => (0x65, 0x64)
           end in
  [ controlChangeMessage W this (JInt (fst c))
      (JNumber (Math_floor (ToNumber (array_get bytes 0))))
      (channelNumberAsTime this);
    controlChangeMessage W this (JInt (snd c))
      (JNumber (Math_floor (ToNumber (array_get bytes 1))))
      (channelNumberAsTime this) ].

(** All the message-building operations of a channel.  ([send] itself is
    the primitive through which they hand a finished message over.) *)
Inductive Operation : Type :=
| SetKeyAftertouch (note : NoteInput) (pressure : JsValue)
| SendControlChange (controller : Controller) (value : JsValue)
| DecrementRegisteredParameter (parameter : ParameterId)
| IncrementRegisteredParameter (parameter : ParameterId)
| PlayNote (note : NoteInput)
| SendNoteOff (note : NoteInput)
| StopNote (note : NoteInput)
| SendNoteOn (note : NoteInput)
| SendChannelMode (command : Command) (value : JsValue)
| SetOmniMode (state : JsValue)
| SetChannelAftertouch (pressure : JsValue)
| SetMasterTuning (value : JsValue)
| SetModulationRange (semitones cents : JsValue)
| SetNonRegisteredParameter (parameter : list JsValue) (data : Data)
| SetPitchBend (value : JsValue)
| SetPitchBendRange (semitones cents : JsValue)
| SetProgram (program : JsValue)
| SetRegisteredParameter (parameter : ParameterId) (data : Data)
| SetTuningBank (value : JsValue)
| SetTuningProgram (value : JsValue)
| SetLocalControl (state : JsValue)
| TurnNotesOff
| TurnSoundOff
| ResetAllControllers
| SetPolyphonicMode (mode : option string).

Definition perform (pe : Q -> Number) (W : WebMidiModule)
    (this : OutputChannel) (op : Operation) (options : option Options)
  : Run unit :=
  match op with
  | SetKeyAftertouch note pressure =>
      setKeyAftertouch W this note pressure options
  | SendControlChange controller value =>
      sendControlChange W this controller value options
  | DecrementRegisteredParameter p => decrementRegisteredParameter W this p options
  | IncrementRegisteredParameter p => incrementRegisteredParameter W this p options
  | PlayNote note => playNote W this note options
  | SendNoteOff note => sendNoteOff W this note options ;; mret tt
  | StopNote note => stopNote W this note options ;; mret tt
  | SendNoteOn note => sendNoteOn W this note options ;; mret tt
  | SendChannelMode command value => sendChannelMode pe W this command value options
  | SetOmniMode state => setOmniMode pe W this state options
  | SetChannelAftertouch pressure => setChannelAftertouch W this pressure options
  | SetMasterTuning value => setMasterTuning pe W this value options
  | SetModulationRange semitones cents =>
      setModulationRange pe W this semitones cents options
  | SetNonRegisteredParameter p d => setNonRegisteredParameter pe W this p d options
  | SetPitchBend value => setPitchBend W this value options
  | SetPitchBendRange semitones cents =>
      setPitchBendRange pe W this semitones cents options
  | SetProgram program => setProgram W this program options
  | SetRegisteredParameter p d => setRegisteredParameter pe W this p d options
  | SetTuningBank value => setTuningBank pe W this value options
  | SetTuningProgram value => setTuningProgram pe W this value options
  | SetLocalControl state => setLocalControl pe W this state options
  | TurnNotesOff => turnNotesOff pe W this options
  | TurnSoundOff => turnSoundOff pe W this options
  | ResetAllControllers => resetAllControllers pe W this options
  | SetPolyphonicMode mode => setPolyphonicMode pe W this mode options
  end.

(** The command identifiers of the table. *)
Definition commandNibbles (v : VoiceMessages) : list Z :=
  [ noteoff v; noteon v; keyaftertouch v; controlchange v; channelmode v;
    programchange v; channelaftertouch v; pitchbend v ].

(** A status byte built as the code builds it, from a command of the table
    and the channel number. *)
Definition built_status (W : WebMidiModule) (this : OutputChannel)
    (m : Message) : Prop :=
  exists c, In c (commandNibbles (MIDI_CHANNEL_VOICE_MESSAGES W))
            /\ status m = js_shl c 4 + (number this - 1).

(** [emits P r]: every message sent in the run [r] satisfies [P]. *)
Definition emits {A} (P : Message -> Prop) (r : Run A) : Prop :=
  Forall P (sent r).

(** The 14-bit level of a bend: [Math.round((value + 1) / 2 * 16383)], each
    of the sum, the quotient and the product rounded to binary64, as the
    program computes them. *)
Definition bendLevel (v : Q) : Z :=
  round (binary64 (binary64 (binary64 (v + 1) / 2) * 16383)).

(** The 14-bit level [setMasterTuning] derives from a tuning value: the
    level of the fractional part [value - Math.floor(value)], itself a
    rounded difference. *)
Definition masterTuningFine (v : Q) : Z :=
  bendLevel (binary64 (v - inject_Z (Qfloor v))).

(** The message of a channel-mode command, as [sendChannelMode] builds it. *)
Definition channelModeMessage (W : WebMidiModule) (this : OutputChannel)
    (command value : Z) (t : TimeSpec) : Message :=
  mkMessage (js_shl (channelmode (MIDI_CHANNEL_VOICE_MESSAGES W)) 4
             + (number this - 1))
            [JInt command; JInt value] (convertToTimestamp W t).

(** The operations that build one message from their arguments alone. *)
Definition singleMessage (op : Operation) : bool :=
  match op with
  | SendControlChange _ _ | SendChannelMode _ _ | SetOmniMode _
  | SetChannelAftertouch _ | SetPitchBend _ | SetProgram _
  | SetLocalControl _ | TurnNotesOff | TurnSoundOff | ResetAllControllers
  | SetPolyphonicMode _ => true
  | _ => false
  end.

(** A run that either fails having sent nothing, or succeeds having sent
    exactly one message. *)
Definition one_or_none (r : Run unit) : Prop :=
  (exists e, r = mkRun (Throw e) [])
  \/ (exists m, r = mkRun (Normal tt) [m]).

(** The note-on and note-off messages of a list of resolved notes. *)
Definition noteOnMessages (W : WebMidiModule) (this : OutputChannel)
    (t : TimeSpec) (notes : list Note.t) : list Message :=
  map (fun n =>
         mkMessage (js_shl (noteon (MIDI_CHANNEL_VOICE_MESSAGES W)) 4
                    + (number this - 1))
                   [Note.number n; Note.rawAttack n]
                   (convertToTimestamp W t))
      notes.

Definition noteOffMessages (W : WebMidiModule) (this : OutputChannel)
    (t : TimeSpec) (notes : list Note.t) : list Message :=
  map (fun n =>
         mkMessage (js_shl (noteoff (MIDI_CHANNEL_VOICE_MESSAGES W)) 4
                    + (number this - 1))
                   [Note.number n; Note.rawRelease n]
                   (convertToTimestamp W t))
      notes.

(** The operations that pass [options.time] on to every message: all but
    the parameter operations that put the channel number in its place. *)
Definition oneTimestamp (op : Operation) : bool :=
  match op with
  | DecrementRegisteredParameter _ | SetMasterTuning _
  | SetModulationRange _ _ | SetNonRegisteredParameter _ _
  | SetPitchBendRange _ _ | SetRegisteredParameter _ _
  | SetTuningBank _ | SetTuningProgram _ => false
  | _ => true
  end.

(** The operations of the parameter family: those whose messages all come
    from the select, set and deselect helpers. *)
Definition parameterFamily (op : Operation) : bool :=
  match op with
  | DecrementRegisteredParameter _ | IncrementRegisteredParameter _
  | SetMasterTuning _ | SetModulationRange _ _
  | SetNonRegisteredParameter _ _ | SetPitchBendRange _ _
  | SetRegisteredParameter _ _ | SetTuningBank _ | SetTuningProgram _ => true
  | _ => false
  end.

(** The controllers of the parameter protocol: parameter select (registered
    and non-registered), data entry, data increment and decrement. *)
Definition protocolControllers : list Z :=
  [0x65; 0x64; 0x63; 0x62; 0x06; 0x26; 0x60; 0x61].

(** A control change of the parameter protocol carrying a value in
    [0, 127]. *)
Definition protocol_message (W : WebMidiModule) (this : OutputChannel)
    (m : Message) : Prop :=
  exists (c : Z) (v : Q),
    In c protocolControllers
    /\ (0 <= v)%Q /\ (v <= 127)%Q
    /\ status m = js_shl (controlchange (MIDI_CHANNEL_VOICE_MESSAGES W)) 4
                  + (number this - 1)
    /\ data m = [JInt c; JNumber (Fin v)].

(** ** Basic facts *)

(** The lowest and the highest note, as the documentation names them. *)
Example noteNumberOfName_bounds :
  Reference.noteNumberOfName "C-1" = Some 0
  /\ Reference.noteNumberOfName "G9" = Some 127.
Proof. split; reflexivity. Qed.

Lemma sent_bind {A B} (m : Run A) (f : A -> Run B) :
  sent (m ≫= f) =
  match completion m with
  | Normal a => sent m ++ sent (f a)
  | Throw _ => sent m
  end.
Proof. unfold mbind, Run_bind, run_bind. destruct (completion m); reflexivity. Qed.

Lemma completion_bind {A B} (m : Run A) (f : A -> Run B) :
  completion (m ≫= f) =
  match completion m with
  | Normal a => completion (f a)
  | Throw e => Throw e
  end.
Proof. unfold mbind, Run_bind, run_bind. destruct (completion m); reflexivity. Qed.

Lemma bind_normal {A B} (a : A) (l : list Message) (f : A -> Run B) :
  mkRun (Normal a) l ≫= f = mkRun (completion (f a)) (l ++ sent (f a)).
Proof. reflexivity. Qed.

Lemma bind_throw {A B} (e : JsError) (l : list Message) (f : A -> Run B) :
  mkRun (Throw e) l ≫= f = mkRun (Throw e) l.
Proof. reflexivity. Qed.

Lemma bind_mret {A B} (a : A) (f : A -> Run B) : mret a ≫= f = f a.
Proof.
  unfold mret, Run_ret, run_ret. rewrite bind_normal. now destruct (f a).
Qed.

Lemma bind_call_normal {A B} (a : A) (f : A -> Run B) :
  call (Normal a) ≫= f = f a.
Proof. unfold call. rewrite bind_normal. now destruct (f a). Qed.

Lemma Qle_bool_inject_Z (a b : Z) : Qle_bool (inject_Z a) (inject_Z b) = (a <=? b).
Proof. unfold Qle_bool, inject_Z. simpl. now rewrite !Z.mul_1_r. Qed.

Lemma between_num (lo hi z : Z) :
  between lo hi (num z) = (lo <=? z) && (z <=? hi).
Proof.
  unfold between, num_ge, num_le, num. now rewrite !Qle_bool_inject_Z.
Qed.

Lemma Math_floor_num (z : Z) : Math_floor (num z) = num z.
Proof. unfold Math_floor, num. now rewrite Qfloor_Z. Qed.

Lemma Qred_inject_Z (z : Z) : Qred (inject_Z z) = inject_Z z.
Proof.
  apply Qred_identity. simpl. apply Z.gcd_1_r.
Qed.

Lemma num_sub_num (a b : Z) : num_sub (num a) (num b) = num (a - b).
Proof.
  unfold num_sub, num. f_equal.
  rewrite <- (Qred_inject_Z (a - b)). apply Qred_complete.
  unfold Qeq, Qminus, Qplus, Qopp, inject_Z. simpl. lia.
Qed.

Lemma sendControlChange_number (W : WebMidiModule) (this : OutputChannel)
    (c : Z) (v : JsValue) (t : TimeSpec) :
  0 <= c <= 119 ->
  sendControlChange W this (ControllerValue (JInt c)) v (Some (timeOptions t))
  = mkRun (Normal tt) [controlChangeMessage W this (JInt c) v t].
Proof.
  intros Hc. unfold sendControlChange, JInt. simpl ToNumber.
  rewrite Math_floor_num, between_num.
  replace ((0 <=? c) && (c <=? 119)) with true by (symmetry; apply andb_true_iff; lia).
  reflexivity.
Qed.

(** ** Registered parameters: the message sequence *)

(** C1 (amended): for every channel, with "pitchbendrange" registered as the
    byte pair (0, 0), [setRegisteredParameter("pitchbendrange", [12, 0])]
    completes normally and emits exactly six control changes, in the order
    0x65=0, 0x64=0, 0x06=12, 0x26=0, 0x65=127, 0x64=127; with the single
    data byte 12, given as [[12]] or as [12], it emits exactly the five
    control changes 0x65=0, 0x64=0, 0x06=12, 0x65=127, 0x64=127 and no
    0x26. *)
Theorem setRegisteredParameter_pitchbendrange
    (pe : Q -> Number) (W : WebMidiModule) (this : OutputChannel)
    (options : option Options) :
  MIDI_REGISTERED_PARAMETER W !! "pitchbendrange" = Some [JInt 0; JInt 0] ->
  setRegisteredParameter pe W this (ParameterName "pitchbendrange")
    (DataArray [JInt 12; JInt 0]) options
  = mkRun (Normal tt)
      [ controlChangeMessage W this (JInt 0x65) (JInt 0) (channelNumberAsTime this);
        controlChangeMessage W this (JInt 0x64) (JInt 0) (channelNumberAsTime this);
        controlChangeMessage W this (JInt 0x06) (JInt 12) (channelNumberAsTime this);
        controlChangeMessage W this (JInt 0x26) (JInt 0) (channelNumberAsTime this);
        controlChangeMessage W this (JInt 0x65) (JInt 127) (time (orEmpty options));
        controlChangeMessage W this (JInt 0x64) (JInt 127) (time (orEmpty options)) ]
  /\ (forall d : Data, d = DataArray [JInt 12] \/ d = DataValue (JInt 12) ->
      setRegisteredParameter pe W this (ParameterName "pitchbendrange") d options
      = mkRun (Normal tt)
          [ controlChangeMessage W this (JInt 0x65) (JInt 0) (channelNumberAsTime this);
            controlChangeMessage W this (JInt 0x64) (JInt 0) (channelNumberAsTime this);
            controlChangeMessage W this (JInt 0x06) (JInt 12) (channelNumberAsTime this);
            controlChangeMessage W this (JInt 0x65) (JInt 127) (time (orEmpty options));
            controlChangeMessage W this (JInt 0x64) (JInt 127) (time (orEmpty options)) ]).
Proof.
  intros Hlookup. split; [| intros d [-> | ->]];
    unfold setRegisteredParameter; rewrite Hlookup; reflexivity.
Qed.

Lemma setRegisteredParameter_pitchbendrange_witness :
  setRegisteredParameter Reference.noExponent (Reference.WebMidi 0)
    (Reference.channel 1) (ParameterName "pitchbendrange")
    (DataArray [JInt 12]) None
  = mkRun (Normal tt)
      [ mkMessage 176 [JInt 0x65; JInt 0] (JInt 1);
        mkMessage 176 [JInt 0x64; JInt 0] (JInt 1);
        mkMessage 176 [JInt 0x06; JInt 12] (JInt 1);
        mkMessage 176 [JInt 0x65; JInt 127] (JInt 0);
        mkMessage 176 [JInt 0x64; JInt 127] (JInt 0) ].
Proof.
  apply (setRegisteredParameter_pitchbendrange Reference.noExponent
           (Reference.WebMidi 0) (Reference.channel 1) None).
  - vm_compute. reflexivity.
  - left. reflexivity.
Defined.

(** C1, as stated, fails: with the two data bytes [12, 0] the sequence has
    six messages, the fourth being controller 0x26 with value 0. *)
Lemma pitchbendrange_two_bytes_six_messages :
  map data (sent (setRegisteredParameter Reference.noExponent
                    (Reference.WebMidi 0) (Reference.channel 1)
                    (ParameterName "pitchbendrange")
                    (DataArray [JInt 12; JInt 0]) None))
  = [ [JInt 0x65; JInt 0]; [JInt 0x64; JInt 0]; [JInt 0x06; JInt 12];
      [JInt 0x26; JInt 0]; [JInt 0x65; JInt 127]; [JInt 0x64; JInt 127] ]
  /\ map data (sent (setRegisteredParameter Reference.noExponent
                       (Reference.WebMidi 0) (Reference.channel 1)
                       (ParameterName "pitchbendrange")
                       (DataArray [JInt 12; JInt 0]) None))
     <> [ [JInt 0x65; JInt 0]; [JInt 0x64; JInt 0]; [JInt 0x06; JInt 12];
          [JInt 0x65; JInt 127]; [JInt 0x64; JInt 127] ].
Proof. split; [vm_compute; reflexivity | vm_compute; discriminate]. Qed.

(** ** Program change *)



(** ** Note off without options *)

(** C10: [sendNoteOff(note)] and its alias [stopNote(note)], called without
    the options argument, throw a TypeError and send nothing, whatever the
    note. *)
Theorem sendNoteOff_without_options
    (W : WebMidiModule) (this : OutputChannel) (note : NoteInput) :
  (exists msg, completion (sendNoteOff W this note None) = Throw (TypeError msg))
  /\ sent (sendNoteOff W this note None) = []
  /\ (exists msg, completion (stopNote W this note None) = Throw (TypeError msg))
  /\ sent (stopNote W this note None) = [].
Proof.
  unfold stopNote, sendNoteOff. simpl. repeat split; eexists; reflexivity.
Qed.

(** ** Rounding to binary64 *)

Lemma round_even_floor (q : Q) : Qfloor q <= round_even q <= Qfloor q + 1.
Proof.
  unfold round_even.
  destruct (_ ?= _)%Q; [destruct (Z.even _) | |]; lia.
Qed.

Lemma round_even_le (x y : Q) : (x <= y)%Q -> round_even x <= round_even y.
Proof.
  intros H. pose proof (Qfloor_resp_le _ _ H) as Hf.
  destruct (Z.eq_dec (Qfloor x) (Qfloor y)) as [E | E].
  - unfold round_even. rewrite E.
    destruct (Qcompare_spec (x - inject_Z (Qfloor y)) (1 # 2)) as [Hx | Hx | Hx];
      destruct (Qcompare_spec (y - inject_Z (Qfloor y)) (1 # 2)) as [Hy | Hy | Hy];
      destruct (Z.even (Qfloor y)); try lia; exfalso; lra.
  - pose proof (round_even_floor x). pose proof (round_even_floor y). lia.
Qed.

Lemma round_even_Z (n : Z) : round_even (inject_Z n) = n.
Proof.
  unfold round_even. rewrite Qfloor_Z.
  destruct (Qcompare_spec (inject_Z n - inject_Z n) (1 # 2)) as [H | H | H];
    [exfalso; lra | reflexivity | exfalso; lra].
Qed.

Lemma pow2_pos (k : Z) : (0 < 2 ^ k)%Q.
Proof. now apply Qpower_0_lt. Qed.

Lemma pow2_add (a b : Z) : (2 ^ (a + b) == 2 ^ a * 2 ^ b)%Q.
Proof. now apply Qpower_plus. Qed.

Lemma pow2_le (a b : Z) : a <= b -> (2 ^ a <= 2 ^ b)%Q.
Proof. intros H. apply Qpower_le_compat_l; [exact H | discriminate]. Qed.

Lemma pow2_Z (k : Z) : 0 <= k -> (2 ^ k == inject_Z (2 ^ k))%Q.
Proof. intros H. now rewrite Zpower_Qpower. Qed.

Lemma pow2_succ (k : Z) : (2 ^ (k + 1) == 2 * 2 ^ k)%Q.
Proof. rewrite pow2_add. change (2 ^ 1)%Q with 2%Q. ring. Qed.

Lemma pow2_cancel (k : Z) : (2 ^ (- k) * 2 ^ k == 1)%Q.
Proof. rewrite <- pow2_add. now replace (- k + k) with 0 by lia. Qed.

Lemma binade_spec (q : Q) :
  (0 < q)%Q -> (2 ^ binade q <= q)%Q /\ (q < 2 ^ (binade q + 1))%Q.
Proof.
  intros Hq. unfold binade.
  destruct q as [a d]. simpl Qnum. simpl Qden.
  assert (Ha : 0 < a) by (unfold Qlt in Hq; simpl in Hq; lia).
  set (la := Z.log2 a). set (ld := Z.log2 (Z.pos d)).
  destruct (Z.log2_spec a Ha) as [Ha1 Ha2]. fold la in Ha1, Ha2.
  destruct (Z.log2_spec (Z.pos d) eq_refl) as [Hd1 Hd2]. fold ld in Hd1, Hd2.
  assert (Hla : 0 <= la) by apply Z.log2_nonneg.
  assert (Hld : 0 <= ld) by apply Z.log2_nonneg.
  assert (Hq' : (a # d == inject_Z a * / inject_Z (Z.pos d))%Q)
    by (rewrite Qmake_Qdiv; reflexivity).
  assert (HD : (0 < inject_Z (Z.pos d))%Q) by reflexivity.
  assert (HA1 : (2 ^ la <= inject_Z a)%Q) by (rewrite pow2_Z, <- Zle_Qle; lia).
  assert (HA2 : (inject_Z a < 2 * 2 ^ la)%Q).
  { rewrite <- pow2_succ, pow2_Z, <- Zlt_Qlt by lia.
    now rewrite <- Z.add_1_r in Ha2. }
  assert (HD1 : (2 ^ ld <= inject_Z (Z.pos d))%Q) by (rewrite pow2_Z, <- Zle_Qle; lia).
  assert (HD2 : (inject_Z (Z.pos d) < 2 * 2 ^ ld)%Q).
  { rewrite <- pow2_succ, pow2_Z, <- Zlt_Qlt by lia.
    now rewrite <- Z.add_1_r in Hd2. }
  assert (He : (2 ^ (la - ld) * 2 ^ ld == 2 ^ la)%Q).
  { rewrite <- pow2_add. now replace (la - ld + ld) with la by lia. }
  pose proof (pow2_pos la) as Pla. pose proof (pow2_pos ld) as Pld.
  pose proof (pow2_pos (la - ld)) as Pe.
  assert (Hqd : ((a # d) * inject_Z (Z.pos d) == inject_Z a)%Q).
  { rewrite Hq'. field. intros H0. rewrite H0 in HD. discriminate. }
  set (e := la - ld) in *.
  destruct (Qle_bool (2 ^ e) (a # d)) eqn:Hcmp.
  - apply Qle_bool_iff in Hcmp. split; [exact Hcmp |].
    rewrite pow2_succ.
    (* q * D = A < 2 * 2^la = 2 * 2^e * 2^ld <= 2 * 2^e * D *)
    apply Qnot_le_lt. intros Hc.
    assert (H1 : (2 * 2 ^ e * inject_Z (Z.pos d) <= (a # d) * inject_Z (Z.pos d))%Q)
      by (apply Qmult_le_compat_r; [exact Hc | now apply Qlt_le_weak]).
    assert (H2 : (2 * 2 ^ e * 2 ^ ld <= 2 * 2 ^ e * inject_Z (Z.pos d))%Q)
      by (apply Qmult_le_l; [lra | exact HD1]).
    rewrite Hqd in H1.
    assert (H3 : (2 * 2 ^ e * 2 ^ ld == 2 * 2 ^ la)%Q) by (rewrite <- He; ring).
    rewrite H3 in H2. lra.
  - assert (Hlt : (a # d < 2 ^ e)%Q).
    { apply Qnot_le_lt. intros Hc. apply Qle_bool_iff in Hc. congruence. }
    replace (e - 1 + 1) with e by lia. split; [| exact Hlt].
    (* 2^(e-1) * D < 2^(e-1) * 2 * 2^ld = 2^la <= A = q * D *)
    assert (Hh : (2 ^ e == 2 * 2 ^ (e - 1))%Q).
    { rewrite <- pow2_succ. now replace (e - 1 + 1) with e by lia. }
    pose proof (pow2_pos (e - 1)) as Pe1.
    apply Qnot_lt_le. intros Hc.
    assert (H1 : ((a # d) * inject_Z (Z.pos d) < 2 ^ (e - 1) * inject_Z (Z.pos d))%Q)
      by (apply Qmult_lt_compat_r; assumption).
    assert (H2 : (2 ^ (e - 1) * inject_Z (Z.pos d) < 2 ^ (e - 1) * (2 * 2 ^ ld))%Q)
      by (apply Qmult_lt_l; assumption).
    rewrite Hqd in H1.
    assert (H3 : (2 ^ (e - 1) * (2 * 2 ^ ld) == 2 ^ la)%Q)
      by (rewrite <- He, Hh; ring).
    rewrite H3 in H2. lra.
Qed.

Lemma binade_le (x y : Q) : (0 < x)%Q -> (x <= y)%Q -> binade x <= binade y.
Proof.
  intros Hx Hxy.
  assert (Hy : (0 < y)%Q) by lra.
  destruct (binade_spec x Hx) as [Hx1 _].
  destruct (binade_spec y Hy) as [_ Hy2].
  destruct (Z_le_gt_dec (binade x) (binade y)) as [H | H]; [exact H |].
  exfalso. pose proof (pow2_le (binade y + 1) (binade x) ltac:(lia)). lra.
Qed.

(** Scaling by a power of two and rounding, between integer bounds. *)
Lemma scaled_le (x : Q) (k n : Z) :
  (x <= inject_Z n * 2 ^ k)%Q ->
  (inject_Z (round_even (x * 2 ^ (- k))) * 2 ^ k <= inject_Z n * 2 ^ k)%Q.
Proof.
  intros H. pose proof (pow2_pos k) as Pk. pose proof (pow2_pos (- k)) as Pk'.
  apply Qmult_le_compat_r; [| lra].
  rewrite <- Zle_Qle. rewrite <- (round_even_Z n). apply round_even_le.
  assert (H1 : (x * 2 ^ (- k) <= inject_Z n * 2 ^ k * 2 ^ (- k))%Q)
    by (apply Qmult_le_compat_r; [exact H | lra]).
  assert (H2 : (inject_Z n * 2 ^ k * 2 ^ (- k) == inject_Z n)%Q).
  { rewrite <- Qmult_assoc, (Qmult_comm (2 ^ k)), pow2_cancel. ring. }
  now rewrite H2 in H1.
Qed.

Lemma scaled_ge (x : Q) (k n : Z) :
  (inject_Z n * 2 ^ k <= x)%Q ->
  (inject_Z n * 2 ^ k <= inject_Z (round_even (x * 2 ^ (- k))) * 2 ^ k)%Q.
Proof.
  intros H. pose proof (pow2_pos k) as Pk. pose proof (pow2_pos (- k)) as Pk'.
  apply Qmult_le_compat_r; [| lra].
  rewrite <- Zle_Qle. rewrite <- (round_even_Z n) at 1. apply round_even_le.
  assert (H1 : (inject_Z n * 2 ^ k * 2 ^ (- k) <= x * 2 ^ (- k))%Q)
    by (apply Qmult_le_compat_r; [exact H | lra]).
  assert (H2 : (inject_Z n * 2 ^ k * 2 ^ (- k) == inject_Z n)%Q).
  { rewrite <- Qmult_assoc, (Qmult_comm (2 ^ k)), pow2_cancel. ring. }
  now rewrite H2 in H1.
Qed.

Lemma binary64_pos_nonneg (x : Q) : (0 < x)%Q -> (0 <= binary64_pos x)%Q.
Proof.
  intros Hx. unfold binary64_pos.
  set (k := Z.max (binade x - 52) (-1074)).
  pose proof (scaled_ge x k 0) as H.
  assert (H0 : (inject_Z 0 * 2 ^ k == 0)%Q) by ring.
  rewrite H0 in H. apply H. lra.
Qed.

Lemma binary64_pos_le (x y : Q) :
  (0 < x)%Q -> (x <= y)%Q -> (binary64_pos x <= binary64_pos y)%Q.
Proof.
  intros Hx Hxy.
  assert (Hy : (0 < y)%Q) by lra.
  pose proof (binade_le x y Hx Hxy) as He.
  destruct (binade_spec x Hx) as [_ Hx2].
  destruct (binade_spec y Hy) as [Hy1 _].
  unfold binary64_pos.
  set (kx := Z.max (binade x - 52) (-1074)).
  set (ky := Z.max (binade y - 52) (-1074)).
  assert (Hk : kx <= ky) by lia.
  destruct (Z.eq_dec kx ky) as [E | E].
  - rewrite E. pose proof (pow2_pos ky). pose proof (pow2_pos (- ky)).
    apply Qmult_le_compat_r; [| lra].
    rewrite <- Zle_Qle. apply round_even_le.
    apply Qmult_le_compat_r; [exact Hxy | lra].
  - assert (Hky : ky = binade y - 52) by lia.
    assert (Hex : binade x + 1 <= binade y) by lia.
    (* both sides are compared with 2 ^ binade y *)
    apply Qle_trans with (2 ^ binade y)%Q.
    + assert (Hn : (2 ^ binade y == inject_Z (2 ^ (binade y - kx)) * 2 ^ kx)%Q).
      { rewrite <- pow2_Z, <- pow2_add by lia.
        now replace (binade y - kx + kx) with (binade y) by lia. }
      rewrite Hn. apply scaled_le. rewrite <- Hn.
      pose proof (pow2_le (binade x + 1) (binade y) Hex). lra.
    + assert (Hn : (2 ^ binade y == inject_Z (2 ^ 52) * 2 ^ ky)%Q).
      { rewrite <- pow2_Z, <- pow2_add by lia.
        now replace (52 + ky) with (binade y) by lia. }
      rewrite Hn. apply scaled_ge. rewrite <- Hn. exact Hy1.
Qed.

Lemma binary64_nonneg (x : Q) : (0 <= x)%Q -> (0 <= binary64 x)%Q.
Proof.
  intros Hx. unfold binary64.
  destruct (Qcompare_spec x 0) as [H | H | H].
  - lra.
  - exfalso. lra.
  - rewrite Qred_correct. now apply binary64_pos_nonneg.
Qed.

Lemma binary64_nonpos (x : Q) : (x <= 0)%Q -> (binary64 x <= 0)%Q.
Proof.
  intros Hx. unfold binary64.
  destruct (Qcompare_spec x 0) as [H | H | H].
  - lra.
  - rewrite Qred_correct.
    assert (H' : (0 < - x)%Q) by lra.
    pose proof (binary64_pos_nonneg (- x) H'). lra.
  - exfalso. lra.
Qed.

(** Rounding to binary64 is monotone. *)
Lemma binary64_le (x y : Q) : (x <= y)%Q -> (binary64 x <= binary64 y)%Q.
Proof.
  intros Hxy.
  destruct (Qlt_le_dec 0 x) as [Hx | Hx].
  - unfold binary64.
    destruct (Qcompare_spec x 0) as [H | H | H]; [exfalso; lra | exfalso; lra |].
    destruct (Qcompare_spec y 0) as [H' | H' | H']; [exfalso; lra | exfalso; lra |].
    rewrite !Qred_correct. now apply binary64_pos_le.
  - destruct (Qlt_le_dec y 0) as [Hy | Hy].
    + unfold binary64.
      destruct (Qcompare_spec x 0) as [H | H | H]; [exfalso; lra | | exfalso; lra].
      destruct (Qcompare_spec y 0) as [H' | H' | H']; [exfalso; lra | | exfalso; lra].
      rewrite !Qred_correct.
      assert (H1 : (0 < - y)%Q) by lra.
      assert (H2 : (- y <= - x)%Q) by lra.
      pose proof (binary64_pos_le (- y) (- x) H1 H2). lra.
    + apply Qle_trans with 0%Q;
        [now apply binary64_nonpos | now apply binary64_nonneg].
Qed.

(** A number between two binary64 numbers rounds between them. *)
Lemma binary64_between (lo hi x : Q) :
  binary64 lo = lo -> binary64 hi = hi ->
  (lo <= x)%Q -> (x <= hi)%Q ->
  (lo <= binary64 x)%Q /\ (binary64 x <= hi)%Q.
Proof.
  intros Hlo Hhi H1 H2. split.
  - rewrite <- Hlo. now apply binary64_le.
  - rewrite <- Hhi. now apply binary64_le.
Qed.

(** Equal rationals round to the same number. *)
Lemma round_even_comp (x y : Q) : (x == y)%Q -> round_even x = round_even y.
Proof.
  intros H. unfold round_even. rewrite (Qfloor_comp x y H).
  assert (Hc : (x - inject_Z (Qfloor y) ?= 1 # 2)%Q
               = (y - inject_Z (Qfloor y) ?= 1 # 2)%Q)
    by (apply Qcompare_comp; [now rewrite H | reflexivity]).
  now rewrite Hc.
Qed.

Lemma binade_comp (x y : Q) : (0 < x)%Q -> (x == y)%Q -> binade x = binade y.
Proof.
  intros Hx H.
  assert (Hy : (0 < y)%Q) by now rewrite <- H.
  apply Z.le_antisymm; apply binade_le; try assumption; rewrite H; apply Qle_refl.
Qed.

Lemma binary64_pos_comp (x y : Q) :
  (0 < x)%Q -> (x == y)%Q -> (binary64_pos x == binary64_pos y)%Q.
Proof.
  intros Hx H. unfold binary64_pos. rewrite (binade_comp x y Hx H).
  rewrite (round_even_comp (x * _) (y * 2 ^ (- Z.max (binade y - 52) (-1074)))).
  - reflexivity.
  - now rewrite H.
Qed.

Lemma binary64_comp (x y : Q) : (x == y)%Q -> binary64 x = binary64 y.
Proof.
  intros H. unfold binary64.
  assert (Hc : (x ?= 0)%Q = (y ?= 0)%Q) by (apply Qcompare_comp; [exact H | reflexivity]).
  rewrite <- Hc.
  destruct (Qcompare_spec x 0) as [H0 | H0 | H0].
  - reflexivity.
  - apply Qred_complete.
    assert (Hx : (0 < - x)%Q) by lra.
    assert (Hxy : (- x == - y)%Q) by now rewrite H.
    now rewrite (binary64_pos_comp (- x) (- y) Hx Hxy).
  - apply Qred_complete. now apply binary64_pos_comp.
Qed.

Lemma binary64_pos_integer (z : Z) :
  0 < z < 2 ^ 53 -> (binary64_pos (inject_Z z) == inject_Z z)%Q.
Proof.
  intros Hz.
  assert (Hq : (0 < inject_Z z)%Q) by (rewrite <- (Zlt_Qlt 0); lia).
  destruct (binade_spec (inject_Z z) Hq) as [He _].
  assert (Hbin : binade (inject_Z z) <= 52).
  { destruct (Z_le_gt_dec (binade (inject_Z z)) 52) as [H | H]; [exact H |].
    exfalso. pose proof (pow2_le 53 (binade (inject_Z z)) ltac:(lia)) as Hp.
    rewrite (pow2_Z 53) in Hp by lia.
    assert (Hc : (inject_Z (2 ^ 53) <= inject_Z z)%Q) by lra.
    rewrite <- Zle_Qle in Hc. lia. }
  unfold binary64_pos.
  set (k := Z.max (binade (inject_Z z) - 52) (-1074)).
  assert (Hk : 0 <= - k) by lia.
  assert (Hs : (inject_Z z * 2 ^ (- k) == inject_Z (z * 2 ^ (- k)))%Q)
    by (rewrite inject_Z_mult, (pow2_Z (- k) Hk); reflexivity).
  rewrite (round_even_comp _ _ Hs), round_even_Z, inject_Z_mult.
  rewrite <- (pow2_Z (- k) Hk), <- Qmult_assoc, pow2_cancel. ring.
Qed.

(** On integers below 2^53 in magnitude the rounding changes nothing. *)
Lemma binary64_integer (z : Z) :
  - 2 ^ 53 < z < 2 ^ 53 -> binary64 (inject_Z z) = inject_Z z.
Proof.
  intros Hz. unfold binary64.
  destruct (Qcompare_spec (inject_Z z) 0) as [H | H | H].
  - assert (z = 0) by (unfold Qeq in H; simpl in H; lia). now subst z.
  - change 0%Q with (inject_Z 0) in H. rewrite <- (Zlt_Qlt z 0) in H.
    rewrite <- (Qred_inject_Z z) at 2. apply Qred_complete.
    change (- inject_Z z)%Q with (inject_Z (- z)).
    rewrite binary64_pos_integer by lia. rewrite inject_Z_opp. ring.
  - change 0%Q with (inject_Z 0) in H. rewrite <- (Zlt_Qlt 0 z) in H.
    rewrite <- (Qred_inject_Z z) at 2. apply Qred_complete.
    apply binary64_pos_integer. lia.
Qed.

(** So the sums and differences of integers that the methods write as
    exact are the rounded ones. *)
Lemma integer_arithmetic_exact (a b : Z) :
  - 2 ^ 53 < a + b < 2 ^ 53 -> - 2 ^ 53 < a - b < 2 ^ 53 ->
  add64 (num a) (num b) = num_add (num a) (num b)
  /\ sub64 (num a) (num b) = num_sub (num a) (num b).
Proof.
  intros Hadd Hsub. unfold add64, sub64, num_add, num_sub, num. split; f_equal.
  - rewrite (binary64_comp _ (inject_Z (a + b)))
      by (rewrite inject_Z_plus; reflexivity).
    rewrite binary64_integer by assumption.
    rewrite <- (Qred_inject_Z (a + b)) at 1. apply Qred_complete.
    rewrite inject_Z_plus. reflexivity.
  - rewrite (binary64_comp _ (inject_Z (a - b)))
      by (unfold Zminus; rewrite inject_Z_plus, inject_Z_opp; reflexivity).
    rewrite binary64_integer by assumption.
    rewrite <- (Qred_inject_Z (a - b)) at 1. apply Qred_complete.
    unfold Zminus. rewrite inject_Z_plus, inject_Z_opp. reflexivity.
Qed.

(** The numbers met in the statements below are binary64 numbers. *)
Lemma binary64_constants :
  binary64 0 = 0%Q /\ binary64 1 = 1%Q /\ binary64 2 = 2%Q
  /\ binary64 (1 # 2) = (1 # 2)%Q /\ binary64 127 = 127%Q
  /\ binary64 16383 = 16383%Q /\ binary64 (16383 # 2) = (16383 # 2)%Q.
Proof. vm_compute. repeat split. Qed.

(** ** Pitch bend *)

Lemma ToInt32_small (z : Z) : - 2 ^ 31 <= z < 2 ^ 31 -> ToInt32 z = z.
Proof.
  intros H. unfold ToInt32. rewrite Z.mod_small; lia.
Qed.

Lemma truncate_num (z : Z) : truncate (num z) = z.
Proof. unfold truncate, num, Qtrunc. simpl. apply Z.quot_1_r. Qed.

(** A 14-bit value is the merge of its two 7-bit halves. *)
Lemma fourteen_bit_merge (n : Z) :
  0 <= n < 16384 ->
  Z.lor (Z.shiftl (Z.land (Z.shiftr n 7) 127) 7) (Z.land n 127) = n.
Proof.
  intros Hn. change 127 with (Z.ones 7).
  apply Z.bits_inj'. intros i Hi.
  rewrite Z.lor_spec, Z.land_spec.
  destruct (Z.lt_ge_cases i 7) as [Hlt | Hge].
  - rewrite Z.shiftl_spec_low by lia.
    rewrite Z.ones_spec_low by lia. simpl. apply andb_true_r.
  - rewrite Z.shiftl_spec by lia.
    rewrite Z.land_spec, Z.shiftr_spec by lia.
    replace (i - 7 + 7) with i by lia.
    rewrite (Z.ones_spec_high 7 i) by lia.
    rewrite andb_false_r, orb_false_r.
    destruct (Z.lt_ge_cases i 14) as [Hlt | Hge'].
    + rewrite Z.ones_spec_low by lia. apply andb_true_r.
    + rewrite Z.ones_spec_high by lia. rewrite andb_false_r.
      symmetry. destruct (Z.eq_dec n 0) as [-> | Hnz].
      * apply Z.bits_0.
      * apply Z.bits_above_log2; [lia |].
        assert (Z.log2 n < 14) by (apply Z.log2_lt_pow2; lia). lia.
Qed.

Lemma land_127_range (a : Z) : 0 <= Z.land a 127 <= 127.
Proof.
  replace (Z.land a 127) with (a mod 128).
  - pose proof (Z.mod_pos_bound a 128 ltac:(lia)). lia.
  - change 127 with (Z.ones 7). now rewrite Z.land_ones by lia.
Qed.

(** What the bit operators of [setPitchBend] compute on a 14-bit level. *)
Lemma js_split_small (n : Z) :
  0 <= n < 16384 ->
  js_and (js_sar n 7) 0x7F = Z.land (Z.shiftr n 7) 127
  /\ js_and n 0x7F = Z.land n 127.
Proof.
  intros Hn. unfold js_and, js_sar.
  change (Z.land 7 31) with 7.
  rewrite (ToInt32_small n) by lia.
  rewrite (ToInt32_small 127) by lia.
  assert (0 <= Z.shiftr n 7 < 128).
  { rewrite Z.shiftr_div_pow2 by lia. change (2 ^ 7) with 128.
    split; [apply Z.div_pos; lia | apply Z.div_lt_upper_bound; lia]. }
  rewrite (ToInt32_small (Z.shiftr n 7)) by lia.
  split; reflexivity.
Qed.

(** The level the program computes, and its range for a bend in [-1, 1]:
    each rounding keeps its argument between the binary64 numbers that
    enclose it. *)
Lemma pitchBend_level (v : Q) :
  Math_round (mul64 (div64 (add64 (Fin v) (num 1)) (num 2)) (num 16383))
  = num (bendLevel v).
Proof. reflexivity. Qed.

Lemma round_range (lo hi : Z) (x : Q) :
  (inject_Z lo - (1 # 2) <= x)%Q -> (x <= inject_Z hi)%Q ->
  lo <= round x <= hi.
Proof.
  intros Hlo Hhi. unfold round.
  assert (H0 : (inject_Z lo <= x + (1 # 2))%Q) by lra.
  assert (H1 : (x + (1 # 2) <= inject_Z hi + (1 # 2))%Q) by lra.
  apply Qfloor_resp_le in H0, H1. rewrite Qfloor_Z in H0.
  assert (H2 : Qfloor (inject_Z hi + (1 # 2)) = hi).
  { apply Z.le_antisymm.
    - apply Z.lt_succ_r. rewrite Zlt_Qlt.
      apply Qle_lt_trans with (inject_Z hi + (1 # 2))%Q; [apply Qfloor_le |].
      unfold Z.succ. rewrite inject_Z_plus. change (inject_Z 1) with 1%Q. lra.
    - rewrite <- (Qfloor_Z hi) at 1. apply Qfloor_resp_le. lra. }
  lia.
Qed.

Lemma bendLevel_bounds (a1 b1 a2 b2 a3 b3 v : Q) :
  binary64 a1 = a1 -> binary64 b1 = b1 ->
  binary64 a2 = a2 -> binary64 b2 = b2 ->
  binary64 a3 = a3 -> binary64 b3 = b3 ->
  (a2 == a1 / 2)%Q -> (b2 == b1 / 2)%Q ->
  (a3 == a2 * 16383)%Q -> (b3 == b2 * 16383)%Q ->
  (a1 <= v + 1)%Q -> (v + 1 <= b1)%Q ->
  (a3 <= binary64 (binary64 (binary64 (v + 1) / 2) * 16383))%Q
  /\ (binary64 (binary64 (binary64 (v + 1) / 2) * 16383) <= b3)%Q.
Proof.
  intros A1 B1 A2 B2 A3 B3 Ea2 Eb2 Ea3 Eb3 Hlo Hhi.
  destruct (binary64_between a1 b1 (v + 1) A1 B1 Hlo Hhi) as [L1 H1].
  destruct (binary64_between a2 b2 (binary64 (v + 1) / 2) A2 B2) as [L2 H2].
  { rewrite Ea2. unfold Qdiv. apply Qmult_le_compat_r; [exact L1 | discriminate]. }
  { rewrite Eb2. unfold Qdiv. apply Qmult_le_compat_r; [exact H1 | discriminate]. }
  apply (binary64_between _ _ _ A3 B3).
  - rewrite Ea3. apply Qmult_le_compat_r; [exact L2 | discriminate].
  - rewrite Eb3. apply Qmult_le_compat_r; [exact H2 | discriminate].
Qed.

Lemma bendLevel_range (v : Q) :
  (-1 <= v)%Q -> (v <= 1)%Q -> 0 <= bendLevel v <= 16383.
Proof.
  intros Hlo Hhi. unfold bendLevel.
  destruct (bendLevel_bounds 0 2 0 1 0 16383 v) as [A B];
    [vm_compute; reflexivity .. | lra | lra |].
  apply round_range.
  - eapply Qle_trans; [| exact A]. vm_compute. discriminate.
  - exact B.
Qed.

(** Where binary64 and exact arithmetic part.  At the binary64 number
    v = -13192797274107 / 2^44 the three rounded operations give exactly
    2048.5 and so the level 2049, although (v + 1) / 2 * 16383 itself lies
    below 2048.5; at v = -2^-70 the sum v + 1 rounds to 1 and the level is
    8192, the centre. *)
Lemma bendLevel_rounding :
  bendLevel (-13192797274107 # 17592186044416) = 2049
  /\ round (((-13192797274107 # 17592186044416) + 1) / 2 * 16383) = 2048
  /\ bendLevel (-1 # 1180591620717411303424) = 8192
  /\ round (((-1 # 1180591620717411303424) + 1) / 2 * 16383) = 8191.
Proof. vm_compute. repeat split. Qed.

(** C5: for every bend v in [-1, 1] (raw flag off), [setPitchBend(v)] emits
    one pitch-bend message whose data is [lsb, msb], least significant
    byte first, where msb and lsb are the upper and lower seven bits of
    the level Math.round((v + 1) / 2 * 16383), evaluated in binary64
    arithmetic as the program does; the level lies in [0, 16383], so that
    (msb << 7) | lsb gives it back exactly. *)
Theorem setPitchBend_lsb_msb
    (W : WebMidiModule) (this : OutputChannel) (v : Q)
    (options : option Options) :
  (-1 <= v)%Q -> (v <= 1)%Q ->
  truthy (rawValue (orEmpty options)) = false ->
  exists lsb msb : Z,
    setPitchBend W this (JNumber (Fin v)) options
    = mkRun (Normal tt)
        [ mkMessage (js_shl (pitchbend (MIDI_CHANNEL_VOICE_MESSAGES W)) 4
                     + (number this - 1))
                    [JInt lsb; JInt msb]
                    (convertToTimestamp W (time (orEmpty options))) ]
    /\ msb = Z.land (Z.shiftr (bendLevel v) 7) 127
    /\ lsb = Z.land (bendLevel v) 127
    /\ 0 <= lsb <= 127 /\ 0 <= msb <= 127
    /\ 0 <= bendLevel v <= 16383
    /\ Z.lor (Z.shiftl msb 7) lsb = bendLevel v.
Proof.
  intros Hlo Hhi Hraw.
  pose proof (bendLevel_range v Hlo Hhi) as Hrange.
  destruct (js_split_small (bendLevel v) ltac:(lia)) as [Hmsb Hlsb].
  pose proof (land_127_range (bendLevel v)) as Blsb.
  pose proof (land_127_range (Z.shiftr (bendLevel v) 7)) as Bmsb.
  exists (Z.land (bendLevel v) 127), (Z.land (Z.shiftr (bendLevel v) 7) 127).
  repeat split; try lia; [| apply fourteen_bit_merge; lia].
  unfold setPitchBend. simpl parseFloat.
  change (isNaN (JNumber (Fin v))) with false. cbv iota.
  rewrite Hraw.
  assert (Hguard : num_lt (Fin v) (num (-1)) || num_gt (Fin v) (num 1) = false).
  { unfold num_gt, num_lt, num. apply orb_false_iff. split; apply negb_false_iff;
      apply Qle_bool_iff; assumption. }
  rewrite Hguard, pitchBend_level, truncate_num, Hmsb, Hlsb. reflexivity.
Qed.

Lemma setPitchBend_lsb_msb_witness :
  exists lsb msb : Z,
    setPitchBend (Reference.WebMidi 0) (Reference.channel 1)
                 (JNumber (Fin (1 # 2))) None
    = mkRun (Normal tt) [ mkMessage (js_shl 0xE 4 + (1 - 1)) [JInt lsb; JInt msb] (JInt 0) ]
    /\ msb = Z.land (Z.shiftr (bendLevel (1 # 2)) 7) 127
    /\ lsb = Z.land (bendLevel (1 # 2)) 127
    /\ 0 <= lsb <= 127 /\ 0 <= msb <= 127
    /\ 0 <= bendLevel (1 # 2) <= 16383
    /\ Z.lor (Z.shiftl msb 7) lsb = bendLevel (1 # 2).
Proof.
  apply (setPitchBend_lsb_msb (Reference.WebMidi 0) (Reference.channel 1)
           (1 # 2) None).
  - vm_compute. discriminate.
  - vm_compute. discriminate.
  - reflexivity.
Defined.

(** ** Range tests *)

Lemma Qfloor_ge_iff (lo : Z) (q : Q) : lo <= Qfloor q <-> (inject_Z lo <= q)%Q.
Proof.
  split; intros H.
  - apply Qle_trans with (inject_Z (Qfloor q)); [| apply Qfloor_le].
    now rewrite <- Zle_Qle.
  - apply Qfloor_resp_le in H. now rewrite Qfloor_Z in H.
Qed.

Lemma Qfloor_le_iff (hi : Z) (q : Q) :
  Qfloor q <= hi <-> (q < inject_Z (hi + 1))%Q.
Proof.
  split; intros H.
  - apply Qlt_le_trans with (inject_Z (Qfloor q + 1)); [apply Qlt_floor |].
    rewrite <- Zle_Qle. lia.
  - assert (Hlt : (inject_Z (Qfloor q) < inject_Z (hi + 1))%Q)
      by (eapply Qle_lt_trans; [apply Qfloor_le | exact H]).
    rewrite <- Zlt_Qlt in Hlt. lia.
Qed.

(** The guard [!(x >= lo && x <= hi)] after [x = Math.floor(q)]. *)
Lemma between_floor (lo hi : Z) (q : Q) :
  between lo hi (Math_floor (Fin q)) = true
  <-> (inject_Z lo <= q)%Q /\ (q < inject_Z (hi + 1))%Q.
Proof.
  change (Math_floor (Fin q)) with (num (Qfloor q)).
  rewrite between_num, andb_true_iff, !Z.leb_le.
  now rewrite Qfloor_ge_iff, Qfloor_le_iff.
Qed.

Lemma between_floor_outside (lo hi : Z) (q : Q) :
  (q < inject_Z lo)%Q \/ (inject_Z (hi + 1) <= q)%Q ->
  between lo hi (Math_floor (Fin q)) = false.
Proof.
  intros H. apply not_true_is_false. rewrite between_floor. intros [H1 H2].
  destruct H as [H | H].
  - exact (Qlt_not_le _ _ H H1).
  - exact (Qlt_not_le _ _ H2 H).
Qed.

Lemma num_lt_true (x y : Q) : (x < y)%Q -> num_lt (Fin x) (Fin y) = true.
Proof.
  intros H. unfold num_lt. apply negb_true_iff, not_true_is_false.
  rewrite Qle_bool_iff. now apply Qlt_not_le.
Qed.

Lemma num_lt_false (x y : Q) : (y <= x)%Q -> num_lt (Fin x) (Fin y) = false.
Proof.
  intros H. unfold num_lt. apply negb_false_iff. now apply Qle_bool_iff.
Qed.

Lemma forEach_single {A} (l : list A) (f : A -> Run unit) (g : A -> Message) :
  (forall x, f x = mkRun (Normal tt) [g x]) ->
  forEach l f = mkRun (Normal tt) (map g l).
Proof.
  intros Hf. induction l as [| x l IH]; [reflexivity |].
  simpl forEach. rewrite IH, Hf. reflexivity.
Qed.

(** ** Pressure and velocity *)

Lemma parseFloat_non_numeric (v : JsValue) : non_numeric v -> parseFloat v = NaN.
Proof.
  intros H. destruct v as [| | b | [| q]]; try reflexivity.
  exfalso. exact (H q eq_refl).
Qed.

Lemma invalid_unit_rejected (v : JsValue) :
  invalid_unit v -> negb (isNaN v) && between 0 1 (ToNumber v) = false.
Proof.
  unfold invalid_unit, isNaN. destruct (ToNumber v) as [| q]; [reflexivity |].
  intros H. simpl. unfold between, num_ge, num_le, num.
  apply not_true_is_false. rewrite andb_true_iff, !Qle_bool_iff.
  intros [H0 H1]. destruct H as [H | H]; eapply Qlt_not_le; eauto.
Qed.

(** The note senders when the options hold a normalized velocity only. *)
Lemma sendNoteOn_attack_only (W : WebMidiModule) (this : OutputChannel)
    (note : NoteInput) (vel : JsValue) (t : TimeSpec) :
  sendNoteOn W this note (Some (set_attack vel (timeOptions t)))
  = (notes ← call (getValidNoteArray W note
                     (Some (set_rawAttack
                              (if negb (isNaN vel) && between 0 1 (ToNumber vel)
                               then JNumber (mul64 (ToNumber vel) (num 127))
                               else JInt 64)
                              emptyOptions)));
     forEach notes (fun n =>
       send (js_shl (noteon (MIDI_CHANNEL_VOICE_MESSAGES W)) 4 + (number this - 1))
            [Note.number n; Note.rawAttack n]
            (convertToTimestamp W t)) ;;
     mret (set_attack vel (timeOptions t))).
Proof. reflexivity. Qed.

Lemma sendNoteOff_release_only (W : WebMidiModule) (this : OutputChannel)
    (note : NoteInput) (vel : JsValue) (t : TimeSpec) :
  sendNoteOff W this note (Some (set_release vel (timeOptions t)))
  = (notes ← call (getValidNoteArray W note
                     (Some (set_rawRelease
                              (if negb (isNaN vel) && between 0 1 (ToNumber vel)
                               then JNumber (mul64 (ToNumber vel) (num 127))
                               else JInt 64)
                              emptyOptions)));
     forEach notes (fun n =>
       send (js_shl (noteoff (MIDI_CHANNEL_VOICE_MESSAGES W)) 4 + (number this - 1))
            [Note.number n; Note.rawRelease n]
            (convertToTimestamp W t)) ;;
     mret (set_release vel (timeOptions t))).
Proof.
  unfold sendNoteOff. simpl readProperties. now rewrite bind_mret.
Qed.

Lemma coerced_velocity (c : JsValue) (k : Z) :
  coerced c = Some k ->
  (if negb (isNaN c) && between 0 1 (ToNumber c)
   then JNumber (mul64 (ToNumber c) (num 127)) else JInt 64)
  = JInt (k * 127).
Proof.
  destruct c as [| | [|] | n]; try discriminate; intros [= <-]; reflexivity.
Qed.

(** C7: what the code does with an expressive input it cannot use.  With
    the raw flags off, a pressure from which [parseFloat] reads no number
    ([undefined], [null], a boolean, [NaN]) is replaced by 0.5 and the
    aftertouch message is sent with the byte 64, for
    [setChannelAftertouch] and, for every resolved note,
    [setKeyAftertouch].  A numeric pressure below 0 or above 1 is not
    replaced: both operations throw a RangeError and nothing is sent,
    where the documentation of the parameter promises that an invalid
    pressure silently triggers the default.  A normalized velocity
    ([attack] of [sendNoteOn], [release] of [sendNoteOff]) that [isNaN]
    rejects or that lies outside [0, 1] does not fail: the default 64 is
    the velocity handed to the note resolver and the messages are sent.
    [null] and the booleans are no such velocity: they count as the
    numbers 0 and 1, and 0 or 127 is handed to the resolver, not 64. *)
Theorem expressive_input_policy
    (W : WebMidiModule) (this : OutputChannel) (options : Options)
    (pressure : JsValue) (q : Q) (vel c : JsValue) (k : Z) (t : TimeSpec)
    (note : NoteInput) (notes notesOn notesOff notesOn' notesOff' : list Note.t) :
  truthy (rawValue options) = false ->
  truthy (useRawValue options) = false ->
  non_numeric pressure ->
  (q < 0)%Q \/ (1 < q)%Q ->
  invalid_unit vel ->
  coerced c = Some k ->
  getValidNoteArray W note None = Normal notes ->
  getValidNoteArray W note (Some (set_rawAttack (JInt 64) emptyOptions))
    = Normal notesOn ->
  getValidNoteArray W note (Some (set_rawRelease (JInt 64) emptyOptions))
    = Normal notesOff ->
  getValidNoteArray W note (Some (set_rawAttack (JInt (k * 127)) emptyOptions))
    = Normal notesOn' ->
  getValidNoteArray W note (Some (set_rawRelease (JInt (k * 127)) emptyOptions))
    = Normal notesOff' ->
  setChannelAftertouch W this pressure (Some options)
  = mkRun (Normal tt)
      [ mkMessage (js_shl (channelaftertouch (MIDI_CHANNEL_VOICE_MESSAGES W)) 4
                   + (number this - 1))
                  [JInt 64] (convertToTimestamp W (time options)) ]
  /\ setKeyAftertouch W this note pressure (Some options)
     = mkRun (Normal tt)
         (map (fun n =>
                 mkMessage (js_shl (keyaftertouch (MIDI_CHANNEL_VOICE_MESSAGES W)) 4
                            + (number this - 1))
                           [Note.number n; JInt 64]
                           (convertToTimestamp W (time options)))
              notes)
  /\ setChannelAftertouch W this (JNumber (Fin q)) (Some options)
     = mkRun (Throw (RangeError "Pitch bend value must be between 0 and 1.")) []
  /\ setKeyAftertouch W this note (JNumber (Fin q)) (Some options)
     = mkRun (Throw (RangeError "Pressure value must be between 0 and 1.")) []
  /\ sendNoteOn W this note (Some (set_attack vel (timeOptions t)))
     = mkRun (Normal (set_attack vel (timeOptions t)))
         (noteOnMessages W this t notesOn)
  /\ sendNoteOff W this note (Some (set_release vel (timeOptions t)))
     = mkRun (Normal (set_release vel (timeOptions t)))
         (noteOffMessages W this t notesOff)
  /\ sendNoteOn W this note (Some (set_attack c (timeOptions t)))
     = mkRun (Normal (set_attack c (timeOptions t)))
         (noteOnMessages W this t notesOn')
  /\ sendNoteOff W this note (Some (set_release c (timeOptions t)))
     = mkRun (Normal (set_release c (timeOptions t)))
         (noteOffMessages W this t notesOff').
Proof.
  intros Hraw HuseRaw Hnon Hq Hvel Hc Hnotes HnotesOn HnotesOff
    HnotesOn' HnotesOff'.
  assert (Hguard : num_lt (Fin q) (num 0) || num_gt (Fin q) (num 1) = true).
  { apply orb_true_iff. destruct Hq as [Hq | Hq];
      [left | right]; now apply num_lt_true. }
  pose proof (invalid_unit_rejected vel Hvel) as Hrej.
  pose proof (coerced_velocity c k Hc) as Hco.
  assert (Hhalf : Math_round (mul64 (Fin (1 # 2)) (num 127)) = num 64)
    by (vm_compute; reflexivity).
  unfold noteOnMessages, noteOffMessages.
  repeat split.
  - unfold setChannelAftertouch. simpl orEmpty.
    rewrite (parseFloat_non_numeric _ Hnon), Hraw.
    change (isNaN (JNumber NaN)) with true. cbv iota.
    change (num_lt (Fin (1 # 2)) (num 0) || num_gt (Fin (1 # 2)) (num 1))
      with false. cbv iota.
    rewrite Hhalf. reflexivity.
  - unfold setKeyAftertouch. simpl orEmpty.
    rewrite (parseFloat_non_numeric _ Hnon), HuseRaw, Hnotes.
    change (isNaN (JNumber NaN)) with true. cbv iota.
    change (num_lt (Fin (1 # 2)) (num 0) || num_gt (Fin (1 # 2)) (num 1))
      with false. cbv iota.
    rewrite Hhalf.
    rewrite bind_call_normal.
    erewrite forEach_single by (intros; reflexivity). reflexivity.
  - unfold setChannelAftertouch. simpl orEmpty. simpl parseFloat.
    change (isNaN (JNumber (Fin q))) with false. cbv iota.
    rewrite Hraw, Hguard. reflexivity.
  - unfold setKeyAftertouch. simpl orEmpty. simpl parseFloat.
    change (isNaN (JNumber (Fin q))) with false. cbv iota.
    rewrite HuseRaw, Hguard. reflexivity.
  - rewrite sendNoteOn_attack_only, Hrej, HnotesOn, bind_call_normal.
    erewrite forEach_single by (intros; reflexivity).
    rewrite bind_normal. simpl. now rewrite app_nil_r.
  - rewrite sendNoteOff_release_only, Hrej, HnotesOff, bind_call_normal.
    erewrite forEach_single by (intros; reflexivity).
    rewrite bind_normal. simpl. now rewrite app_nil_r.
  - rewrite sendNoteOn_attack_only, Hco, HnotesOn', bind_call_normal.
    erewrite forEach_single by (intros; reflexivity).
    rewrite bind_normal. simpl. now rewrite app_nil_r.
  - rewrite sendNoteOff_release_only, Hco, HnotesOff', bind_call_normal.
    erewrite forEach_single by (intros; reflexivity).
    rewrite bind_normal. simpl. now rewrite app_nil_r.
Qed.

Lemma expressive_input_policy_witness :
  setChannelAftertouch (Reference.WebMidi 0) (Reference.channel 1)
    JUndefined (Some emptyOptions)
  = mkRun (Normal tt) [mkMessage (js_shl 0xD 4 + (1 - 1)) [JInt 64] (JInt 0)]
  /\ setKeyAftertouch (Reference.WebMidi 0) (Reference.channel 1)
       (OneNote (NoteNumber 60)) (JNumber (Fin (2 # 1))) (Some emptyOptions)
     = mkRun (Throw (RangeError "Pressure value must be between 0 and 1.")) []
  /\ sendNoteOn (Reference.WebMidi 0) (Reference.channel 1)
       (OneNote (NoteNumber 60)) (Some (set_attack JNull (timeOptions TimeUndefined)))
     = mkRun (Normal (set_attack JNull (timeOptions TimeUndefined)))
         (noteOnMessages (Reference.WebMidi 0) (Reference.channel 1)
            TimeUndefined [Note.mk (JInt 60) (JInt 0) (JInt 64)]).
Proof.
  destruct (expressive_input_policy (Reference.WebMidi 0) (Reference.channel 1)
              emptyOptions JUndefined (2 # 1) (JInt 2) JNull 0 TimeUndefined
              (OneNote (NoteNumber 60))
              [Note.mk (JInt 60) (JInt 64) (JInt 64)]
              [Note.mk (JInt 60) (JInt 64) (JInt 64)]
              [Note.mk (JInt 60) (JInt 64) (JInt 64)]
              [Note.mk (JInt 60) (JInt 0) (JInt 64)]
              [Note.mk (JInt 60) (JInt 64) (JInt 0)])
    as (H1 & _ & _ & H4 & _ & _ & H7 & _).
  - reflexivity.
  - reflexivity.
  - intros q. discriminate.
  - right. reflexivity.
  - right. reflexivity.
  - reflexivity.
  - reflexivity.
  - reflexivity.
  - reflexivity.
  - reflexivity.
  - reflexivity.
  - split; [exact H1 | split; [exact H4 | exact H7]].
Defined.

(** On a normalized pressure of 2 or -1 the two aftertouch operations
    throw a RangeError and send nothing. *)
Lemma pressure_out_of_range_throws :
  setChannelAftertouch (Reference.WebMidi 0) (Reference.channel 1)
    (JInt 2) None
  = mkRun (Throw (RangeError "Pitch bend value must be between 0 and 1.")) []
  /\ setKeyAftertouch (Reference.WebMidi 0) (Reference.channel 1)
       (OneNote (NoteNumber 60)) (JInt (-1)) None
     = mkRun (Throw (RangeError "Pressure value must be between 0 and 1.")) [].
Proof. split; reflexivity. Qed.

(** ** Kinds of error *)

(** C8 (amended): a controller number whose floor is outside [0, 119] fails
    with a RangeError and an unrecognized controller name or channel-mode
    name with a TypeError; [decrementRegisteredParameter] with an
    unrecognized parameter name fails with a TypeError, whereas
    [setRegisteredParameter] and [incrementRegisteredParameter] fail with a
    plain Error, which is neither a RangeError nor a TypeError.  No message
    is sent in any of these cases. *)
Theorem rejected_input_error_kinds
    (pe : Q -> Number) (W : WebMidiModule) (this : OutputChannel)
    (q : Q) (controller command parameter : string)
    (value : JsValue) (d : Data) (options : option Options) :
  (q < 0)%Q \/ (120 <= q)%Q ->
  MIDI_CONTROL_CHANGE_MESSAGES W !! controller = None ->
  MIDI_CHANNEL_MODE_MESSAGES W !! command = None ->
  MIDI_REGISTERED_PARAMETER W !! parameter = None ->
  sendControlChange W this (ControllerValue (JNumber (Fin q))) value options
  = mkRun (Throw (RangeError "Controller numbers must be between 0 and 119.")) []
  /\ sendControlChange W this (ControllerName controller) value options
     = mkRun (Throw (TypeError "Invalid controller name.")) []
  /\ sendChannelMode pe W this (CommandName command) value options
     = mkRun (Throw (TypeError "Invalid channel mode message name or number.")) []
  /\ decrementRegisteredParameter W this (ParameterName parameter) options
     = mkRun (Throw (TypeError "The specified parameter is not available.")) []
  /\ incrementRegisteredParameter W this (ParameterName parameter) options
     = mkRun (Throw (Error "The specified parameter is not available.")) []
  /\ setRegisteredParameter pe W this (ParameterName parameter) d options
     = mkRun (Throw (Error "The specified parameter is not available.")) [].
Proof.
  intros Hq Hcontroller Hcommand Hparameter.
  repeat split.
  - unfold sendControlChange. simpl ToNumber.
    rewrite (between_floor_outside 0 119 q) by exact Hq. reflexivity.
  - unfold sendControlChange. rewrite Hcontroller. reflexivity.
  - unfold sendChannelMode. rewrite Hcommand. reflexivity.
  - unfold decrementRegisteredParameter. rewrite Hparameter. reflexivity.
  - unfold incrementRegisteredParameter. rewrite Hparameter. reflexivity.
  - unfold setRegisteredParameter. rewrite Hparameter. reflexivity.
Qed.

Lemma rejected_input_error_kinds_witness :
  sendControlChange (Reference.WebMidi 0) (Reference.channel 1)
    (ControllerValue (JNumber (Fin (120 # 1)))) (JInt 0) None
  = mkRun (Throw (RangeError "Controller numbers must be between 0 and 119.")) []
  /\ decrementRegisteredParameter (Reference.WebMidi 0) (Reference.channel 1)
       (ParameterName "vibratorate") None
     = mkRun (Throw (TypeError "The specified parameter is not available.")) [].
Proof.
  destruct (rejected_input_error_kinds Reference.noExponent
              (Reference.WebMidi 0) (Reference.channel 1) (120 # 1)
              "wahwah" "solomode" "vibratorate" (JInt 0)
              (DataValue (JInt 0)) None)
    as (H1 & _ & _ & H4 & _).
  - right. vm_compute. discriminate.
  - vm_compute. reflexivity.
  - vm_compute. reflexivity.
  - vm_compute. reflexivity.
  - split; [exact H1 | exact H4].
Defined.

(** C8, as stated, fails: an unrecognized parameter name makes
    [incrementRegisteredParameter] and [setRegisteredParameter] throw a
    plain Error, not a TypeError. *)
Lemma unknown_parameter_plain_error :
  completion (incrementRegisteredParameter (Reference.WebMidi 0)
                (Reference.channel 1) (ParameterName "vibratorate") None)
  = Throw (Error "The specified parameter is not available.")
  /\ completion (setRegisteredParameter Reference.noExponent
                   (Reference.WebMidi 0) (Reference.channel 1)
                   (ParameterName "vibratorate") (DataValue (JInt 1)) None)
     = Throw (Error "The specified parameter is not available.")
  /\ (forall msg,
        completion (incrementRegisteredParameter (Reference.WebMidi 0)
                      (Reference.channel 1) (ParameterName "vibratorate") None)
        <> Throw (TypeError msg)).
Proof.
  repeat split; try (vm_compute; reflexivity).
  intros msg. vm_compute. discriminate.
Qed.

(** A channel-mode number outside [120, 127] is rejected with the same
    TypeError as an unknown name, where the documentation of
    [sendChannelMode] announces a RangeError. *)
Lemma sendChannelMode_number_out_of_range :
  sendChannelMode Reference.noExponent (Reference.WebMidi 0)
    (Reference.channel 1) (CommandValue (JInt 119)) (JInt 0) None
  = mkRun (Throw (TypeError "Invalid channel mode message name or number.")) [].
Proof. vm_compute. reflexivity. Qed.

(** ** The parameter protocol: where validation happens *)

Lemma byte_guard (v : JsValue) :
  between 0 127 (Math_floor (ToNumber v)) = true <-> byte_in_range v.
Proof.
  unfold byte_in_range. destruct (ToNumber v) as [| q].
  - simpl. split; [discriminate | tauto].
  - apply between_floor.
Qed.

Section Protocol.

Variable pe : Q -> Number.
Variable W : WebMidiModule.
Variable this : OutputChannel.

Lemma select_accepts (c0 c1 : Z) (err0 err1 : string)
    (bytes : list JsValue) (t : TimeSpec) :
  0 <= c0 <= 119 -> 0 <= c1 <= 119 ->
  select_in_range bytes ->
  (let p0 := Math_floor (ToNumber (array_get bytes 0)) in
   if negb (between 0 127 p0) then throw (RangeError err0)
   else
     let p1 := Math_floor (ToNumber (array_get bytes 1)) in
     if negb (between 0 127 p1) then throw (RangeError err1)
     else
       sendControlChange W this (ControllerValue (JInt c0)) (JNumber p0)
                         (Some (timeOptions t)) ;;
       sendControlChange W this (ControllerValue (JInt c1)) (JNumber p1)
                         (Some (timeOptions t)))
  = mkRun (Normal tt)
      [ controlChangeMessage W this (JInt c0)
          (JNumber (Math_floor (ToNumber (array_get bytes 0)))) t;
        controlChangeMessage W this (JInt c1)
          (JNumber (Math_floor (ToNumber (array_get bytes 1)))) t ].
Proof.
  intros Hc0 Hc1 [H0 H1]. apply byte_guard in H0, H1.
  cbv zeta. rewrite H0, H1. simpl negb. cbv iota.
  rewrite !sendControlChange_number by assumption. reflexivity.
Qed.

Lemma select_rejects (c0 c1 : Z) (err0 err1 : string)
    (bytes : list JsValue) (t : TimeSpec) :
  ~ select_in_range bytes ->
  exists msg,
    (let p0 := Math_floor (ToNumber (array_get bytes 0)) in
     if negb (between 0 127 p0) then throw (RangeError err0)
     else
       let p1 := Math_floor (ToNumber (array_get bytes 1)) in
       if negb (between 0 127 p1) then throw (RangeError err1)
       else
         sendControlChange W this (ControllerValue (JInt c0)) (JNumber p0)
                           (Some (timeOptions t)) ;;
         sendControlChange W this (ControllerValue (JInt c1)) (JNumber p1)
                           (Some (timeOptions t)))
    = mkRun (Throw (RangeError msg)) [].
Proof.
  intros Hnot. cbv zeta.
  destruct (between 0 127 (Math_floor (ToNumber (array_get bytes 0)))) eqn:E0;
    [| eexists; reflexivity].
  destruct (between 0 127 (Math_floor (ToNumber (array_get bytes 1)))) eqn:E1;
    [| eexists; reflexivity].
  exfalso. apply Hnot. split; now apply byte_guard.
Qed.

Lemma deselect_run (t : TimeSpec) :
  _deselectRegisteredParameter W this t
  = mkRun (Normal tt)
      [ controlChangeMessage W this (JInt 0x65) (JInt 0x7F) t;
        controlChangeMessage W this (JInt 0x64) (JInt 0x7F) t ].
Proof. reflexivity. Qed.

Lemma selectRegistered_accepts (bytes : list JsValue) (t : TimeSpec) :
  select_in_range bytes ->
  _selectRegisteredParameter W this bytes t
  = mkRun (Normal tt)
      [ controlChangeMessage W this (JInt 0x65)
          (JNumber (Math_floor (ToNumber (array_get bytes 0)))) t;
        controlChangeMessage W this (JInt 0x64)
          (JNumber (Math_floor (ToNumber (array_get bytes 1)))) t ].
Proof. intros H. apply select_accepts; [lia | lia | exact H]. Qed.

Lemma selectNonRegistered_accepts (bytes : list JsValue) (t : TimeSpec) :
  select_in_range bytes ->
  _selectNonRegisteredParameter W this bytes t
  = mkRun (Normal tt)
      [ controlChangeMessage W this (JInt 0x63)
          (JNumber (Math_floor (ToNumber (array_get bytes 0)))) t;
        controlChangeMessage W this (JInt 0x62)
          (JNumber (Math_floor (ToNumber (array_get bytes 1)))) t ].
Proof. intros H. apply select_accepts; [lia | lia | exact H]. Qed.

Lemma selectRegistered_rejects (bytes : list JsValue) (t : TimeSpec) :
  ~ select_in_range bytes ->
  exists msg,
    _selectRegisteredParameter W this bytes t = mkRun (Throw (RangeError msg)) [].
Proof. intros H. now apply select_rejects. Qed.

Lemma selectNonRegistered_rejects (bytes : list JsValue) (t : TimeSpec) :
  ~ select_in_range bytes ->
  exists msg,
    _selectNonRegisteredParameter W this bytes t
    = mkRun (Throw (RangeError msg)) [].
Proof. intros H. now apply select_rejects. Qed.

(** Looking the parameter up, when it is an array or a registered name. *)
Lemma lookup_parameter (p : ParameterId) (bytes : list JsValue) (e : JsError) :
  parameterBytes W p = Some bytes ->
  match p with
  | ParameterArray l => mret l
  | ParameterName s =>
      match MIDI_REGISTERED_PARAMETER W !! s with
      | None => throw e
      | Some l => mret l
      end
  end = (mret bytes : Run (list JsValue)).
Proof.
  destruct p as [s | l]; simpl; intros H.
  - now rewrite H.
  - now inversion H.
Qed.

End Protocol.

(** The test of a data byte. *)
Lemma data_guard (pe : Q -> Number) (v : JsValue) :
  negb (isNaN (JNumber (parseInt pe v))) && between 0 127 (parseInt pe v) = true
  <-> data_in_range pe v.
Proof.
  unfold data_in_range. destruct (parseInt pe v) as [| q].
  - simpl. split; [discriminate | tauto].
  - unfold between, num_ge, num_le, num. simpl.
    rewrite andb_true_iff, !Qle_bool_iff. reflexivity.
Qed.

(** The set phase, case by case: the first byte is tested and sent, then,
    if the array holds a second byte, that one is tested and sent. *)
Lemma setCurrent_run (pe : Q -> Number) (W : WebMidiModule)
    (this : OutputChannel) (d : Data) (t : TimeSpec) :
  let data := concat_data d in
  let byte i := parseInt pe (array_get data i) in
  let ok i := negb (isNaN (JNumber (byte i))) && between 0 127 (byte i) in
  _setCurrentRegisteredParameter pe W this d t
  = if ok 0%nat then
      if (length data <? 2)%nat then
        mkRun (Normal tt)
          [controlChangeMessage W this (JInt 0x06) (JNumber (byte 0%nat)) t]
      else if ok 1%nat then
        mkRun (Normal tt)
          [ controlChangeMessage W this (JInt 0x06) (JNumber (byte 0%nat)) t;
            controlChangeMessage W this (JInt 0x26) (JNumber (byte 1%nat)) t ]
      else
        mkRun (Throw (RangeError "The lsb value must be between 0 and 127."))
          [controlChangeMessage W this (JInt 0x06) (JNumber (byte 0%nat)) t]
    else
      mkRun (Throw (RangeError "The msb value must be between 0 and 127.")) [].
Proof.
  cbv zeta. unfold _setCurrentRegisteredParameter. cbv zeta.
  destruct (concat_data d) as [| a [| b rest]].
  - reflexivity.
  - destruct (negb (isNaN (JNumber (parseInt pe (array_get [a] 0))))
              && between 0 127 (parseInt pe (array_get [a] 0)));
      [| reflexivity].
    rewrite sendControlChange_number by lia. reflexivity.
  - destruct (negb (isNaN (JNumber (parseInt pe (array_get (a :: b :: rest) 0))))
              && between 0 127 (parseInt pe (array_get (a :: b :: rest) 0)));
      [| reflexivity].
    change (array_get (array_set (a :: b :: rest) 0 ?x) 1) with b.
    change (array_get (a :: b :: rest) 1) with b.
    change (length (array_set (a :: b :: rest) 0 ?x) <? 2)%nat with false.
    change (length (a :: b :: rest) <? 2)%nat with false. cbv iota.
    destruct (negb (isNaN (JNumber (parseInt pe b)))
              && between 0 127 (parseInt pe b));
      rewrite !sendControlChange_number by lia; reflexivity.
Qed.

(** The select phase of each operation, then what follows it. *)
Lemma performParameterOperation_selected (pe : Q -> Number)
    (W : WebMidiModule) (this : OutputChannel) (op : ParameterOperation)
    (options : option Options) (bytes data : list JsValue) :
  selectBytes W op = Some bytes -> select_in_range bytes ->
  operationData op = Some data ->
  performParameterOperation pe W this op options
  = (mkRun (Normal tt) (selectMessages W this op bytes) ;;
     _setCurrentRegisteredParameter pe W this (DataArray data)
       (channelNumberAsTime this) ;;
     _deselectRegisteredParameter W this (time (orEmpty options))).
Proof.
  intros Hbytes Hin Hdata.
  destruct op as [p d | l d | p | p]; simpl in Hbytes, Hdata; try discriminate;
    inversion Hdata; subst data; simpl performParameterOperation.
  - unfold setRegisteredParameter.
    rewrite (lookup_parameter W p bytes _ Hbytes), bind_mret.
    fold (channelNumberAsTime this).
    rewrite (selectRegistered_accepts W this bytes _ Hin). reflexivity.
  - inversion Hbytes; subst l. unfold setNonRegisteredParameter.
    fold (channelNumberAsTime this).
    rewrite (selectNonRegistered_accepts W this bytes _ Hin). reflexivity.
Qed.

(** C3 (amended): for every parameter-protocol operation
    (setRegisteredParameter, setNonRegisteredParameter, increment and
    decrement), if a select byte is not a number with floor in [0, 127],
    the whole operation fails with a RangeError before any message is sent.
    The data bytes are validated later, each just before its own message.
    When the select bytes are in range and [parseInt] reads no number in
    [0, 127] from the first data byte, the operation fails with a
    RangeError after exactly the two select messages have been handed to
    the output; when the first byte is accepted and the second one, if
    present, is not, it fails with a RangeError after the two select
    messages and the data-entry message of the first byte.  With select
    bytes in range an operation fails in no other way: the failure is a
    RangeError and one of the two data bytes is at fault. *)
Theorem parameter_protocol_validation
    (pe : Q -> Number) (W : WebMidiModule) (this : OutputChannel)
    (op : ParameterOperation) (options : option Options)
    (bytes : list JsValue) :
  selectBytes W op = Some bytes ->
  (~ select_in_range bytes ->
   exists msg,
     performParameterOperation pe W this op options
     = mkRun (Throw (RangeError msg)) [])
  /\ (select_in_range bytes ->
      forall data, operationData op = Some data ->
      (~ data_in_range pe (array_get data 0) ->
       exists msg,
         performParameterOperation pe W this op options
         = mkRun (Throw (RangeError msg)) (selectMessages W this op bytes))
      /\ (data_in_range pe (array_get data 0) -> (2 <= length data)%nat ->
          ~ data_in_range pe (array_get data 1) ->
          exists msg,
            performParameterOperation pe W this op options
            = mkRun (Throw (RangeError msg))
                (selectMessages W this op bytes
                 ++ [controlChangeMessage W this (JInt 0x06)
                       (JNumber (parseInt pe (array_get data 0)))
                       (channelNumberAsTime this)])))
  /\ (select_in_range bytes ->
      forall e,
        completion (performParameterOperation pe W this op options) = Throw e ->
        (exists msg, e = RangeError msg)
        /\ exists data,
             operationData op = Some data
             /\ (~ data_in_range pe (array_get data 0)
                 \/ ((2 <= length data)%nat
                     /\ ~ data_in_range pe (array_get data 1)))).
Proof.
  intros Hbytes. split; [| split].
  - intros Hnot.
    destruct op as [p d | l d | p | p]; simpl in Hbytes |- *.
    + destruct (selectRegistered_rejects W this bytes
                  (channelNumberAsTime this) Hnot) as [msg Hmsg].
      exists msg. unfold setRegisteredParameter.
      rewrite (lookup_parameter W p bytes _ Hbytes), bind_mret.
      fold (channelNumberAsTime this). rewrite Hmsg. reflexivity.
    + inversion Hbytes; subst l.
      destruct (selectNonRegistered_rejects W this bytes
                  (channelNumberAsTime this) Hnot) as [msg Hmsg].
      exists msg. unfold setNonRegisteredParameter.
      fold (channelNumberAsTime this). rewrite Hmsg. reflexivity.
    + destruct (selectRegistered_rejects W this bytes
                  (time (orEmpty options)) Hnot) as [msg Hmsg].
      exists msg. unfold incrementRegisteredParameter.
      rewrite (lookup_parameter W p bytes _ Hbytes), bind_mret.
      rewrite Hmsg. reflexivity.
    + destruct (selectRegistered_rejects W this bytes
                  (channelNumberAsTime this) Hnot) as [msg Hmsg].
      exists msg. unfold decrementRegisteredParameter.
      rewrite (lookup_parameter W p bytes _ Hbytes), bind_mret.
      fold (channelNumberAsTime this). rewrite Hmsg. reflexivity.
  - intros Hin data Hdata.
    rewrite (performParameterOperation_selected pe W this op options bytes data
               Hbytes Hin Hdata).
    rewrite setCurrent_run. cbv zeta. simpl concat_data. split.
    + intros Hbad. rewrite <- data_guard in Hbad.
      apply not_true_is_false in Hbad. rewrite Hbad.
      eexists. rewrite bind_throw, bind_normal. reflexivity.
    + intros Hok Hlen Hbad. apply data_guard in Hok. rewrite Hok.
      rewrite <- data_guard in Hbad. apply not_true_is_false in Hbad.
      rewrite Hbad.
      assert (Hlt : (length data <? 2)%nat = false) by (apply Nat.ltb_ge; lia).
      rewrite Hlt. eexists. rewrite bind_throw, bind_normal. reflexivity.
  - intros Hin e.
    destruct (operationData op) as [data |] eqn:Hdata.
    + rewrite (performParameterOperation_selected pe W this op options bytes
                 data Hbytes Hin Hdata).
      rewrite setCurrent_run. cbv zeta. simpl concat_data. rewrite deselect_run.
      destruct (negb (isNaN (JNumber (parseInt pe (array_get data 0))))
                && between 0 127 (parseInt pe (array_get data 0))) eqn:H0.
      * destruct (length data <? 2)%nat eqn:Hlen.
        { rewrite !bind_normal. simpl. discriminate. }
        destruct (negb (isNaN (JNumber (parseInt pe (array_get data 1))))
                  && between 0 127 (parseInt pe (array_get data 1))) eqn:H1.
        { rewrite !bind_normal. simpl. discriminate. }
        rewrite bind_throw, bind_normal. simpl. intros [= <-].
        split; [eexists; reflexivity |]. exists data. split; [reflexivity |].
        right. split; [apply Nat.ltb_ge in Hlen; lia |].
        rewrite <- data_guard. congruence.
      * rewrite bind_throw, bind_normal. simpl. intros [= <-].
        split; [eexists; reflexivity |]. exists data. split; [reflexivity |].
        left. rewrite <- data_guard. congruence.
    + destruct op as [p d | l d | p | p]; simpl in Hbytes, Hdata |- *;
        try discriminate.
      * unfold incrementRegisteredParameter.
        rewrite (lookup_parameter W p bytes _ Hbytes), bind_mret.
        rewrite (selectRegistered_accepts W this bytes _ Hin), bind_normal.
        rewrite deselect_run, sendControlChange_number by lia.
        simpl. discriminate.
      * unfold decrementRegisteredParameter.
        rewrite (lookup_parameter W p bytes _ Hbytes), bind_mret.
        fold (channelNumberAsTime this).
        rewrite (selectRegistered_accepts W this bytes _ Hin), bind_normal.
        rewrite deselect_run.
        change (numberAsOptions (number this))
          with (Some (timeOptions TimeUndefined)).
        rewrite sendControlChange_number by lia.
        simpl. discriminate.
Qed.

Lemma parameter_protocol_validation_witness :
  exists msg,
    performParameterOperation Reference.noExponent (Reference.WebMidi 0)
      (Reference.channel 1)
      (SetRegistered (ParameterArray [JInt 0; JInt 0])
                     (DataArray [JInt 12; JInt 200]))
      None
    = mkRun (Throw (RangeError msg))
        [ mkMessage 176 [JInt 0x65; JInt 0] (JInt 1);
          mkMessage 176 [JInt 0x64; JInt 0] (JInt 1);
          mkMessage 176 [JInt 0x06; JInt 12] (JInt 1) ].
Proof.
  destruct (parameter_protocol_validation Reference.noExponent
              (Reference.WebMidi 0) (Reference.channel 1)
              (SetRegistered (ParameterArray [JInt 0; JInt 0])
                             (DataArray [JInt 12; JInt 200]))
              None [JInt 0; JInt 0] eq_refl) as (_ & H & _).
  destruct (H ltac:(vm_compute; repeat split; discriminate)
              [JInt 12; JInt 200] eq_refl) as [_ H2].
  apply H2.
  - vm_compute. split; discriminate.
  - simpl. lia.
  - vm_compute. intros [_ Hhi]. now apply Hhi.
Defined.

(** C3, as stated, fails: a data byte of 200 makes
    [setRegisteredParameter] throw a RangeError only after the two select
    messages have been handed to the output, and a bad second byte only
    after the first data-entry message as well. *)
Lemma data_byte_rejected_after_select :
  setRegisteredParameter Reference.noExponent (Reference.WebMidi 0)
    (Reference.channel 1) (ParameterName "pitchbendrange")
    (DataValue (JInt 200)) None
  = mkRun (Throw (RangeError "The msb value must be between 0 and 127."))
      [ mkMessage 176 [JInt 0x65; JInt 0] (JInt 1);
        mkMessage 176 [JInt 0x64; JInt 0] (JInt 1) ]
  /\ setNonRegisteredParameter Reference.noExponent (Reference.WebMidi 0)
       (Reference.channel 1) [JInt 1; JInt 8]
       (DataArray [JInt 12; JInt 200]) None
     = mkRun (Throw (RangeError "The lsb value must be between 0 and 127."))
         [ mkMessage 176 [JInt 0x63; JInt 1] (JInt 1);
           mkMessage 176 [JInt 0x62; JInt 8] (JInt 1);
           mkMessage 176 [JInt 0x06; JInt 12] (JInt 1) ].
Proof. split; vm_compute; reflexivity. Qed.

(** ** The status byte of every message *)

Section Emits.

Variable P : Message -> Prop.

Lemma emits_ret {A} (a : A) : emits P (mret a : Run A).
Proof. constructor. Qed.

Lemma emits_throw {A} (e : JsError) : emits P (throw e : Run A).
Proof. constructor. Qed.

Lemma emits_call {A} (c : Completion A) : emits P (call c).
Proof. constructor. Qed.

Lemma emits_bind {A B} (m : Run A) (f : A -> Run B) :
  emits P m -> (forall a, emits P (f a)) -> emits P (m ≫= f).
Proof.
  unfold emits. intros Hm Hf. rewrite sent_bind.
  destruct (completion m) as [a | e]; [| exact Hm].
  apply Forall_app. split; [exact Hm | apply Hf].
Qed.

Lemma emits_forEach {A} (l : list A) (f : A -> Run unit) :
  (forall x, emits P (f x)) -> emits P (forEach l f).
Proof.
  intros Hf. induction l as [| x l IH]; simpl forEach.
  - apply emits_ret.
  - apply emits_bind; [apply Hf | intros _; exact IH].
Qed.

Lemma emits_send (st : Z) (d : list JsValue) (ts : JsValue) :
  P (mkMessage st d ts) -> emits P (send st d ts).
Proof. intros H. repeat constructor. exact H. Qed.

End Emits.

Create HintDb emits.

#[local] Hint Resolve emits_ret emits_throw emits_call : emits.

(** One step of the walk through a method body. *)
Ltac emits_step :=
  first
    [ solve [auto with emits]
    | progress cbv zeta
    | apply emits_bind; [| intros ?]
    | apply emits_forEach; intros ?
    | apply emits_send; unfold built_status; eexists;
      (split; [| reflexivity]); simpl; tauto
    | match goal with
      | |- emits _ (if ?b then _ else _) => destruct b
      | |- emits _ (match ?x with _ => _ end) => destruct x
      end ].

Ltac emits_walk := cbv zeta; repeat emits_step.

Section StatusInvariant.

Variable pe : Q -> Number.
Variable W : WebMidiModule.
Variable this : OutputChannel.

Local Abbreviation built := (built_status W this).

Lemma emits_sendControlChange controller value options :
  emits built (sendControlChange W this controller value options).
Proof. unfold sendControlChange. emits_walk. Qed.
Hint Resolve emits_sendControlChange : emits.

Lemma emits_selectNonRegistered parameter t :
  emits built (_selectNonRegisteredParameter W this parameter t).
Proof. unfold _selectNonRegisteredParameter. emits_walk. Qed.

Lemma emits_deselectRegistered t :
  emits built (_deselectRegisteredParameter W this t).
Proof. unfold _deselectRegisteredParameter. emits_walk. Qed.

Lemma emits_selectRegistered parameter t :
  emits built (_selectRegisteredParameter W this parameter t).
Proof. unfold _selectRegisteredParameter. emits_walk. Qed.

Lemma emits_setCurrentRegistered d t :
  emits built (_setCurrentRegisteredParameter pe W this d t).
Proof. unfold _setCurrentRegisteredParameter. emits_walk. Qed.

Hint Resolve emits_selectNonRegistered emits_deselectRegistered
  emits_selectRegistered emits_setCurrentRegistered : emits.

Lemma emits_setRegisteredParameter parameter d options :
  emits built (setRegisteredParameter pe W this parameter d options).
Proof. unfold setRegisteredParameter. emits_walk. Qed.

Lemma emits_sendNoteOff note options :
  emits built (sendNoteOff W this note options).
Proof. unfold sendNoteOff, readProperties. emits_walk. Qed.

Lemma emits_sendNoteOn note options :
  emits built (sendNoteOn W this note options).
Proof. unfold sendNoteOn. emits_walk. Qed.

Lemma emits_sendChannelMode command value options :
  emits built (sendChannelMode pe W this command value options).
Proof. unfold sendChannelMode. emits_walk. Qed.

Hint Resolve emits_setRegisteredParameter emits_sendNoteOff emits_sendNoteOn
  emits_sendChannelMode : emits.

(** Every message of every operation has a status built from a command of
    the table and the channel number. *)
Lemma emits_perform op options :
  emits built (perform pe W this op options).
Proof.
  destruct op; simpl perform;
    unfold setKeyAftertouch, decrementRegisteredParameter,
      incrementRegisteredParameter, playNote, stopNote, setOmniMode,
      setChannelAftertouch, setMasterTuning, setModulationRange,
      setNonRegisteredParameter, setPitchBend, setPitchBendRange, setProgram,
      setTuningBank, setTuningProgram, setLocalControl, turnNotesOff,
      turnSoundOff, resetAllControllers, setPolyphonicMode;
    emits_walk.
Qed.

End StatusInvariant.

(** The arithmetic of a status byte: a command nibble in [8, 15] and a
    channel offset in [0, 15]. *)
Lemma land_shiftl_low (c k : Z) : 0 <= k < 16 -> Z.land (Z.shiftl c 4) k = 0.
Proof.
  intros Hk. apply Z.bits_inj'. intros i Hi.
  rewrite Z.land_spec, Z.bits_0.
  destruct (Z.lt_ge_cases i 4) as [Hlt | Hge].
  - rewrite Z.shiftl_spec_low by lia. reflexivity.
  - destruct (Z.eq_dec k 0) as [-> | Hnz].
    + rewrite Z.bits_0. apply andb_false_r.
    + rewrite (Z.bits_above_log2 k i); [apply andb_false_r | lia |].
      assert (Z.log2 k < 4) by (apply Z.log2_lt_pow2; lia). lia.
Qed.

Lemma status_arithmetic (c k : Z) :
  8 <= c <= 15 -> 0 <= k <= 15 ->
  js_shl c 4 + k = Z.lor (Z.shiftl c 4) k
  /\ Z.land (js_shl c 4 + k) 15 = k
  /\ Z.shiftr (js_shl c 4 + k) 4 = c
  /\ 128 <= js_shl c 4 + k <= 255.
Proof.
  intros Hc Hk.
  assert (Hshl : js_shl c 4 = Z.shiftl c 4).
  { unfold js_shl. change (Z.land 4 31) with 4.
    rewrite (ToInt32_small c) by lia.
    rewrite Z.shiftl_mul_pow2 by lia. change (2 ^ 4) with 16.
    apply ToInt32_small. lia. }
  rewrite Hshl.
  assert (Hmul : Z.shiftl c 4 = c * 16)
    by (rewrite Z.shiftl_mul_pow2 by lia; reflexivity).
  repeat split.
  - rewrite Z.add_nocarry_lxor by (apply land_shiftl_low; lia).
    apply Z.lxor_lor, land_shiftl_low. lia.
  - change 15 with (Z.ones 4). rewrite Z.land_ones by lia.
    change (2 ^ 4) with 16. rewrite Hmul, Z.add_comm, Z.mod_add by lia.
    apply Z.mod_small. lia.
  - rewrite Z.shiftr_div_pow2 by lia. change (2 ^ 4) with 16.
    rewrite Hmul, Z.add_comm, Z.div_add by lia.
    rewrite Z.div_small by lia. reflexivity.
  - lia.
  - lia.
Qed.

(** C9: on a channel bound to number n in 1..16, with the command nibbles
    of the table in 8..15, every message emitted by every operation has
    status = (commandNibble << 4) | (n - 1) for a command nibble of the
    table: the low nibble of the status is n - 1, the high nibble is the
    command nibble, and the status lies in [128, 255]. *)
Theorem status_byte_invariant
    (pe : Q -> Number) (W : WebMidiModule) (this : OutputChannel)
    (op : Operation) (options : option Options) (m : Message) :
  1 <= number this <= 16 ->
  Forall (fun c => 8 <= c <= 15)
         (commandNibbles (MIDI_CHANNEL_VOICE_MESSAGES W)) ->
  In m (sent (perform pe W this op options)) ->
  exists c,
    In c (commandNibbles (MIDI_CHANNEL_VOICE_MESSAGES W))
    /\ status m = Z.lor (Z.shiftl c 4) (number this - 1)
    /\ Z.land (status m) 15 = number this - 1
    /\ Z.shiftr (status m) 4 = c
    /\ 128 <= status m <= 255.
Proof.
  intros Hn Hnibbles Hm.
  pose proof (emits_perform pe W this op options) as Hall.
  unfold emits in Hall. rewrite List.Forall_forall in Hall.
  destruct (Hall m Hm) as (c & Hc & Hstatus).
  rewrite List.Forall_forall in Hnibbles.
  destruct (status_arithmetic c (number this - 1) (Hnibbles c Hc) ltac:(lia))
    as (H1 & H2 & H3 & H4).
  exists c. rewrite Hstatus. repeat split; try assumption; lia.
Qed.

Lemma status_byte_invariant_witness :
  exists c,
    In c (commandNibbles Reference.voiceMessages)
    /\ status (mkMessage 176 [JInt 0x64; JInt 127] (JInt 0))
       = Z.lor (Z.shiftl c 4) (1 - 1)
    /\ Z.land (status (mkMessage 176 [JInt 0x64; JInt 127] (JInt 0))) 15 = 1 - 1
    /\ Z.shiftr (status (mkMessage 176 [JInt 0x64; JInt 127] (JInt 0))) 4 = c
    /\ 128 <= status (mkMessage 176 [JInt 0x64; JInt 127] (JInt 0)) <= 255.
Proof.
  apply (status_byte_invariant Reference.noExponent (Reference.WebMidi 0)
           (Reference.channel 1)
           (SetPitchBendRange (JInt 12) (JInt 0)) None
           (mkMessage 176 [JInt 0x64; JInt 127] (JInt 0))).
  - simpl. lia.
  - repeat constructor; simpl; lia.
  - vm_compute. do 5 right. left. reflexivity.
Defined.

(** ** Timestamps *)

Lemma emits_bind_result {A B} (P : Message -> Prop) (m : Run A)
    (f : A -> Run B) :
  emits P m -> (forall a, completion m = Normal a -> emits P (f a)) ->
  emits P (m ≫= f).
Proof.
  unfold emits. intros Hm Hf. rewrite sent_bind.
  destruct (completion m) as [a | e]; [| exact Hm].
  apply Forall_app. split; [exact Hm | now apply Hf].
Qed.

Section Timestamps.

Variable W : WebMidiModule.
Variable this : OutputChannel.

(** The legacy-option assignments of the note senders leave [time] and
    [duration] alone. *)
Lemma sendNoteOn_result (note : NoteInput) (options : option Options)
    (o' : Options) :
  completion (sendNoteOn W this note options) = Normal o' ->
  time o' = time (orEmpty options) /\ duration o' = duration (orEmpty options).
Proof.
  unfold sendNoteOn. cbv zeta.
  repeat (rewrite completion_bind;
          match goal with
          | |- match ?c with _ => _ end = _ -> _ =>
              destruct c; [| discriminate]
          end).
  simpl. intros [= <-].
  destruct (truthy (rawVelocity (orEmpty options)));
    destruct (truthy (velocity _)); split; reflexivity.
Qed.

Lemma emits_sendNoteOn_time (note : NoteInput) (options : option Options) :
  emits (fun m => timestamp m = convertToTimestamp W (time (orEmpty options)))
        (sendNoteOn W this note options).
Proof.
  unfold sendNoteOn. cbv zeta.
  apply emits_bind; [apply emits_call | intros notes].
  apply emits_bind; [| intros _; apply emits_ret].
  apply emits_forEach. intros n. apply emits_send. simpl timestamp.
  destruct (truthy (rawVelocity (orEmpty options)));
    destruct (truthy (velocity _)); reflexivity.
Qed.

Lemma emits_sendNoteOff_time (note : NoteInput) (o : Options) :
  emits (fun m => timestamp m = convertToTimestamp W (time o))
        (sendNoteOff W this note (Some o)).
Proof.
  unfold sendNoteOff. simpl readProperties. rewrite bind_mret. cbv zeta.
  apply emits_bind; [apply emits_call | intros notes].
  apply emits_bind; [| intros _; apply emits_ret].
  apply emits_forEach. intros n. apply emits_send. simpl timestamp.
  destruct (truthy (rawVelocity o)); destruct (truthy (velocity _));
    reflexivity.
Qed.

(** Every message of [playNote], the note-off included, carries the
    resolution of [options.time]; [options.duration] only decides whether
    the note-off is sent. *)
Lemma playNote_one_timestamp (note : NoteInput) (options : option Options) :
  emits (fun m => timestamp m = convertToTimestamp W (time (orEmpty options)))
        (playNote W this note options).
Proof.
  unfold playNote. cbv zeta.
  apply emits_bind_result;
    [apply (emits_sendNoteOn_time note (Some (orEmpty options))) | intros o' Ho'].
  apply sendNoteOn_result in Ho'. simpl orEmpty in Ho'. destruct Ho' as [Ht _].
  destruct (negb (isNaN (duration o'))); [| apply emits_ret].
  apply emits_bind; [| intros _; apply emits_ret].
  rewrite <- Ht. apply emits_sendNoteOff_time.
Qed.

End Timestamps.

(** C2, evaluated on [playNote(60, {duration: 100, time: "+50"})] at time
    1000: the note-on and the note-off both carry the timestamp 1050, the
    resolution of "+50"; the note-off is not at 1050 + 100. *)
Lemma playNote_noteoff_not_delayed :
  playNote (Reference.WebMidi 1000) (Reference.channel 1)
    (OneNote (NoteNumber 60))
    (Some (durationOptions (JInt 100) (TimeRelative 50)))
  = mkRun (Normal tt)
      [ mkMessage 144 [JInt 60; JInt 64] (JInt 1050);
        mkMessage 128 [JInt 60; JInt 64] (JInt 1050) ]
  /\ JNumber (num_add (num 1050) (num 100)) = JInt 1150
  /\ JInt 1050 <> JInt 1150.
Proof.
  split; [vm_compute; reflexivity |].
  split; [vm_compute; reflexivity | discriminate].
Qed.

(** C4, evaluated on [setRegisteredParameter("pitchbendrange", [12, 0],
    {time: "+50"})] on channel 1 at time 1000: the select and data-entry
    messages carry the resolution of the channel number 1 taken as an
    absolute time (in the past, hence 1000), the two deselect messages the
    resolution of "+50", 1050. *)
Lemma setRegisteredParameter_two_timestamps :
  map timestamp
      (sent (setRegisteredParameter Reference.noExponent
               (Reference.WebMidi 1000) (Reference.channel 1)
               (ParameterName "pitchbendrange")
               (DataArray [JInt 12; JInt 0])
               (Some (timeOptions (TimeRelative 50)))))
  = [ JInt 1000; JInt 1000; JInt 1000; JInt 1000; JInt 1050; JInt 1050 ]
  /\ JInt 1000 <> JInt 1050.
Proof. split; [vm_compute; reflexivity | discriminate]. Qed.

(** The sibling [incrementRegisteredParameter] passes [options.time] to all
    three phases, and [decrementRegisteredParameter] to the last one only. *)
Lemma incrementRegisteredParameter_one_timestamp :
  map timestamp
      (sent (incrementRegisteredParameter
               (Reference.WebMidi 1000) (Reference.channel 1)
               (ParameterName "pitchbendrange")
               (Some (timeOptions (TimeRelative 50)))))
  = [ JInt 1050; JInt 1050; JInt 1050; JInt 1050; JInt 1050 ].
Proof. vm_compute. reflexivity. Qed.

Lemma decrementRegisteredParameter_timestamps :
  map timestamp
      (sent (decrementRegisteredParameter
               (Reference.WebMidi 1000) (Reference.channel 1)
               (ParameterName "pitchbendrange")
               (Some (timeOptions (TimeRelative 50)))))
  = [ JInt 1000; JInt 1000; JInt 1000; JInt 1050; JInt 1050 ].
Proof. vm_compute. reflexivity. Qed.

(** ** Further properties of the methods *)

(** *** Integers through [parseInt] and the byte tests *)

Lemma parseInt_JInt (pe : Q -> Number) (z : Z) :
  - 10 ^ 21 < z < 10 ^ 21 -> parseInt pe (JInt z) = num z.
Proof.
  intros Hz. unfold parseInt, JInt, num.
  assert (Hplain : plain_decimal (inject_Z z) = true).
  { unfold plain_decimal. destruct (Z.eq_dec z 0) as [-> | Hnz]; [reflexivity |].
    apply orb_true_iff. right. apply andb_true_iff. split.
    - unfold Qle_bool, inject_Z, Qabs. simpl. apply Z.leb_le. lia.
    - apply negb_true_iff. unfold Qle_bool, inject_Z, Qabs. simpl.
      apply Z.leb_gt. lia. }
  rewrite Hplain. unfold Qtrunc. simpl. now rewrite Z.quot_1_r.
Qed.

Lemma data_byte_accepted (pe : Q -> Number) (d : Z) :
  0 <= d <= 127 ->
  negb (isNaN (JNumber (parseInt pe (JInt d))))
  && between 0 127 (parseInt pe (JInt d)) = true.
Proof.
  intros Hd. rewrite parseInt_JInt by lia. rewrite between_num.
  apply andb_true_iff. split; [reflexivity |].
  apply andb_true_iff. split; apply Z.leb_le; lia.
Qed.

Lemma data_byte_rejected (pe : Q -> Number) (d : Z) :
  - 10 ^ 21 < d < 0 \/ 127 < d < 10 ^ 21 ->
  negb (isNaN (JNumber (parseInt pe (JInt d))))
  && between 0 127 (parseInt pe (JInt d)) = false.
Proof.
  intros Hd. rewrite parseInt_JInt by lia. rewrite between_num.
  apply andb_false_iff. right. apply andb_false_iff.
  destruct Hd; [left | right]; apply Z.leb_gt; lia.
Qed.

Lemma byte_in_range_JInt (a : Z) : 0 <= a <= 127 -> byte_in_range (JInt a).
Proof.
  intros Ha. unfold byte_in_range. simpl. split.
  - change 0%Q with (inject_Z 0). rewrite <- Zle_Qle. lia.
  - change 128%Q with (inject_Z 128). rewrite <- Zlt_Qlt. lia.
Qed.

Lemma select_in_range_JInt (a b : Z) (more : list JsValue) :
  0 <= a <= 127 -> 0 <= b <= 127 ->
  select_in_range (JInt a :: JInt b :: more).
Proof. intros Ha Hb. split; now apply byte_in_range_JInt. Qed.

Lemma array_get_0 (x : JsValue) (l : list JsValue) : array_get (x :: l) 0 = x.
Proof. reflexivity. Qed.

Lemma array_get_1 (x y : JsValue) (l : list JsValue) :
  array_get (x :: y :: l) 1 = y.
Proof. reflexivity. Qed.

Section Sequences.

Variable pe : Q -> Number.
Variable W : WebMidiModule.
Variable this : OutputChannel.

Local Abbreviation cc := (controlChangeMessage W this).

(** The set phase on one and on two valid bytes, and on a rejected byte. *)
Lemma setCurrent_one (d : Data) (d0 : Z) (t : TimeSpec) :
  concat_data d = [JInt d0] -> 0 <= d0 <= 127 ->
  _setCurrentRegisteredParameter pe W this d t
  = mkRun (Normal tt) [cc (JInt 0x06) (JInt d0) t].
Proof.
  intros Hd Hd0. unfold _setCurrentRegisteredParameter. cbv zeta.
  rewrite Hd, array_get_0.
  rewrite (data_byte_accepted pe d0 Hd0), parseInt_JInt by lia.
  rewrite sendControlChange_number by lia. reflexivity.
Qed.

Lemma setCurrent_two (d : Data) (d0 d1 : Z) (rest : list JsValue)
    (t : TimeSpec) :
  concat_data d = JInt d0 :: JInt d1 :: rest ->
  0 <= d0 <= 127 -> 0 <= d1 <= 127 ->
  _setCurrentRegisteredParameter pe W this d t
  = mkRun (Normal tt)
      [cc (JInt 0x06) (JInt d0) t; cc (JInt 0x26) (JInt d1) t].
Proof.
  intros Hd Hd0 Hd1. unfold _setCurrentRegisteredParameter. cbv zeta.
  rewrite Hd, array_get_0.
  rewrite (data_byte_accepted pe d0 Hd0), (parseInt_JInt pe d0) by lia.
  change (array_get (array_set (JInt d0 :: JInt d1 :: rest) 0 (JNumber (num d0))) 1)
    with (JInt d1).
  rewrite (data_byte_accepted pe d1 Hd1), (parseInt_JInt pe d1) by lia.
  rewrite !sendControlChange_number by lia. reflexivity.
Qed.

Lemma setCurrent_no_first_byte (d : Data) (t : TimeSpec) :
  parseInt pe (array_get (concat_data d) 0) = NaN ->
  _setCurrentRegisteredParameter pe W this d t
  = mkRun (Throw (RangeError "The msb value must be between 0 and 127.")) [].
Proof.
  intros Hnan. unfold _setCurrentRegisteredParameter. cbv zeta.
  rewrite Hnan. reflexivity.
Qed.

Lemma setCurrent_no_second_byte (d : Data) (d0 : Z) (v : JsValue)
    (rest : list JsValue) (t : TimeSpec) :
  concat_data d = JInt d0 :: v :: rest -> 0 <= d0 <= 127 ->
  parseInt pe v = NaN ->
  _setCurrentRegisteredParameter pe W this d t
  = mkRun (Throw (RangeError "The lsb value must be between 0 and 127."))
      [cc (JInt 0x06) (JInt d0) t].
Proof.
  intros Hd Hd0 Hnan. unfold _setCurrentRegisteredParameter. cbv zeta.
  rewrite Hd, array_get_0.
  rewrite (data_byte_accepted pe d0 Hd0), (parseInt_JInt pe d0) by lia.
  change (array_get (array_set (JInt d0 :: v :: rest) 0 (JNumber (num d0))) 1)
    with v.
  rewrite Hnan. rewrite sendControlChange_number by lia. reflexivity.
Qed.

(** The select phase on integer bytes. *)
Lemma selectRegistered_JInt (a b : Z) (more : list JsValue) (t : TimeSpec) :
  0 <= a <= 127 -> 0 <= b <= 127 ->
  _selectRegisteredParameter W this (JInt a :: JInt b :: more) t
  = mkRun (Normal tt) [cc (JInt 0x65) (JInt a) t; cc (JInt 0x64) (JInt b) t].
Proof.
  intros Ha Hb.
  rewrite selectRegistered_accepts by now apply select_in_range_JInt.
  rewrite array_get_0, array_get_1. simpl ToNumber. now rewrite !Math_floor_num.
Qed.

Lemma selectNonRegistered_JInt (a b : Z) (more : list JsValue) (t : TimeSpec) :
  0 <= a <= 127 -> 0 <= b <= 127 ->
  _selectNonRegisteredParameter W this (JInt a :: JInt b :: more) t
  = mkRun (Normal tt) [cc (JInt 0x63) (JInt a) t; cc (JInt 0x62) (JInt b) t].
Proof.
  intros Ha Hb.
  rewrite selectNonRegistered_accepts by now apply select_in_range_JInt.
  rewrite array_get_0, array_get_1. simpl ToNumber. now rewrite !Math_floor_num.
Qed.

(** [setRegisteredParameter] once the parameter is found and selected. *)
Lemma setRegisteredParameter_selected (p : ParameterId) (a b : Z)
    (more : list JsValue) (d : Data) (options : option Options) :
  parameterBytes W p = Some (JInt a :: JInt b :: more) ->
  0 <= a <= 127 -> 0 <= b <= 127 ->
  setRegisteredParameter pe W this p d options
  = (mkRun (Normal tt)
       [ cc (JInt 0x65) (JInt a) (channelNumberAsTime this);
         cc (JInt 0x64) (JInt b) (channelNumberAsTime this) ] ;;
     _setCurrentRegisteredParameter pe W this d (channelNumberAsTime this) ;;
     mkRun (Normal tt)
       [ cc (JInt 0x65) (JInt 0x7F) (time (orEmpty options));
         cc (JInt 0x64) (JInt 0x7F) (time (orEmpty options)) ]).
Proof.
  intros Hp Ha Hb. unfold setRegisteredParameter.
  rewrite (lookup_parameter W p _ _ Hp), bind_mret.
  fold (channelNumberAsTime this).
  rewrite selectRegistered_JInt by assumption.
  now rewrite deselect_run.
Qed.

Lemma setNonRegisteredParameter_selected (a b : Z) (more : list JsValue)
    (d : Data) (options : option Options) :
  0 <= a <= 127 -> 0 <= b <= 127 ->
  setNonRegisteredParameter pe W this (JInt a :: JInt b :: more) d options
  = (mkRun (Normal tt)
       [ cc (JInt 0x63) (JInt a) (channelNumberAsTime this);
         cc (JInt 0x62) (JInt b) (channelNumberAsTime this) ] ;;
     _setCurrentRegisteredParameter pe W this (DataArray (concat_data d))
       (channelNumberAsTime this) ;;
     mkRun (Normal tt)
       [ cc (JInt 0x65) (JInt 0x7F) (time (orEmpty options));
         cc (JInt 0x64) (JInt 0x7F) (time (orEmpty options)) ]).
Proof.
  intros Ha Hb. unfold setNonRegisteredParameter.
  fold (channelNumberAsTime this).
  rewrite selectNonRegistered_JInt by assumption.
  now rewrite deselect_run.
Qed.

End Sequences.

(** *** The sequences of the parameter protocol *)

(** X1: for a registered parameter identified by integer bytes (a, b) in
    0..127, given as an array or found under its name,
    [setRegisteredParameter] with one data byte d0 in 0..127 (as [d0] or
    [[d0]]) emits exactly 0x65=a, 0x64=b, 0x06=d0, 0x65=127, 0x64=127; with
    two or more bytes it emits 0x26=d1 after 0x06=d0 and ignores every byte
    beyond the second. *)
Theorem registered_parameter_sequence
    (pe : Q -> Number) (W : WebMidiModule) (this : OutputChannel)
    (p : ParameterId) (a b d0 d1 : Z) (more rest : list JsValue)
    (options : option Options) :
  parameterBytes W p = Some (JInt a :: JInt b :: more) ->
  0 <= a <= 127 -> 0 <= b <= 127 -> 0 <= d0 <= 127 -> 0 <= d1 <= 127 ->
  (forall d, concat_data d = [JInt d0] ->
     setRegisteredParameter pe W this p d options
     = mkRun (Normal tt)
         [ controlChangeMessage W this (JInt 0x65) (JInt a) (channelNumberAsTime this);
           controlChangeMessage W this (JInt 0x64) (JInt b) (channelNumberAsTime this);
           controlChangeMessage W this (JInt 0x06) (JInt d0) (channelNumberAsTime this);
           controlChangeMessage W this (JInt 0x65) (JInt 127) (time (orEmpty options));
           controlChangeMessage W this (JInt 0x64) (JInt 127) (time (orEmpty options)) ])
  /\ setRegisteredParameter pe W this p
       (DataArray (JInt d0 :: JInt d1 :: rest)) options
     = mkRun (Normal tt)
         [ controlChangeMessage W this (JInt 0x65) (JInt a) (channelNumberAsTime this);
           controlChangeMessage W this (JInt 0x64) (JInt b) (channelNumberAsTime this);
           controlChangeMessage W this (JInt 0x06) (JInt d0) (channelNumberAsTime this);
           controlChangeMessage W this (JInt 0x26) (JInt d1) (channelNumberAsTime this);
           controlChangeMessage W this (JInt 0x65) (JInt 127) (time (orEmpty options));
           controlChangeMessage W this (JInt 0x64) (JInt 127) (time (orEmpty options)) ].
Proof.
  intros Hp Ha Hb Hd0 Hd1. split; [intros d Hd |].
  - rewrite (setRegisteredParameter_selected pe W this p a b more) by assumption.
    rewrite (setCurrent_one pe W this d d0) by assumption. reflexivity.
  - rewrite (setRegisteredParameter_selected pe W this p a b more) by assumption.
    rewrite (setCurrent_two pe W this _ d0 d1 rest) by (assumption || reflexivity).
    reflexivity.
Qed.

Lemma registered_parameter_sequence_witness :
  setRegisteredParameter Reference.noExponent (Reference.WebMidi 0)
    (Reference.channel 3) (ParameterName "gain")
    (DataArray [JInt 5; JInt 6; JInt 999]) None
  = mkRun (Normal tt)
      [ mkMessage 178 [JInt 0x65; JInt 0x3D] (JInt 3);
        mkMessage 178 [JInt 0x64; JInt 2] (JInt 3);
        mkMessage 178 [JInt 0x06; JInt 5] (JInt 3);
        mkMessage 178 [JInt 0x26; JInt 6] (JInt 3);
        mkMessage 178 [JInt 0x65; JInt 127] (JInt 0);
        mkMessage 178 [JInt 0x64; JInt 127] (JInt 0) ].
Proof.
  apply (registered_parameter_sequence Reference.noExponent
           (Reference.WebMidi 0) (Reference.channel 3) (ParameterName "gain")
           0x3D 2 5 6 [] [JInt 999] None).
  - vm_compute. reflexivity.
  - lia.
  - lia.
  - lia.
  - lia.
Defined.

(** X2: for a non-registered parameter with integer bytes (a, b) in
    0..127, [setNonRegisteredParameter] selects with 0x63=a, 0x62=b, writes
    0x06=d0 (and 0x26=d1 when a second byte is given, further bytes being
    ignored) and deselects with the registered controllers 0x65=127,
    0x64=127. *)
Theorem nonregistered_parameter_sequence
    (pe : Q -> Number) (W : WebMidiModule) (this : OutputChannel)
    (a b d0 d1 : Z) (more rest : list JsValue) (options : option Options) :
  0 <= a <= 127 -> 0 <= b <= 127 -> 0 <= d0 <= 127 -> 0 <= d1 <= 127 ->
  (forall d, concat_data d = [JInt d0] ->
     setNonRegisteredParameter pe W this (JInt a :: JInt b :: more) d options
     = mkRun (Normal tt)
         [ controlChangeMessage W this (JInt 0x63) (JInt a) (channelNumberAsTime this);
           controlChangeMessage W this (JInt 0x62) (JInt b) (channelNumberAsTime this);
           controlChangeMessage W this (JInt 0x06) (JInt d0) (channelNumberAsTime this);
           controlChangeMessage W this (JInt 0x65) (JInt 127) (time (orEmpty options));
           controlChangeMessage W this (JInt 0x64) (JInt 127) (time (orEmpty options)) ])
  /\ setNonRegisteredParameter pe W this (JInt a :: JInt b :: more)
       (DataArray (JInt d0 :: JInt d1 :: rest)) options
     = mkRun (Normal tt)
         [ controlChangeMessage W this (JInt 0x63) (JInt a) (channelNumberAsTime this);
           controlChangeMessage W this (JInt 0x62) (JInt b) (channelNumberAsTime this);
           controlChangeMessage W this (JInt 0x06) (JInt d0) (channelNumberAsTime this);
           controlChangeMessage W this (JInt 0x26) (JInt d1) (channelNumberAsTime this);
           controlChangeMessage W this (JInt 0x65) (JInt 127) (time (orEmpty options));
           controlChangeMessage W this (JInt 0x64) (JInt 127) (time (orEmpty options)) ].
Proof.
  intros Ha Hb Hd0 Hd1. split; [intros d Hd |].
  - rewrite setNonRegisteredParameter_selected by assumption.
    rewrite (setCurrent_one pe W this _ d0) by assumption. reflexivity.
  - rewrite setNonRegisteredParameter_selected by assumption.
    rewrite (setCurrent_two pe W this _ d0 d1 rest) by (assumption || reflexivity).
    reflexivity.
Qed.

Lemma nonregistered_parameter_sequence_witness :
  setNonRegisteredParameter Reference.noExponent (Reference.WebMidi 0)
    (Reference.channel 1) [JInt 1; JInt 8] (DataValue (JInt 123)) None
  = mkRun (Normal tt)
      [ mkMessage 176 [JInt 0x63; JInt 1] (JInt 1);
        mkMessage 176 [JInt 0x62; JInt 8] (JInt 1);
        mkMessage 176 [JInt 0x06; JInt 123] (JInt 1);
        mkMessage 176 [JInt 0x65; JInt 127] (JInt 0);
        mkMessage 176 [JInt 0x64; JInt 127] (JInt 0) ].
Proof.
  apply (nonregistered_parameter_sequence Reference.noExponent
           (Reference.WebMidi 0) (Reference.channel 1) 1 8 123 0 [] [] None);
    [lia | lia | lia | lia | reflexivity].
Defined.

(** X3: the data of [setRegisteredParameter] and
    [setNonRegisteredParameter] is not optional: with the data argument
    omitted (undefined) or an empty array, both throw a RangeError about
    the msb after the two select messages have been sent. *)
Theorem parameter_without_data
    (pe : Q -> Number) (W : WebMidiModule) (this : OutputChannel)
    (p : ParameterId) (a b : Z) (more : list JsValue) (d : Data)
    (options : option Options) :
  parameterBytes W p = Some (JInt a :: JInt b :: more) ->
  0 <= a <= 127 -> 0 <= b <= 127 ->
  d = DataValue JUndefined \/ d = DataArray [] ->
  setRegisteredParameter pe W this p d options
  = mkRun (Throw (RangeError "The msb value must be between 0 and 127."))
      [ controlChangeMessage W this (JInt 0x65) (JInt a) (channelNumberAsTime this);
        controlChangeMessage W this (JInt 0x64) (JInt b) (channelNumberAsTime this) ]
  /\ setNonRegisteredParameter pe W this (JInt a :: JInt b :: more) d options
     = mkRun (Throw (RangeError "The msb value must be between 0 and 127."))
         [ controlChangeMessage W this (JInt 0x63) (JInt a) (channelNumberAsTime this);
           controlChangeMessage W this (JInt 0x62) (JInt b) (channelNumberAsTime this) ].
Proof.
  intros Hp Ha Hb Hd.
  assert (Hnan : parseInt pe (array_get (concat_data d) 0) = NaN)
    by (destruct Hd as [-> | ->]; reflexivity).
  assert (Hnan' : parseInt pe (array_get (concat_data (DataArray (concat_data d))) 0)
                  = NaN) by exact Hnan.
  split.
  - rewrite (setRegisteredParameter_selected pe W this p a b more) by assumption.
    rewrite (setCurrent_no_first_byte pe W this d _ Hnan). reflexivity.
  - rewrite setNonRegisteredParameter_selected by assumption.
    rewrite (setCurrent_no_first_byte pe W this _ _ Hnan'). reflexivity.
Qed.

Lemma parameter_without_data_witness :
  setRegisteredParameter Reference.noExponent (Reference.WebMidi 0)
    (Reference.channel 1) (ParameterName "tuningbank") (DataArray []) None
  = mkRun (Throw (RangeError "The msb value must be between 0 and 127."))
      [ mkMessage 176 [JInt 0x65; JInt 0] (JInt 1);
        mkMessage 176 [JInt 0x64; JInt 4] (JInt 1) ].
Proof.
  apply (parameter_without_data Reference.noExponent (Reference.WebMidi 0)
           (Reference.channel 1) (ParameterName "tuningbank") 0 4 []
           (DataArray []) None).
  - vm_compute. reflexivity.
  - lia.
  - lia.
  - right. reflexivity.
Defined.

Lemma parseInt_non_numeric (pe : Q -> Number) (v : JsValue) :
  non_numeric v -> parseInt pe v = NaN.
Proof.
  intros H. destruct v as [| | bo | [| q]]; try reflexivity.
  exfalso. exact (H q eq_refl).
Qed.

(** X4: [setPitchBendRange] and [setModulationRange] always hand the pair
    [semitones, cents] to the parameter protocol.  With both integers in
    0..127 they emit the six messages of a two-byte write; with cents left
    out (or not a number) they throw a RangeError about the lsb after the
    two select messages and 0x06=semitones have been sent. *)
Theorem range_setters_need_cents
    (pe : Q -> Number) (W : WebMidiModule) (this : OutputChannel)
    (name : string) (setter : JsValue -> JsValue -> option Options -> Run unit)
    (a b semitones c : Z) (more : list JsValue) (cents : JsValue)
    (options : option Options) :
  (name = "pitchbendrange" /\ setter = setPitchBendRange pe W this)
  \/ (name = "modulationrange" /\ setter = setModulationRange pe W this) ->
  MIDI_REGISTERED_PARAMETER W !! name = Some (JInt a :: JInt b :: more) ->
  0 <= a <= 127 -> 0 <= b <= 127 -> 0 <= semitones <= 127 -> 0 <= c <= 127 ->
  non_numeric cents ->
  setter (JInt semitones) (JInt c) options
  = mkRun (Normal tt)
      [ controlChangeMessage W this (JInt 0x65) (JInt a) (channelNumberAsTime this);
        controlChangeMessage W this (JInt 0x64) (JInt b) (channelNumberAsTime this);
        controlChangeMessage W this (JInt 0x06) (JInt semitones) (channelNumberAsTime this);
        controlChangeMessage W this (JInt 0x26) (JInt c) (channelNumberAsTime this);
        controlChangeMessage W this (JInt 0x65) (JInt 127) (time (orEmpty options));
        controlChangeMessage W this (JInt 0x64) (JInt 127) (time (orEmpty options)) ]
  /\ setter (JInt semitones) cents options
     = mkRun (Throw (RangeError "The lsb value must be between 0 and 127."))
         [ controlChangeMessage W this (JInt 0x65) (JInt a) (channelNumberAsTime this);
           controlChangeMessage W this (JInt 0x64) (JInt b) (channelNumberAsTime this);
           controlChangeMessage W this (JInt 0x06) (JInt semitones) (channelNumberAsTime this) ].
Proof.
  intros Hsetter Hname Ha Hb Hs Hc Hcents.
  assert (Hrun : forall v,
            setter (JInt semitones) v options
            = setRegisteredParameter pe W this (ParameterName name)
                (DataArray [JInt semitones; v])
                (Some (timeOptions (time (orEmpty options)))))
    by (intros v; destruct Hsetter as [[-> ->] | [-> ->]]; reflexivity).
  rewrite !Hrun. split.
  - rewrite (setRegisteredParameter_selected pe W this _ a b more)
      by assumption.
    rewrite (setCurrent_two pe W this _ semitones c [])
      by (assumption || reflexivity).
    reflexivity.
  - rewrite (setRegisteredParameter_selected pe W this _ a b more)
      by assumption.
    rewrite (setCurrent_no_second_byte pe W this _ semitones cents [])
      by (try assumption; try reflexivity; now apply parseInt_non_numeric).
    reflexivity.
Qed.

Lemma range_setters_need_cents_witness :
  setPitchBendRange Reference.noExponent (Reference.WebMidi 0)
    (Reference.channel 1) (JInt 12) JUndefined None
  = mkRun (Throw (RangeError "The lsb value must be between 0 and 127."))
      [ mkMessage 176 [JInt 0x65; JInt 0] (JInt 1);
        mkMessage 176 [JInt 0x64; JInt 0] (JInt 1);
        mkMessage 176 [JInt 0x06; JInt 12] (JInt 1) ].
Proof.
  apply (range_setters_need_cents Reference.noExponent (Reference.WebMidi 0)
           (Reference.channel 1) "pitchbendrange"
           (setPitchBendRange Reference.noExponent (Reference.WebMidi 0)
              (Reference.channel 1))
           0 0 12 0 [] JUndefined None).
  - left. split; reflexivity.
  - vm_compute. reflexivity.
  - lia.
  - lia.
  - lia.
  - lia.
  - intros q. discriminate.
Defined.

(** X5: for a registered parameter with integer bytes (a, b) in 0..127,
    [incrementRegisteredParameter] emits exactly 0x65=a, 0x64=b, 0x60=0,
    0x65=127, 0x64=127, all five at the resolution of [options.time];
    [decrementRegisteredParameter] emits 0x65=a, 0x64=b, 0x61=0, 0x65=127,
    0x64=127, where only the two deselect messages are at the resolution of
    [options.time]: the select messages take the channel number as their
    time and the decrement message no time at all. *)
Theorem increment_decrement_sequence
    (W : WebMidiModule) (this : OutputChannel) (p : ParameterId)
    (a b : Z) (more : list JsValue) (options : option Options) :
  parameterBytes W p = Some (JInt a :: JInt b :: more) ->
  0 <= a <= 127 -> 0 <= b <= 127 ->
  incrementRegisteredParameter W this p options
  = mkRun (Normal tt)
      [ controlChangeMessage W this (JInt 0x65) (JInt a) (time (orEmpty options));
        controlChangeMessage W this (JInt 0x64) (JInt b) (time (orEmpty options));
        controlChangeMessage W this (JInt 0x60) (JInt 0) (time (orEmpty options));
        controlChangeMessage W this (JInt 0x65) (JInt 127) (time (orEmpty options));
        controlChangeMessage W this (JInt 0x64) (JInt 127) (time (orEmpty options)) ]
  /\ decrementRegisteredParameter W this p options
     = mkRun (Normal tt)
         [ controlChangeMessage W this (JInt 0x65) (JInt a) (channelNumberAsTime this);
           controlChangeMessage W this (JInt 0x64) (JInt b) (channelNumberAsTime this);
           controlChangeMessage W this (JInt 0x61) (JInt 0) TimeUndefined;
           controlChangeMessage W this (JInt 0x65) (JInt 127) (time (orEmpty options));
           controlChangeMessage W this (JInt 0x64) (JInt 127) (time (orEmpty options)) ].
Proof.
  intros Hp Ha Hb. split.
  - unfold incrementRegisteredParameter.
    rewrite (lookup_parameter W p _ _ Hp), bind_mret.
    rewrite selectRegistered_JInt by assumption.
    rewrite deselect_run, sendControlChange_number by lia. reflexivity.
  - unfold decrementRegisteredParameter.
    rewrite (lookup_parameter W p _ _ Hp), bind_mret.
    fold (channelNumberAsTime this).
    rewrite selectRegistered_JInt by assumption.
    rewrite deselect_run.
    change (numberAsOptions (number this)) with (Some (timeOptions TimeUndefined)).
    rewrite sendControlChange_number by lia. reflexivity.
Qed.

Lemma increment_decrement_sequence_witness :
  incrementRegisteredParameter (Reference.WebMidi 0) (Reference.channel 2)
    (ParameterArray [JInt 0; JInt 5]) (Some (timeOptions (TimeAbsolute 40)))
  = mkRun (Normal tt)
      [ mkMessage 177 [JInt 0x65; JInt 0] (JInt 40);
        mkMessage 177 [JInt 0x64; JInt 5] (JInt 40);
        mkMessage 177 [JInt 0x60; JInt 0] (JInt 40);
        mkMessage 177 [JInt 0x65; JInt 127] (JInt 40);
        mkMessage 177 [JInt 0x64; JInt 127] (JInt 40) ].
Proof.
  apply (increment_decrement_sequence (Reference.WebMidi 0)
           (Reference.channel 2) (ParameterArray [JInt 0; JInt 5]) 0 5 []
           (Some (timeOptions (TimeAbsolute 40))));
    [reflexivity | lia | lia].
Defined.

(** X6: for an integer z in 1..128, [setTuningBank(z)] and
    [setTuningProgram(z)] write the single data byte z - 1 to the
    "tuningbank" and "tuningprogram" parameter.  The options play no part:
    the select and data messages take the channel number as their time and
    the deselect messages no time at all, whatever [options.time] is. *)
Theorem tuning_bank_and_program
    (pe : Q -> Number) (W : WebMidiModule) (this : OutputChannel)
    (name : string) (setter : JsValue -> option Options -> Run unit)
    (a b z : Z) (more : list JsValue) (options : option Options) :
  (name = "tuningbank" /\ setter = setTuningBank pe W this)
  \/ (name = "tuningprogram" /\ setter = setTuningProgram pe W this) ->
  MIDI_REGISTERED_PARAMETER W !! name = Some (JInt a :: JInt b :: more) ->
  0 <= a <= 127 -> 0 <= b <= 127 -> 1 <= z <= 128 ->
  setter (JInt z) options
  = mkRun (Normal tt)
      [ controlChangeMessage W this (JInt 0x65) (JInt a) (channelNumberAsTime this);
        controlChangeMessage W this (JInt 0x64) (JInt b) (channelNumberAsTime this);
        controlChangeMessage W this (JInt 0x06) (JInt (z - 1)) (channelNumberAsTime this);
        controlChangeMessage W this (JInt 0x65) (JInt 127) TimeUndefined;
        controlChangeMessage W this (JInt 0x64) (JInt 127) TimeUndefined ].
Proof.
  intros Hsetter Hname Ha Hb Hz.
  assert (Hrun : setter (JInt z) options
                 = setRegisteredParameter pe W this (ParameterName name)
                     (DataValue (JInt (z - 1)))
                     (numberAsOptions (number this))).
  { destruct Hsetter as [[-> ->] | [-> ->]];
      unfold setTuningBank, setTuningProgram; cbv zeta;
      rewrite parseInt_JInt by lia; rewrite between_num;
      (replace ((1 <=? z) && (z <=? 128)) with true
         by (symmetry; apply andb_true_iff; lia));
      rewrite num_sub_num; reflexivity. }
  rewrite Hrun.
  rewrite (setRegisteredParameter_selected pe W this _ a b more) by assumption.
  rewrite (setCurrent_one pe W this _ (z - 1)) by (reflexivity || lia).
  reflexivity.
Qed.

Lemma tuning_bank_and_program_witness :
  setTuningBank Reference.noExponent (Reference.WebMidi 0)
    (Reference.channel 1) (JInt 128) (Some (timeOptions (TimeAbsolute 90)))
  = mkRun (Normal tt)
      [ mkMessage 176 [JInt 0x65; JInt 0] (JInt 1);
        mkMessage 176 [JInt 0x64; JInt 4] (JInt 1);
        mkMessage 176 [JInt 0x06; JInt 127] (JInt 1);
        mkMessage 176 [JInt 0x65; JInt 127] (JInt 0);
        mkMessage 176 [JInt 0x64; JInt 127] (JInt 0) ].
Proof.
  apply (tuning_bank_and_program Reference.noExponent (Reference.WebMidi 0)
           (Reference.channel 1) "tuningbank"
           (setTuningBank Reference.noExponent (Reference.WebMidi 0)
              (Reference.channel 1))
           0 4 128 [] (Some (timeOptions (TimeAbsolute 90)))).
  - left. split; reflexivity.
  - vm_compute. reflexivity.
  - lia.
  - lia.
  - lia.
Defined.

(** What [parseInt] reads from a number, by its rendering. *)
Lemma parseInt_plain (pe : Q -> Number) (q : Q) :
  plain_decimal q = true -> parseInt pe (JNumber (Fin q)) = num (Qtrunc q).
Proof. intros H. unfold parseInt. now rewrite H. Qed.

Lemma parseInt_exponent_read (pe : Q -> Number) (q : Q) :
  plain_decimal q = false -> parseInt pe (JNumber (Fin q)) = pe q.
Proof. intros H. unfold parseInt. now rewrite H. Qed.

(** X7: [setTuningBank] and [setTuningProgram] test [parseInt(value)].
    They reject, with a RangeError before anything is sent, a value that
    is not a number, and a number rendered in plain decimal (zero, or a
    magnitude in [1e-6, 1e21)) whose integer part is outside 1..128.  A
    number rendered with an exponent is judged by the integer that
    [parseInt] reads from the rendering, not by its magnitude: when that
    integer is d in 1..128 (1e21 reads as 1), the value is accepted and
    d - 1 is written. *)
Theorem tuning_number_rejected
    (pe : Q -> Number) (W : WebMidiModule) (this : OutputChannel)
    (name : string) (setter : JsValue -> option Options -> Run unit)
    (value : JsValue) (q q' : Q) (a b d : Z) (more : list JsValue)
    (options : option Options) :
  (name = "tuningbank" /\ setter = setTuningBank pe W this)
  \/ (name = "tuningprogram" /\ setter = setTuningProgram pe W this) ->
  MIDI_REGISTERED_PARAMETER W !! name = Some (JInt a :: JInt b :: more) ->
  0 <= a <= 127 -> 0 <= b <= 127 ->
  non_numeric value ->
  plain_decimal q = true -> Qtrunc q < 1 \/ 128 < Qtrunc q ->
  plain_decimal q' = false -> pe q' = num d -> 1 <= d <= 128 ->
  setter value options
  = mkRun (Throw (RangeError "The program value must be between 1 and 128.")) []
  /\ setter (JNumber (Fin q)) options
     = mkRun (Throw (RangeError "The program value must be between 1 and 128.")) []
  /\ setter (JNumber (Fin q')) options
     = mkRun (Normal tt)
         [ controlChangeMessage W this (JInt 0x65) (JInt a) (channelNumberAsTime this);
           controlChangeMessage W this (JInt 0x64) (JInt b) (channelNumberAsTime this);
           controlChangeMessage W this (JInt 0x06) (JInt (d - 1)) (channelNumberAsTime this);
           controlChangeMessage W this (JInt 0x65) (JInt 127) TimeUndefined;
           controlChangeMessage W this (JInt 0x64) (JInt 127) TimeUndefined ].
Proof.
  intros Hsetter Hname Ha Hb Hvalue Hq Hout Hq' Hread Hd.
  assert (Hnan : isNaN (JNumber (parseInt pe value))
                 || negb (between 1 128 (parseInt pe value)) = true)
    by now rewrite (parseInt_non_numeric pe value Hvalue).
  assert (Hbad : isNaN (JNumber (parseInt pe (JNumber (Fin q))))
                 || negb (between 1 128 (parseInt pe (JNumber (Fin q)))) = true).
  { rewrite (parseInt_plain pe q Hq), between_num. simpl.
    apply negb_true_iff, andb_false_iff.
    destruct Hout; [left | right]; apply Z.leb_gt; lia. }
  assert (Hok : isNaN (JNumber (parseInt pe (JNumber (Fin q'))))
                || negb (between 1 128 (parseInt pe (JNumber (Fin q')))) = false).
  { rewrite (parseInt_exponent_read pe q' Hq'), Hread, between_num. simpl.
    apply negb_false_iff, andb_true_iff. split; apply Z.leb_le; lia. }
  assert (Hrun : setter (JNumber (Fin q')) options
                 = setRegisteredParameter pe W this (ParameterName name)
                     (DataValue (JInt (d - 1)))
                     (numberAsOptions (number this))).
  { destruct Hsetter as [[-> ->] | [-> ->]];
      unfold setTuningBank, setTuningProgram; cbv zeta; rewrite Hok;
      rewrite (parseInt_exponent_read pe q' Hq'), Hread, num_sub_num;
      reflexivity. }
  split; [| split].
  - destruct Hsetter as [[_ ->] | [_ ->]];
      unfold setTuningBank, setTuningProgram; cbv zeta; now rewrite Hnan.
  - destruct Hsetter as [[_ ->] | [_ ->]];
      unfold setTuningBank, setTuningProgram; cbv zeta; now rewrite Hbad.
  - rewrite Hrun.
    rewrite (setRegisteredParameter_selected pe W this _ a b more) by assumption.
    rewrite (setCurrent_one pe W this _ (d - 1)) by (reflexivity || lia).
    reflexivity.
Qed.

Lemma tuning_number_rejected_witness :
  setTuningProgram Reference.readsE21 (Reference.WebMidi 0)
    (Reference.channel 1) JNull None
  = mkRun (Throw (RangeError "The program value must be between 1 and 128.")) []
  /\ setTuningProgram Reference.readsE21 (Reference.WebMidi 0)
       (Reference.channel 1) (JNumber (Fin (259 # 2))) None
     = mkRun (Throw (RangeError "The program value must be between 1 and 128.")) []
  /\ setTuningProgram Reference.readsE21 (Reference.WebMidi 0)
       (Reference.channel 1) (JNumber (Fin (inject_Z (10 ^ 21)))) None
     = mkRun (Normal tt)
         [ mkMessage 176 [JInt 0x65; JInt 0] (JInt 1);
           mkMessage 176 [JInt 0x64; JInt 3] (JInt 1);
           mkMessage 176 [JInt 0x06; JInt (1 - 1)] (JInt 1);
           mkMessage 176 [JInt 0x65; JInt 127] (JInt 0);
           mkMessage 176 [JInt 0x64; JInt 127] (JInt 0) ].
Proof.
  apply (tuning_number_rejected Reference.readsE21 (Reference.WebMidi 0)
           (Reference.channel 1) "tuningprogram"
           (setTuningProgram Reference.readsE21 (Reference.WebMidi 0)
              (Reference.channel 1))
           JNull (259 # 2) (inject_Z (10 ^ 21)) 0 3 1 [] None).
  - right. split; reflexivity.
  - vm_compute. reflexivity.
  - lia.
  - lia.
  - intros q. discriminate.
  - vm_compute. reflexivity.
  - right. vm_compute. reflexivity.
  - vm_compute. reflexivity.
  - vm_compute. reflexivity.
  - lia.
Defined.

(** *** Master tuning *)

Lemma num_add_num (a b : Z) : num_add (num a) (num b) = num (a + b).
Proof.
  unfold num_add, num. f_equal.
  rewrite <- (Qred_inject_Z (a + b)). apply Qred_complete.
  unfold Qeq, Qplus, inject_Z. simpl. lia.
Qed.

Lemma land_127_mod (a : Z) : Z.land a 127 = a mod 128.
Proof. change 127 with (Z.ones 7). now rewrite Z.land_ones by lia. Qed.

Lemma masterTuningFine_range (v : Q) : 8192 <= masterTuningFine v <= 16383.
Proof.
  unfold masterTuningFine, bendLevel.
  pose proof (Qfloor_le v) as Hlo. pose proof (Qlt_floor v) as Hhi.
  rewrite inject_Z_plus in Hhi. change (inject_Z 1) with 1%Q in Hhi.
  destruct (binary64_between 0 1 (v - inject_Z (Qfloor v))) as [F0 F1];
    [reflexivity | vm_compute; reflexivity | lra | lra |].
  destruct (bendLevel_bounds 1 2 (1 # 2) 1 (16383 # 2) 16383
              (binary64 (v - inject_Z (Qfloor v)))) as [A B];
    [vm_compute; reflexivity .. | lra | lra |].
  apply round_range.
  - eapply Qle_trans; [| exact A]. vm_compute. discriminate.
  - exact B.
Qed.

(** At the binary64 number v = 268451841 / 2^41 the rounded operations
    give exactly 8192.5 and the level 8193, one above the level that
    exact arithmetic gives. *)
Lemma masterTuningFine_rounding :
  masterTuningFine (268451841 # 2199023255552) = 8193
  /\ round (((268451841 # 2199023255552) + 1) / 2 * 16383) = 8192.
Proof. vm_compute. split; reflexivity. Qed.

(** What [setMasterTuning] hands to the parameter protocol for a value
    inside (-65, 64). *)
Lemma setMasterTuning_parts (pe : Q -> Number) (W : WebMidiModule)
    (this : OutputChannel) (v : Q) (options : option Options) :
  (-65 < v)%Q -> (v < 64)%Q ->
  setMasterTuning pe W this (JNumber (Fin v)) options
  = (setRegisteredParameter pe W this (ParameterName "channelcoarsetuning")
       (DataValue (JInt (Qfloor v + 64)))
       (Some (timeOptions (time (orEmpty options)))) ;;
     setRegisteredParameter pe W this (ParameterName "channelfinetuning")
       (DataArray [JInt (masterTuningFine v / 128);
                   JInt (masterTuningFine v mod 128)])
       (Some (timeOptions (time (orEmpty options))))).
Proof.
  intros Hlo Hhi. unfold setMasterTuning. cbv zeta. simpl parseFloat.
  assert (Hv : exists v', (if truthy (JNumber (Fin v)) then Fin v else num 0)
                          = Fin v' /\ (v' == v)%Q).
  { simpl truthy. destruct (Qeq_bool v 0) eqn:E; simpl negb; cbv iota.
    - exists 0%Q. split; [reflexivity |]. symmetry. now apply Qeq_bool_iff.
    - exists v. split; reflexivity. }
  destruct Hv as (v' & -> & Hv').
  assert (Hguard : num_le (Fin v') (num (-65)) || num_ge (Fin v') (num 64) = false).
  { unfold num_ge, num_le, num. apply orb_false_iff.
    split; apply not_true_is_false; rewrite Qle_bool_iff, Hv';
      apply Qlt_not_le; assumption. }
  rewrite Hguard.
  change (Math_floor (Fin v')) with (num (Qfloor v')).
  rewrite (Qfloor_comp v' v Hv'), num_add_num.
  assert (Hfine :
    Math_round (mul64 (div64 (add64 (sub64 (Fin v') (num (Qfloor v)))
                                    (num 1)) (num 2)) (num 16383))
    = num (masterTuningFine v)).
  { unfold sub64, num at 1. rewrite pitchBend_level. unfold masterTuningFine.
    rewrite (binary64_comp (v' - inject_Z (Qfloor v)) (v - inject_Z (Qfloor v)))
      by now rewrite Hv'.
    reflexivity. }
  rewrite Hfine, truncate_num.
  pose proof (masterTuningFine_range v) as Hrange.
  destruct (js_split_small (masterTuningFine v) ltac:(lia)) as [-> ->].
  rewrite !land_127_mod, Z.shiftr_div_pow2 by lia. change (2 ^ 7) with 128.
  rewrite (Z.mod_small (masterTuningFine v / 128)).
  - reflexivity.
  - split; [apply Z.div_pos; lia | apply Z.div_lt_upper_bound; lia].
Qed.

Lemma setCurrent_bad_first_byte (pe : Q -> Number) (W : WebMidiModule)
    (this : OutputChannel) (d : Data) (d0 : Z) (rest : list JsValue)
    (t : TimeSpec) :
  concat_data d = JInt d0 :: rest ->
  - 10 ^ 21 < d0 < 0 \/ 127 < d0 < 10 ^ 21 ->
  _setCurrentRegisteredParameter pe W this d t
  = mkRun (Throw (RangeError "The msb value must be between 0 and 127.")) [].
Proof.
  intros Hd Hd0. unfold _setCurrentRegisteredParameter. cbv zeta.
  rewrite Hd, array_get_0, (data_byte_rejected pe d0 Hd0). reflexivity.
Qed.

(** X8: for a tuning value v with -64 <= v < 64, [setMasterTuning(v)]
    emits eleven control changes: the coarse-tuning parameter is written
    with the single byte floor(v) + 64, then the fine-tuning parameter with
    the two bytes (msb, lsb) of the 14-bit level
    Math.round((v - floor(v) + 1) / 2 * 16383), whose difference, sum,
    quotient and product are each rounded to binary64 as the program
    computes them; since the fractional part is never negative, that
    level is at least 8192 and the msb at least 64. *)
Theorem master_tuning_sequence
    (pe : Q -> Number) (W : WebMidiModule) (this : OutputChannel)
    (v : Q) (a b a' b' : Z) (more more' : list JsValue)
    (options : option Options) :
  (-64 <= v)%Q -> (v < 64)%Q ->
  MIDI_REGISTERED_PARAMETER W !! "channelcoarsetuning"
    = Some (JInt a :: JInt b :: more) ->
  MIDI_REGISTERED_PARAMETER W !! "channelfinetuning"
    = Some (JInt a' :: JInt b' :: more') ->
  0 <= a <= 127 -> 0 <= b <= 127 -> 0 <= a' <= 127 -> 0 <= b' <= 127 ->
  exists msb lsb : Z,
    64 <= msb <= 127 /\ 0 <= lsb <= 127
    /\ msb * 128 + lsb = masterTuningFine v
    /\ 0 <= Qfloor v + 64 <= 127
    /\ setMasterTuning pe W this (JNumber (Fin v)) options
       = mkRun (Normal tt)
           [ controlChangeMessage W this (JInt 0x65) (JInt a) (channelNumberAsTime this);
             controlChangeMessage W this (JInt 0x64) (JInt b) (channelNumberAsTime this);
             controlChangeMessage W this (JInt 0x06) (JInt (Qfloor v + 64))
               (channelNumberAsTime this);
             controlChangeMessage W this (JInt 0x65) (JInt 127) (time (orEmpty options));
             controlChangeMessage W this (JInt 0x64) (JInt 127) (time (orEmpty options));
             controlChangeMessage W this (JInt 0x65) (JInt a') (channelNumberAsTime this);
             controlChangeMessage W this (JInt 0x64) (JInt b') (channelNumberAsTime this);
             controlChangeMessage W this (JInt 0x06) (JInt msb) (channelNumberAsTime this);
             controlChangeMessage W this (JInt 0x26) (JInt lsb) (channelNumberAsTime this);
             controlChangeMessage W this (JInt 0x65) (JInt 127) (time (orEmpty options));
             controlChangeMessage W this (JInt 0x64) (JInt 127) (time (orEmpty options)) ].
Proof.
  intros Hlo Hhi Hcoarse Hfine Ha Hb Ha' Hb'.
  pose proof (masterTuningFine_range v) as Hrange.
  assert (Hfloor : 0 <= Qfloor v + 64 <= 127).
  { assert (-64 <= Qfloor v) by now apply Qfloor_ge_iff.
    assert (Qfloor v <= 63) by now apply Qfloor_le_iff. lia. }
  exists (masterTuningFine v / 128), (masterTuningFine v mod 128).
  pose proof (Z.mod_pos_bound (masterTuningFine v) 128 ltac:(lia)).
  pose proof (Z.div_mod (masterTuningFine v) 128 ltac:(lia)).
  assert (64 <= masterTuningFine v / 128 <= 127).
  { split; [apply Z.div_le_lower_bound; lia
           | apply Z.lt_succ_r, Z.div_lt_upper_bound; lia]. }
  repeat split; try lia.
  rewrite setMasterTuning_parts by (try assumption; lra).
  rewrite (setRegisteredParameter_selected pe W this
             (ParameterName "channelcoarsetuning") a b more) by assumption.
  rewrite (setRegisteredParameter_selected pe W this
             (ParameterName "channelfinetuning") a' b' more') by assumption.
  rewrite (setCurrent_one pe W this (DataValue (JInt (Qfloor v + 64)))
             (Qfloor v + 64)) by (reflexivity || lia).
  rewrite (setCurrent_two pe W this
             (DataArray [JInt (masterTuningFine v / 128);
                         JInt (masterTuningFine v mod 128)])
             (masterTuningFine v / 128) (masterTuningFine v mod 128) [])
    by (reflexivity || lia).
  reflexivity.
Qed.

Lemma master_tuning_sequence_witness :
  exists msb lsb : Z,
    64 <= msb <= 127 /\ 0 <= lsb <= 127
    /\ msb * 128 + lsb = masterTuningFine (-3 # 2)
    /\ 0 <= Qfloor (-3 # 2) + 64 <= 127
    /\ setMasterTuning Reference.noExponent (Reference.WebMidi 0)
         (Reference.channel 1) (JNumber (Fin (-3 # 2))) None
       = mkRun (Normal tt)
           [ mkMessage 176 [JInt 0x65; JInt 0] (JInt 1);
             mkMessage 176 [JInt 0x64; JInt 2] (JInt 1);
             mkMessage 176 [JInt 0x06; JInt (Qfloor (-3 # 2) + 64)] (JInt 1);
             mkMessage 176 [JInt 0x65; JInt 127] (JInt 0);
             mkMessage 176 [JInt 0x64; JInt 127] (JInt 0);
             mkMessage 176 [JInt 0x65; JInt 0] (JInt 1);
             mkMessage 176 [JInt 0x64; JInt 1] (JInt 1);
             mkMessage 176 [JInt 0x06; JInt msb] (JInt 1);
             mkMessage 176 [JInt 0x26; JInt lsb] (JInt 1);
             mkMessage 176 [JInt 0x65; JInt 127] (JInt 0);
             mkMessage 176 [JInt 0x64; JInt 127] (JInt 0) ].
Proof.
  apply (master_tuning_sequence Reference.noExponent (Reference.WebMidi 0)
           (Reference.channel 1) (-3 # 2) 0 2 0 1 [] [] None).
  - vm_compute. discriminate.
  - reflexivity.
  - vm_compute. reflexivity.
  - vm_compute. reflexivity.
  - lia.
  - lia.
  - lia.
  - lia.
Defined.

(** X9: the guard of [setMasterTuning] lets every v with -65 < v < 64
    through, but for -65 < v < -64 the coarse byte floor(v) + 64 is -1: the
    call throws the RangeError of the msb after the two select messages of
    the coarse-tuning parameter have been sent.  A value at or below -65,
    or at or above 64, is rejected before anything is sent. *)
Theorem master_tuning_rejections
    (pe : Q -> Number) (W : WebMidiModule) (this : OutputChannel)
    (v w : Q) (a b : Z) (more : list JsValue) (options : option Options) :
  (-65 < v)%Q -> (v < -64)%Q ->
  (w <= -65)%Q \/ (64 <= w)%Q ->
  MIDI_REGISTERED_PARAMETER W !! "channelcoarsetuning"
    = Some (JInt a :: JInt b :: more) ->
  0 <= a <= 127 -> 0 <= b <= 127 ->
  setMasterTuning pe W this (JNumber (Fin v)) options
  = mkRun (Throw (RangeError "The msb value must be between 0 and 127."))
      [ controlChangeMessage W this (JInt 0x65) (JInt a) (channelNumberAsTime this);
        controlChangeMessage W this (JInt 0x64) (JInt b) (channelNumberAsTime this) ]
  /\ setMasterTuning pe W this (JNumber (Fin w)) options
     = mkRun (Throw (RangeError
         "The value must be a decimal number larger than -65 and smaller than 64."))
         [].
Proof.
  intros Hlo Hhi Hw Hcoarse Ha Hb. split.
  - assert (Hfloor : Qfloor v = -65).
    { assert (-65 <= Qfloor v)
        by (apply Qfloor_ge_iff, Qlt_le_weak; exact Hlo).
      assert (Qfloor v <= -65) by (apply Qfloor_le_iff; exact Hhi). lia. }
    rewrite setMasterTuning_parts by (try assumption; lra).
    rewrite (setRegisteredParameter_selected pe W this
               (ParameterName "channelcoarsetuning") a b more) by assumption.
    rewrite (setCurrent_bad_first_byte pe W this
               (DataValue (JInt (Qfloor v + 64))) (Qfloor v + 64) [])
      by (reflexivity || lia).
    reflexivity.
  - unfold setMasterTuning. cbv zeta. simpl parseFloat.
    assert (Hnz : Qeq_bool w 0 = false).
    { apply not_true_is_false. rewrite Qeq_bool_iff. intros E.
      rewrite E in Hw. destruct Hw as [H | H]; vm_compute in H; now apply H. }
    simpl truthy. rewrite Hnz. simpl negb. cbv iota.
    assert (Hguard : num_le (Fin w) (num (-65)) || num_ge (Fin w) (num 64) = true).
    { unfold num_ge, num_le, num. apply orb_true_iff.
      destruct Hw as [H | H]; [left | right]; now apply Qle_bool_iff. }
    rewrite Hguard. reflexivity.
Qed.

Lemma master_tuning_rejections_witness :
  setMasterTuning Reference.noExponent (Reference.WebMidi 0)
    (Reference.channel 1) (JNumber (Fin (-129 # 2))) None
  = mkRun (Throw (RangeError "The msb value must be between 0 and 127."))
      [ mkMessage 176 [JInt 0x65; JInt 0] (JInt 1);
        mkMessage 176 [JInt 0x64; JInt 2] (JInt 1) ].
Proof.
  apply (master_tuning_rejections Reference.noExponent (Reference.WebMidi 0)
           (Reference.channel 1) (-129 # 2) (64 # 1) 0 2 [] None).
  - reflexivity.
  - reflexivity.
  - right. vm_compute. discriminate.
  - vm_compute. reflexivity.
  - lia.
  - lia.
Defined.

(** *** Operations of one message *)

(** X10: a numeric controller q with 0 <= q < 120 is floored, a named
    controller is replaced by its table entry (which is not range-checked),
    and in both cases [sendControlChange] emits exactly one control change
    whose second data byte is the [value] argument as given: the value is
    never validated. *)
Theorem control_change_message
    (W : WebMidiModule) (this : OutputChannel) (q : Q) (name : string)
    (c : Z) (value : JsValue) (options : option Options) :
  (0 <= q)%Q -> (q < 120)%Q ->
  MIDI_CONTROL_CHANGE_MESSAGES W !! name = Some c ->
  sendControlChange W this (ControllerValue (JNumber (Fin q))) value options
  = mkRun (Normal tt)
      [ controlChangeMessage W this (JInt (Qfloor q)) value
          (time (orEmpty options)) ]
  /\ sendControlChange W this (ControllerName name) value options
     = mkRun (Normal tt)
         [ controlChangeMessage W this (JInt c) value (time (orEmpty options)) ].
Proof.
  intros Hlo Hhi Hname. split.
  - unfold sendControlChange. simpl ToNumber.
    assert (Hin : between 0 119 (Math_floor (Fin q)) = true)
      by (apply between_floor; split; assumption).
    rewrite Hin. reflexivity.
  - unfold sendControlChange. rewrite Hname. reflexivity.
Qed.

Lemma control_change_message_witness :
  sendControlChange (Reference.WebMidi 0) (Reference.channel 1)
    (ControllerValue (JNumber (Fin (79 # 10)))) (JInt 300) None
  = mkRun (Normal tt) [mkMessage 176 [JInt 7; JInt 300] (JInt 0)].
Proof.
  apply (control_change_message (Reference.WebMidi 0) (Reference.channel 1)
           (79 # 10) "volumecoarse" 7 (JInt 300) None).
  - vm_compute. discriminate.
  - reflexivity.
  - vm_compute. reflexivity.
Defined.

Lemma truthy_num (v : Z) :
  (if truthy (JNumber (num v)) then num v else num 0) = num v.
Proof.
  destruct (Z.eq_dec v 0) as [-> | Hnz]; [reflexivity |].
  assert (H : truthy (JNumber (num v)) = true).
  { simpl. apply negb_true_iff, not_true_is_false. rewrite Qeq_bool_iff.
    unfold Qeq. simpl. lia. }
  now rewrite H.
Qed.

(** X11: with a command number z in 120..127, [sendChannelMode] takes
    [parseInt(value) || 0] as the value.  It emits exactly one message
    [z, v] for an integer v in 0..127 and takes a value that is not a
    number as 0.  A number rendered in plain decimal (zero, or a magnitude
    in [1e-6, 1e21)) whose integer part is outside 0..127 is rejected with
    a RangeError before anything is sent.  A number rendered with an
    exponent is judged by the integer that [parseInt] reads from the
    rendering, not by its magnitude: when that integer is d in 0..127
    (1e21 reads as 1), the message [z, d] is sent. *)
Theorem channel_mode_value
    (pe : Q -> Number) (W : WebMidiModule) (this : OutputChannel)
    (z v d : Z) (value : JsValue) (q q' : Q) (options : option Options) :
  120 <= z <= 127 -> 0 <= v <= 127 ->
  non_numeric value ->
  plain_decimal q = true -> Qtrunc q < 0 \/ 127 < Qtrunc q ->
  plain_decimal q' = false -> pe q' = num d -> 0 <= d <= 127 ->
  sendChannelMode pe W this (CommandValue (JInt z)) (JInt v) options
  = mkRun (Normal tt) [channelModeMessage W this z v (time (orEmpty options))]
  /\ sendChannelMode pe W this (CommandValue (JInt z)) value options
     = mkRun (Normal tt) [channelModeMessage W this z 0 (time (orEmpty options))]
  /\ sendChannelMode pe W this (CommandValue (JInt z)) (JNumber (Fin q)) options
     = mkRun (Throw (RangeError "Value must be an integer between 0 and 127.")) []
  /\ sendChannelMode pe W this (CommandValue (JInt z)) (JNumber (Fin q')) options
     = mkRun (Normal tt) [channelModeMessage W this z d (time (orEmpty options))].
Proof.
  intros Hz Hv Hvalue Hq Hout Hq' Hread Hd.
  assert (Hcommand : isNaN (JNumber (num z))
                     || negb (between 120 127 (ToNumber (JNumber (num z))))
                     = false).
  { simpl. rewrite between_num. apply negb_false_iff, andb_true_iff.
    split; apply Z.leb_le; lia. }
  assert (Hin : forall n, 0 <= n <= 127 ->
                  num_lt (num n) (num 0) || num_gt (num n) (num 127) = false).
  { intros n Hn. unfold num_gt, num. apply orb_false_iff.
    split; apply num_lt_false; rewrite <- Zle_Qle; lia. }
  repeat split; unfold sendChannelMode; cbv zeta;
    rewrite (parseInt_JInt pe z) by lia; rewrite Hcommand.
  - rewrite (parseInt_JInt pe v) by lia. rewrite truthy_num.
    rewrite (Hin v Hv). reflexivity.
  - rewrite (parseInt_non_numeric pe value Hvalue). reflexivity.
  - rewrite (parseInt_plain pe q Hq), truthy_num.
    assert (Hbad : num_lt (num (Qtrunc q)) (num 0)
                   || num_gt (num (Qtrunc q)) (num 127) = true).
    { unfold num_gt, num. apply orb_true_iff.
      destruct Hout; [left | right]; apply num_lt_true; rewrite <- Zlt_Qlt; lia. }
    rewrite Hbad. reflexivity.
  - rewrite (parseInt_exponent_read pe q' Hq'), Hread, truthy_num.
    rewrite (Hin d Hd). reflexivity.
Qed.

Lemma channel_mode_value_witness :
  sendChannelMode Reference.readsE21 (Reference.WebMidi 0)
    (Reference.channel 1) (CommandValue (JInt 126)) JUndefined None
  = mkRun (Normal tt) [mkMessage 176 [JInt 126; JInt 0] (JInt 0)]
  /\ sendChannelMode Reference.readsE21 (Reference.WebMidi 0)
       (Reference.channel 1) (CommandValue (JInt 126)) (JInt 128) None
     = mkRun (Throw (RangeError "Value must be an integer between 0 and 127.")) []
  /\ sendChannelMode Reference.readsE21 (Reference.WebMidi 0)
       (Reference.channel 1) (CommandValue (JInt 126))
       (JNumber (Fin (inject_Z (10 ^ 21)))) None
     = mkRun (Normal tt) [mkMessage 176 [JInt 126; JInt 1] (JInt 0)].
Proof.
  destruct (channel_mode_value Reference.readsE21 (Reference.WebMidi 0)
              (Reference.channel 1) 126 4 1 JUndefined (inject_Z 128)
              (inject_Z (10 ^ 21)) None) as (_ & H2 & H3 & H4).
  - lia.
  - lia.
  - intros q. discriminate.
  - vm_compute. reflexivity.
  - right. vm_compute. reflexivity.
  - vm_compute. reflexivity.
  - vm_compute. reflexivity.
  - lia.
  - split; [exact H2 | split; [exact H3 | exact H4]].
Defined.

(** X12: with the channel-mode table of the documentation (120 all sound
    off ... 127 poly mode on), each convenience method emits exactly one
    channel-mode message: [turnSoundOff] 120/0, [resetAllControllers]
    121/0, [setLocalControl] 122 with 127 for a truthy state and 0
    otherwise, [turnNotesOff] 123/0, [setOmniMode] 125/0 when the state is
    omitted or truthy and 124/0 otherwise, [setPolyphonicMode] 126/0 for
    "mono" and 127/0 for anything else. *)
Theorem channel_mode_helpers
    (pe : Q -> Number) (W : WebMidiModule) (this : OutputChannel)
    (state : JsValue) (mode : option string) (options : option Options) :
  MIDI_CHANNEL_MODE_MESSAGES W = Reference.channelModeMessages ->
  turnSoundOff pe W this options
  = mkRun (Normal tt) [channelModeMessage W this 120 0 (time (orEmpty options))]
  /\ resetAllControllers pe W this options
     = mkRun (Normal tt) [channelModeMessage W this 121 0 (time (orEmpty options))]
  /\ setLocalControl pe W this state options
     = mkRun (Normal tt)
         [channelModeMessage W this 122 (if truthy state then 127 else 0)
            (time (orEmpty options))]
  /\ turnNotesOff pe W this options
     = mkRun (Normal tt) [channelModeMessage W this 123 0 (time (orEmpty options))]
  /\ setOmniMode pe W this state options
     = mkRun (Normal tt)
         [channelModeMessage W this
            (if match state with JUndefined => true | _ => truthy state end
             then 125 else 124)
            0 (time (orEmpty options))]
  /\ setPolyphonicMode pe W this mode options
     = mkRun (Normal tt)
         [channelModeMessage W this
            (if bool_decide (mode = Some "mono") then 126 else 127)
            0 (time (orEmpty options))].
Proof.
  intros Htable.
  unfold turnSoundOff, resetAllControllers, setLocalControl, turnNotesOff,
    setOmniMode, setPolyphonicMode, sendChannelMode.
  cbv zeta. rewrite !Htable.
  repeat split;
    repeat match goal with
           | |- context [if ?b then _ else _] =>
               match b with
               | truthy state => destruct b
               | bool_decide _ => destruct b
               | match state with _ => _ end => destruct b
               end
           end;
    reflexivity.
Qed.

Lemma channel_mode_helpers_witness :
  setOmniMode Reference.noExponent (Reference.WebMidi 0)
    (Reference.channel 16) JUndefined None
  = mkRun (Normal tt) [mkMessage 191 [JInt 125; JInt 0] (JInt 0)].
Proof.
  apply (channel_mode_helpers Reference.noExponent (Reference.WebMidi 0)
           (Reference.channel 16) JUndefined None None).
  reflexivity.
Defined.

(** X13: each of the eleven operations that build a single message
    ([sendControlChange], [sendChannelMode] and its six helpers,
    [setChannelAftertouch], [setPitchBend], [setProgram]) either throws
    having sent nothing or completes having sent exactly one message. *)
Theorem single_message_all_or_nothing
    (pe : Q -> Number) (W : WebMidiModule) (this : OutputChannel)
    (op : Operation) (options : option Options) :
  singleMessage op = true ->
  one_or_none (perform pe W this op options).
Proof.
  intros Hop. unfold one_or_none.
  destruct op; try discriminate Hop; simpl perform;
    unfold sendControlChange, setOmniMode, setLocalControl, turnNotesOff,
      turnSoundOff, resetAllControllers, setPolyphonicMode, sendChannelMode,
      setChannelAftertouch, setPitchBend, setProgram;
    cbv zeta;
    repeat match goal with
           | |- context [if ?b then _ else _] => destruct b
           | |- context [match ?x with _ => _ end] => destruct x
           end;
    solve [left; eexists; reflexivity | right; eexists; reflexivity].
Qed.

Lemma single_message_all_or_nothing_witness :
  one_or_none (perform Reference.noExponent (Reference.WebMidi 0)
                 (Reference.channel 1) (SetPitchBend (JInt 2)) None).
Proof.
  apply (single_message_all_or_nothing Reference.noExponent
           (Reference.WebMidi 0) (Reference.channel 1)
           (SetPitchBend (JInt 2)) None).
  reflexivity.
Defined.

(** *** Pitch bend and aftertouch: further cases *)

(** [setPitchBend] once its argument has been converted to a bend u in
    [-1, 1]. *)
Lemma setPitchBend_converted (W : WebMidiModule) (this : OutputChannel)
    (x : JsValue) (u : Q) (options : option Options) :
  (let value :=
     if isNaN (JNumber (parseFloat x)) then num 0 else parseFloat x in
   if truthy (rawValue (orEmpty options))
   then sub64 (mul64 (div64 value (num 127)) (num 2)) (num 1)
   else value) = Fin u ->
  (-1 <= u)%Q -> (u <= 1)%Q ->
  setPitchBend W this x options
  = mkRun (Normal tt)
      [ mkMessage (js_shl (pitchbend (MIDI_CHANNEL_VOICE_MESSAGES W)) 4
                   + (number this - 1))
                  [ JInt (bendLevel u mod 128); JInt (bendLevel u / 128) ]
                  (convertToTimestamp W (time (orEmpty options))) ].
Proof.
  cbv zeta. intros Hvalue Hlo Hhi.
  pose proof (bendLevel_range u Hlo Hhi) as Hrange.
  destruct (js_split_small (bendLevel u) ltac:(lia)) as [Hmsb Hlsb].
  unfold setPitchBend. cbv zeta. rewrite Hvalue.
  assert (Hguard : num_lt (Fin u) (num (-1)) || num_gt (Fin u) (num 1) = false).
  { unfold num_gt, num. apply orb_false_iff.
    split; apply num_lt_false; assumption. }
  rewrite Hguard, pitchBend_level, truncate_num, Hmsb, Hlsb.
  rewrite !land_127_mod, Z.shiftr_div_pow2 by lia. change (2 ^ 7) with 128.
  rewrite (Z.mod_small (bendLevel u / 128)).
  - reflexivity.
  - split; [apply Z.div_pos; lia | apply Z.div_lt_upper_bound; lia].
Qed.

(** The bend and the level of a raw value r in 0..127, found by running
    the five rounded operations on each of the 128 values. *)
Lemma raw_bend (r : Z) :
  0 <= r <= 127 ->
  exists u : Q,
    sub64 (mul64 (div64 (num r) (num 127)) (num 2)) (num 1) = Fin u
    /\ (-1 <= u)%Q /\ (u <= 1)%Q /\ bendLevel u = 129 * r.
Proof.
  intros Hr.
  assert (Hn : exists n : nat, (n < 128)%nat /\ r = Z.of_nat n)
    by (exists (Z.to_nat r); lia).
  destruct Hn as (n & Hn & ->). clear Hr.
  do 128 (destruct n as [| n];
          [ eexists; split; [reflexivity |];
            vm_compute; repeat split; discriminate |]).
  lia.
Qed.

(** X14: in raw mode ([options.rawValue] truthy) an integer r in 0..127
    is mapped to the 14-bit level 129 * r, so [setPitchBend(r)] emits the
    data bytes [r, r]: lsb and msb are both r.  In particular the raw
    value 64 gives the level 8256, not the centre 8192. *)
Theorem pitch_bend_raw_value
    (W : WebMidiModule) (this : OutputChannel) (r : Z)
    (options : option Options) :
  0 <= r <= 127 ->
  truthy (rawValue (orEmpty options)) = true ->
  setPitchBend W this (JInt r) options
  = mkRun (Normal tt)
      [ mkMessage (js_shl (pitchbend (MIDI_CHANNEL_VOICE_MESSAGES W)) 4
                   + (number this - 1))
                  [JInt r; JInt r]
                  (convertToTimestamp W (time (orEmpty options))) ].
Proof.
  intros Hr Hraw.
  destruct (raw_bend r Hr) as (u & Hu & Hlo & Hhi & Hlevel).
  rewrite (setPitchBend_converted W this (JInt r) u options).
  - rewrite Hlevel.
    replace (129 * r) with (r + r * 128) by lia.
    rewrite Z.mod_add, Z.div_add by lia.
    rewrite Z.mod_small, Z.div_small by lia.
    rewrite Z.add_0_l. reflexivity.
  - cbv zeta. rewrite Hraw. exact Hu.
  - exact Hlo.
  - exact Hhi.
Qed.

Lemma pitch_bend_raw_value_witness :
  setPitchBend (Reference.WebMidi 0) (Reference.channel 1) (JInt 64)
    (Some (mkOptions TimeUndefined JUndefined JUndefined JUndefined JUndefined
             JUndefined JUndefined JUndefined JUndefined (JBool true)))
  = mkRun (Normal tt)
      [ mkMessage (js_shl 0xE 4 + (1 - 1)) [JInt 64; JInt 64] (JInt 0) ].
Proof.
  apply (pitch_bend_raw_value (Reference.WebMidi 0) (Reference.channel 1) 64
           (Some (mkOptions TimeUndefined JUndefined JUndefined JUndefined
                    JUndefined JUndefined JUndefined JUndefined JUndefined
                    (JBool true)))).
  - lia.
  - reflexivity.
Defined.

(** X15: with the raw flag off, [setPitchBend] takes a value that is not a
    number as 0 and emits the centre, data [0, 64], and rejects a number
    below -1 or above 1 with a RangeError before anything is sent.  With
    the raw flag on, a value that is not a number also becomes 0, which is
    then read as the raw value 0: the data is [0, 0], the full downward
    bend. *)
Theorem pitch_bend_edges
    (W : WebMidiModule) (this : OutputChannel) (x : JsValue) (q : Q)
    (options : option Options) :
  non_numeric x ->
  (q < -1)%Q \/ (1 < q)%Q ->
  (truthy (rawValue (orEmpty options)) = false ->
   setPitchBend W this x options
   = mkRun (Normal tt)
       [ mkMessage (js_shl (pitchbend (MIDI_CHANNEL_VOICE_MESSAGES W)) 4
                    + (number this - 1))
                   [JInt 0; JInt 64]
                   (convertToTimestamp W (time (orEmpty options))) ]
   /\ setPitchBend W this (JNumber (Fin q)) options
      = mkRun (Throw (RangeError
                 "Pitch bend value must be between -1.0 and 1.0.")) [])
  /\ (truthy (rawValue (orEmpty options)) = true ->
      setPitchBend W this x options
      = mkRun (Normal tt)
          [ mkMessage (js_shl (pitchbend (MIDI_CHANNEL_VOICE_MESSAGES W)) 4
                       + (number this - 1))
                      [JInt 0; JInt 0]
                      (convertToTimestamp W (time (orEmpty options))) ]).
Proof.
  intros Hx Hq. split; intros Hraw; [split |].
  - unfold setPitchBend. cbv zeta.
    rewrite (parseFloat_non_numeric x Hx), Hraw. reflexivity.
  - unfold setPitchBend. cbv zeta. simpl parseFloat.
    change (isNaN (JNumber (Fin q))) with false. cbv iota. rewrite Hraw.
    assert (Hguard : num_lt (Fin q) (num (-1)) || num_gt (Fin q) (num 1) = true).
    { unfold num_gt, num. apply orb_true_iff.
      destruct Hq; [left | right]; now apply num_lt_true. }
    rewrite Hguard. reflexivity.
  - unfold setPitchBend. cbv zeta.
    rewrite (parseFloat_non_numeric x Hx), Hraw. reflexivity.
Qed.

Lemma pitch_bend_edges_witness :
  setPitchBend (Reference.WebMidi 0) (Reference.channel 1) JUndefined None
  = mkRun (Normal tt)
      [ mkMessage (js_shl 0xE 4 + (1 - 1)) [JInt 0; JInt 64] (JInt 0) ]
  /\ setPitchBend (Reference.WebMidi 0) (Reference.channel 1)
       (JNumber (Fin (3 # 2))) None
     = mkRun (Throw (RangeError
                "Pitch bend value must be between -1.0 and 1.0.")) [].
Proof.
  apply (pitch_bend_edges (Reference.WebMidi 0) (Reference.channel 1)
           JUndefined (3 # 2) None).
  - intros q. discriminate.
  - right. reflexivity.
  - reflexivity.
Defined.

Lemma num_lt_false_inv (x y : Q) : num_lt (Fin x) (Fin y) = false -> (y <= x)%Q.
Proof.
  unfold num_lt. intros H. apply negb_false_iff in H. now apply Qle_bool_iff.
Qed.

(** The byte computed from a pressure that passed the guard. *)
Lemma pressure_byte (p : Number) :
  num_lt p (num 0) || num_gt p (num 1) = false ->
  p <> NaN ->
  exists b, 0 <= b <= 127 /\ Math_round (mul64 p (num 127)) = num b.
Proof.
  intros Hguard Hp. destruct p as [| q]; [congruence |].
  apply orb_false_iff in Hguard. destruct Hguard as [H0 H1].
  apply num_lt_false_inv in H0. unfold num_gt in H1.
  apply num_lt_false_inv in H1.
  change (inject_Z 0) with 0%Q in H0. change (inject_Z 1) with 1%Q in H1.
  exists (round (binary64 (q * inject_Z 127))). split; [| reflexivity].
  destruct (binary64_between 0 127 (q * inject_Z 127)) as [A B];
    [reflexivity | vm_compute; reflexivity
     | change (inject_Z 127) with 127%Q; lra
     | change (inject_Z 127) with 127%Q; lra |].
  apply round_range.
  - eapply Qle_trans; [| exact A]. vm_compute. discriminate.
  - exact B.
Qed.

Lemma pressure_not_NaN (pressure : JsValue) (raw : bool) :
  (if raw
   then div64 (if isNaN (JNumber (parseFloat pressure))
               then Fin (1 # 2) else parseFloat pressure) (num 127)
   else if isNaN (JNumber (parseFloat pressure))
        then Fin (1 # 2) else parseFloat pressure) <> NaN.
Proof.
  destruct (parseFloat pressure) as [| q]; destruct raw; discriminate.
Qed.

(** A raw pressure r in 0..127 passes the guard as r / 127 and comes back
    as the byte r, on each of the 128 values. *)
Lemma raw_pressure (r : Z) :
  0 <= r <= 127 ->
  num_lt (div64 (num r) (num 127)) (num 0)
  || num_gt (div64 (num r) (num 127)) (num 1) = false
  /\ Math_round (mul64 (div64 (num r) (num 127)) (num 127)) = num r.
Proof.
  intros Hr.
  assert (Hn : exists n : nat, (n < 128)%nat /\ r = Z.of_nat n)
    by (exists (Z.to_nat r); lia).
  destruct Hn as (n & Hn & ->). clear Hr.
  do 128 (destruct n as [| n]; [vm_compute; split; reflexivity |]).
  lia.
Qed.

(** X16: whatever the pressure and the options, [setChannelAftertouch]
    either throws a RangeError having sent nothing, or sends exactly one
    message whose data byte is an integer in 0..127; [setKeyAftertouch]
    either throws having sent nothing, or sends one message per resolved
    note, in the resolver's order, each with the note's number and the same
    pressure byte in 0..127. *)
Theorem aftertouch_byte_in_range
    (W : WebMidiModule) (this : OutputChannel) (note : NoteInput)
    (pressure : JsValue) (options : option Options) :
  ((exists msg, setChannelAftertouch W this pressure options
                = mkRun (Throw (RangeError msg)) [])
   \/ (exists b, 0 <= b <= 127
         /\ setChannelAftertouch W this pressure options
            = mkRun (Normal tt)
                [ mkMessage (js_shl (channelaftertouch (MIDI_CHANNEL_VOICE_MESSAGES W)) 4
                             + (number this - 1))
                            [JInt b]
                            (convertToTimestamp W (time (orEmpty options))) ]))
  /\ ((exists e, setKeyAftertouch W this note pressure options
                 = mkRun (Throw e) [])
      \/ (exists b notes, 0 <= b <= 127
            /\ getValidNoteArray W note None = Normal notes
            /\ setKeyAftertouch W this note pressure options
               = mkRun (Normal tt)
                   (map (fun n =>
                           mkMessage (js_shl (keyaftertouch (MIDI_CHANNEL_VOICE_MESSAGES W)) 4
                                      + (number this - 1))
                                     [Note.number n; JInt b]
                                     (convertToTimestamp W (time (orEmpty options))))
                        notes))).
Proof.
  split.
  - unfold setChannelAftertouch. cbv zeta.
    pose proof (pressure_not_NaN pressure (truthy (rawValue (orEmpty options))))
      as Hp.
    destruct (num_lt _ (num 0) || num_gt _ (num 1)) eqn:Hguard.
    + left. eexists. reflexivity.
    + right. destruct (pressure_byte _ Hguard Hp) as (b & Hb & Hbyte).
      exists b. split; [exact Hb |]. rewrite Hbyte. reflexivity.
  - unfold setKeyAftertouch. cbv zeta.
    pose proof (pressure_not_NaN pressure (truthy (useRawValue (orEmpty options))))
      as Hp.
    destruct (num_lt _ (num 0) || num_gt _ (num 1)) eqn:Hguard.
    + left. eexists. reflexivity.
    + destruct (pressure_byte _ Hguard Hp) as (b & Hb & Hbyte).
      rewrite Hbyte.
      destruct (getValidNoteArray W note None) as [notes | e] eqn:Hnotes.
      * right. exists b, notes. repeat split; try lia.
        rewrite bind_call_normal.
        erewrite forEach_single by (intros; reflexivity). reflexivity.
      * left. exists e. reflexivity.
Qed.

(** X17: the raw flag of [setChannelAftertouch] is [options.rawValue] and
    that of [setKeyAftertouch] is [options.useRawValue]; when the flag is
    set, an integer pressure r in 0..127 is sent as the byte r itself. *)
Theorem aftertouch_raw_value
    (W : WebMidiModule) (this : OutputChannel) (note : NoteInput)
    (notes : list Note.t) (r : Z) (options : option Options) :
  0 <= r <= 127 ->
  getValidNoteArray W note None = Normal notes ->
  (truthy (rawValue (orEmpty options)) = true ->
   setChannelAftertouch W this (JInt r) options
   = mkRun (Normal tt)
       [ mkMessage (js_shl (channelaftertouch (MIDI_CHANNEL_VOICE_MESSAGES W)) 4
                    + (number this - 1))
                   [JInt r]
                   (convertToTimestamp W (time (orEmpty options))) ])
  /\ (truthy (useRawValue (orEmpty options)) = true ->
      setKeyAftertouch W this note (JInt r) options
      = mkRun (Normal tt)
          (map (fun n =>
                  mkMessage (js_shl (keyaftertouch (MIDI_CHANNEL_VOICE_MESSAGES W)) 4
                             + (number this - 1))
                            [Note.number n; JInt r]
                            (convertToTimestamp W (time (orEmpty options))))
               notes)).
Proof.
  intros Hr Hnotes.
  destruct (raw_pressure r Hr) as [Hguard Hbyte].
  split; intros Hraw.
  - unfold setChannelAftertouch. cbv zeta. simpl parseFloat.
    change (isNaN (JNumber (num r))) with false. cbv iota.
    rewrite Hraw, Hguard, Hbyte. reflexivity.
  - unfold setKeyAftertouch. cbv zeta. simpl parseFloat.
    change (isNaN (JNumber (num r))) with false. cbv iota.
    rewrite Hraw, Hguard, Hbyte, Hnotes, bind_call_normal.
    erewrite forEach_single by (intros; reflexivity). reflexivity.
Qed.

Lemma aftertouch_raw_value_witness :
  setChannelAftertouch (Reference.WebMidi 0) (Reference.channel 1) (JInt 100)
    (Some (mkOptions TimeUndefined JUndefined JUndefined JUndefined JUndefined
             JUndefined JUndefined JUndefined (JBool true) (JBool true)))
  = mkRun (Normal tt)
      [ mkMessage (js_shl 0xD 4 + (1 - 1)) [JInt 100] (JInt 0) ].
Proof.
  apply (aftertouch_raw_value (Reference.WebMidi 0) (Reference.channel 1)
           (OneNote (NoteNumber 60)) [Note.mk (JInt 60) (JInt 64) (JInt 64)]
           100
           (Some (mkOptions TimeUndefined JUndefined JUndefined JUndefined
                    JUndefined JUndefined JUndefined JUndefined (JBool true)
                    (JBool true)))).
  - lia.
  - reflexivity.
  - reflexivity.
Defined.

(** *** Notes *)

Lemma bind_call_throw {A B} (e : JsError) (f : A -> Run B) :
  call (Throw e) ≫= f = mkRun (Throw e) [].
Proof. reflexivity. Qed.

(** The note senders, given what the resolver answers. *)
Lemma noteOn_forEach (W : WebMidiModule) (this : OutputChannel)
    (t : TimeSpec) (notes : list Note.t) (o : Options) :
  (forEach notes (fun n =>
     send (js_shl (noteon (MIDI_CHANNEL_VOICE_MESSAGES W)) 4 + (number this - 1))
          [Note.number n; Note.rawAttack n] (convertToTimestamp W t)) ;;
   mret o)
  = mkRun (Normal o) (noteOnMessages W this t notes).
Proof.
  erewrite forEach_single by (intros; reflexivity).
  rewrite bind_normal. simpl. now rewrite app_nil_r.
Qed.

Lemma noteOff_forEach (W : WebMidiModule) (this : OutputChannel)
    (t : TimeSpec) (notes : list Note.t) (o : Options) :
  (forEach notes (fun n =>
     send (js_shl (noteoff (MIDI_CHANNEL_VOICE_MESSAGES W)) 4 + (number this - 1))
          [Note.number n; Note.rawRelease n] (convertToTimestamp W t)) ;;
   mret o)
  = mkRun (Normal o) (noteOffMessages W this t notes).
Proof.
  erewrite forEach_single by (intros; reflexivity).
  rewrite bind_normal. simpl. now rewrite app_nil_r.
Qed.

(** X18: [sendNoteOn], and [sendNoteOff] when it is given an options
    object, never fail on their own.  Each asks the note resolver once, with
    one default velocity; if the resolver throws, its error is passed on
    and nothing is sent; otherwise one message is sent per resolved note,
    in the resolver's order, with data [number, rawAttack] (respectively
    [number, rawRelease]) and the resolution of [options.time] as its
    timestamp. *)
Theorem note_senders_follow_resolver
    (W : WebMidiModule) (this : OutputChannel) (note : NoteInput)
    (options : option Options) (o : Options) :
  (exists vel,
     match getValidNoteArray W note (Some (set_rawAttack vel emptyOptions)) with
     | Normal notes =>
         exists o', sendNoteOn W this note options
                    = mkRun (Normal o')
                        (noteOnMessages W this (time (orEmpty options)) notes)
     | Throw e => sendNoteOn W this note options = mkRun (Throw e) []
     end)
  /\ (exists vel,
        match getValidNoteArray W note (Some (set_rawRelease vel emptyOptions)) with
        | Normal notes =>
            exists o', sendNoteOff W this note (Some o)
                       = mkRun (Normal o') (noteOffMessages W this (time o) notes)
        | Throw e => sendNoteOff W this note (Some o) = mkRun (Throw e) []
        end).
Proof.
  split.
  - unfold sendNoteOn. cbv zeta.
    match goal with
    | |- context [call (getValidNoteArray W note
                          (Some (set_rawAttack ?v emptyOptions)))] =>
        exists v; destruct (getValidNoteArray W note
                              (Some (set_rawAttack v emptyOptions)))
          as [notes | e]
    end.
    + rewrite bind_call_normal, noteOn_forEach.
      destruct (truthy (rawVelocity (orEmpty options)));
        destruct (truthy (velocity _)); eexists; reflexivity.
    + apply bind_call_throw.
  - unfold sendNoteOff. simpl readProperties. rewrite bind_mret. cbv zeta.
    match goal with
    | |- context [call (getValidNoteArray W note
                          (Some (set_rawRelease ?v emptyOptions)))] =>
        exists v; destruct (getValidNoteArray W note
                              (Some (set_rawRelease v emptyOptions)))
          as [notes | e]
    end.
    + rewrite bind_call_normal, noteOff_forEach.
      destruct (truthy (rawVelocity o)); destruct (truthy (velocity _));
        eexists; reflexivity.
    + apply bind_call_throw.
Qed.

Lemma unit_velocity_accepted (x : Q) :
  (0 <= x)%Q -> (x <= 1)%Q ->
  negb (isNaN (JNumber (Fin x))) && between 0 1 (Fin x) = true.
Proof.
  intros H0 H1. unfold between, num_ge, num_le, num. simpl.
  apply andb_true_iff. split; now apply Qle_bool_iff.
Qed.

Lemma truthy_JInt (r : Z) : r <> 0 -> truthy (JInt r) = true.
Proof.
  intros Hr. simpl. apply negb_true_iff, not_true_is_false.
  rewrite Qeq_bool_iff. unfold Qeq. simpl. lia.
Qed.

(** X19: the attack velocity of [sendNoteOn].  A normalized [attack] x in
    [0, 1] is handed to the resolver as the product x * 127, not rounded
    to an integer.  The [rawAttack] option only acts as a flag: when it is
    truthy, the raw velocity is read from [attack] (an integer a in 0..127
    is handed over as it is), and a [rawAttack] given on its own is
    ignored in favour of the default 64. *)
Theorem note_on_velocity
    (W : WebMidiModule) (this : OutputChannel) (note : NoteInput)
    (notes : list Note.t) (t : TimeSpec) (x : Q) (a : Z) (r : JsValue) :
  (0 <= x)%Q -> (x <= 1)%Q -> 0 <= a <= 127 -> truthy r = true ->
  (getValidNoteArray W note
     (Some (set_rawAttack (JNumber (mul64 (Fin x) (num 127))) emptyOptions))
   = Normal notes ->
   sendNoteOn W this note (Some (set_attack (JNumber (Fin x)) (timeOptions t)))
   = mkRun (Normal (set_attack (JNumber (Fin x)) (timeOptions t)))
       (noteOnMessages W this t notes))
  /\ (getValidNoteArray W note (Some (set_rawAttack (JInt a) emptyOptions))
      = Normal notes ->
      sendNoteOn W this note
        (Some (set_attack (JInt a) (set_rawAttack r (timeOptions t))))
      = mkRun (Normal (set_attack (JInt a) (set_rawAttack r (timeOptions t))))
          (noteOnMessages W this t notes))
  /\ (getValidNoteArray W note (Some (set_rawAttack (JInt 64) emptyOptions))
      = Normal notes ->
      sendNoteOn W this note (Some (set_rawAttack r (timeOptions t)))
      = mkRun (Normal (set_rawAttack r (timeOptions t)))
          (noteOnMessages W this t notes)).
Proof.
  intros Hx0 Hx1 Ha Hr.
  pose proof (unit_velocity_accepted x Hx0 Hx1) as Hunit.
  assert (Hraw : negb (isNaN (JInt a)) && between 0 127 (ToNumber (JInt a)) = true).
  { simpl. rewrite between_num. apply andb_true_iff. split; apply Z.leb_le; lia. }
  repeat split; intros Hnotes.
  - rewrite sendNoteOn_attack_only. simpl ToNumber. rewrite Hunit, Hnotes.
    rewrite bind_call_normal. apply noteOn_forEach.
  - unfold sendNoteOn. cbv zeta. simpl orEmpty. simpl truthy.
    cbv iota. simpl rawAttack. rewrite Hr. simpl attack. rewrite Hraw, Hnotes.
    rewrite bind_call_normal. apply noteOn_forEach.
  - unfold sendNoteOn. cbv zeta. simpl orEmpty. simpl truthy.
    cbv iota. simpl rawAttack. rewrite Hr. simpl attack. simpl isNaN.
    simpl negb. simpl andb. cbv iota. rewrite Hnotes.
    rewrite bind_call_normal. apply noteOn_forEach.
Qed.

Lemma note_on_velocity_witness :
  sendNoteOn (Reference.WebMidi 0) (Reference.channel 1)
    (OneNote (NoteNumber 60))
    (Some (set_rawAttack (JInt 100) (timeOptions TimeUndefined)))
  = mkRun (Normal (set_rawAttack (JInt 100) (timeOptions TimeUndefined)))
      (noteOnMessages (Reference.WebMidi 0) (Reference.channel 1)
         TimeUndefined [Note.mk (JInt 60) (JInt 64) (JInt 64)]).
Proof.
  apply (note_on_velocity (Reference.WebMidi 0) (Reference.channel 1)
           (OneNote (NoteNumber 60)) [Note.mk (JInt 60) (JInt 64) (JInt 64)]
           TimeUndefined (1 # 2) 64 (JInt 100)).
  - vm_compute. discriminate.
  - vm_compute. discriminate.
  - lia.
  - reflexivity.
  - reflexivity.
Defined.

(** X20: the release velocity of [sendNoteOff].  A normalized [release] x
    in [0, 1] is handed to the resolver as the product x * 127, not
    rounded to an integer; a [rawRelease] r in 1..127 is handed over as it
    is; a [rawRelease] of 0 is falsy and one above 127 is out of range,
    and both fall back to the default 64. *)
Theorem note_off_velocity
    (W : WebMidiModule) (this : OutputChannel) (note : NoteInput)
    (notes : list Note.t) (t : TimeSpec) (x : Q) (r big : Z) :
  (0 <= x)%Q -> (x <= 1)%Q -> 1 <= r <= 127 -> 127 < big ->
  (getValidNoteArray W note
     (Some (set_rawRelease (JNumber (mul64 (Fin x) (num 127))) emptyOptions))
   = Normal notes ->
   sendNoteOff W this note (Some (set_release (JNumber (Fin x)) (timeOptions t)))
   = mkRun (Normal (set_release (JNumber (Fin x)) (timeOptions t)))
       (noteOffMessages W this t notes))
  /\ (getValidNoteArray W note (Some (set_rawRelease (JInt r) emptyOptions))
      = Normal notes ->
      sendNoteOff W this note (Some (set_rawRelease (JInt r) (timeOptions t)))
      = mkRun (Normal (set_rawRelease (JInt r) (timeOptions t)))
          (noteOffMessages W this t notes))
  /\ (getValidNoteArray W note (Some (set_rawRelease (JInt 64) emptyOptions))
      = Normal notes ->
      sendNoteOff W this note (Some (set_rawRelease (JInt 0) (timeOptions t)))
      = mkRun (Normal (set_rawRelease (JInt 0) (timeOptions t)))
          (noteOffMessages W this t notes)
      /\ sendNoteOff W this note (Some (set_rawRelease (JInt big) (timeOptions t)))
         = mkRun (Normal (set_rawRelease (JInt big) (timeOptions t)))
             (noteOffMessages W this t notes)).
Proof.
  intros Hx0 Hx1 Hr Hbig.
  pose proof (unit_velocity_accepted x Hx0 Hx1) as Hunit.
  assert (Hraw : negb (isNaN (JInt r)) && between 0 127 (ToNumber (JInt r)) = true).
  { simpl. rewrite between_num. apply andb_true_iff. split; apply Z.leb_le; lia. }
  assert (Hover : negb (isNaN (JInt big)) && between 0 127 (ToNumber (JInt big))
                  = false).
  { simpl. rewrite between_num. apply andb_false_iff. right.
    apply Z.leb_gt. lia. }
  split; [| split]; intros Hnotes.
  - rewrite sendNoteOff_release_only. simpl ToNumber. rewrite Hunit, Hnotes.
    rewrite bind_call_normal. apply noteOff_forEach.
  - unfold sendNoteOff. simpl readProperties. rewrite bind_mret. cbv zeta.
    repeat (progress
              (cbn [rawVelocity velocity rawRelease release set_rawRelease
                    timeOptions];
               change (truthy JUndefined) with false; cbv iota)).
    rewrite (truthy_JInt r) by lia. rewrite Hraw, Hnotes.
    rewrite bind_call_normal. apply noteOff_forEach.
  - split.
    + unfold sendNoteOff. simpl readProperties. rewrite bind_mret. cbv zeta.
      simpl truthy. cbv iota. simpl isNaN. simpl negb. simpl andb. cbv iota.
      rewrite Hnotes, bind_call_normal. apply noteOff_forEach.
    + unfold sendNoteOff. simpl readProperties. rewrite bind_mret. cbv zeta.
      repeat (progress
                (cbn [rawVelocity velocity rawRelease release set_rawRelease
                      timeOptions];
                 change (truthy JUndefined) with false; cbv iota)).
      rewrite (truthy_JInt big) by lia. rewrite Hover, Hnotes.
      rewrite bind_call_normal. apply noteOff_forEach.
Qed.

Lemma note_off_velocity_witness :
  sendNoteOff (Reference.WebMidi 0) (Reference.channel 1)
    (OneNote (NoteNumber 60))
    (Some (set_rawRelease (JInt 100) (timeOptions TimeUndefined)))
  = mkRun (Normal (set_rawRelease (JInt 100) (timeOptions TimeUndefined)))
      (noteOffMessages (Reference.WebMidi 0) (Reference.channel 1)
         TimeUndefined [Note.mk (JInt 60) (JInt 64) (JInt 100)]).
Proof.
  apply (note_off_velocity (Reference.WebMidi 0) (Reference.channel 1)
           (OneNote (NoteNumber 60)) [Note.mk (JInt 60) (JInt 64) (JInt 100)]
           TimeUndefined (1 # 2) 100 128).
  - vm_compute. discriminate.
  - vm_compute. discriminate.
  - lia.
  - lia.
  - reflexivity.
Defined.

(** X21: [playNote] with the options [{duration: d, time: t}], when the
    note-on resolution succeeds.  If d is not a number ([isNaN]) only the
    note-ons are sent.  Otherwise, and that includes a [null] or boolean
    duration, the note-offs follow the note-ons; if the second resolution
    throws, [playNote] throws after the note-ons have been sent. *)
Theorem play_note_composition
    (W : WebMidiModule) (this : OutputChannel) (note : NoteInput)
    (notesOn : list Note.t) (d : JsValue) (t : TimeSpec) :
  getValidNoteArray W note (Some (set_rawAttack (JInt 64) emptyOptions))
    = Normal notesOn ->
  playNote W this note (Some (durationOptions d t))
  = if isNaN d then mkRun (Normal tt) (noteOnMessages W this t notesOn)
    else
      match getValidNoteArray W note
              (Some (set_rawRelease (JInt 64) emptyOptions)) with
      | Normal notesOff =>
          mkRun (Normal tt)
            (noteOnMessages W this t notesOn ++ noteOffMessages W this t notesOff)
      | Throw e => mkRun (Throw e) (noteOnMessages W this t notesOn)
      end.
Proof.
  intros Hon.
  assert (HnoteOn :
    sendNoteOn W this note (Some (durationOptions d t))
    = mkRun (Normal (durationOptions d t)) (noteOnMessages W this t notesOn)).
  { unfold sendNoteOn. cbv zeta. simpl orEmpty. simpl truthy. cbv iota.
    simpl isNaN. simpl negb. simpl andb. cbv iota.
    rewrite Hon, bind_call_normal. apply noteOn_forEach. }
  unfold playNote. cbv zeta. simpl orEmpty. rewrite HnoteOn, bind_normal.
  simpl duration.
  destruct (isNaN d); simpl negb; cbv iota.
  - simpl. now rewrite app_nil_r.
  - unfold sendNoteOff. simpl readProperties. rewrite bind_mret. cbv zeta.
    simpl truthy. cbv iota. simpl isNaN. simpl negb. simpl andb. cbv iota.
    destruct (getValidNoteArray W note
                (Some (set_rawRelease (JInt 64) emptyOptions))) as [notesOff | e].
    + rewrite bind_call_normal, noteOff_forEach. simpl. now rewrite app_nil_r.
    + rewrite bind_call_throw. simpl. now rewrite app_nil_r.
Qed.

Lemma play_note_composition_witness :
  playNote (Reference.WebMidi 0) (Reference.channel 1)
    (NoteArray [NoteNumber 60; NoteName "E4"])
    (Some (durationOptions JNull (TimeAbsolute 10)))
  = mkRun (Normal tt)
      [ mkMessage 144 [JInt 60; JInt 64] (JInt 10);
        mkMessage 144 [JInt 64; JInt 64] (JInt 10);
        mkMessage 128 [JInt 60; JInt 64] (JInt 10);
        mkMessage 128 [JInt 64; JInt 64] (JInt 10) ].
Proof.
  apply (play_note_composition (Reference.WebMidi 0) (Reference.channel 1)
           (NoteArray [NoteNumber 60; NoteName "E4"])
           [Note.mk (JInt 60) (JInt 64) (JInt 64);
            Note.mk (JInt 64) (JInt 64) (JInt 64)]
           JNull (TimeAbsolute 10)).
  reflexivity.
Defined.

(** *** One timestamp per call *)

Create HintDb emits_time.

#[local] Hint Resolve emits_ret emits_throw emits_call : emits_time.

Ltac time_step :=
  first
    [ solve [eauto with emits_time]
    | progress cbv zeta
    | apply emits_bind; [| intros ?]
    | apply emits_forEach; intros ?
    | apply emits_send; simpl timestamp; congruence
    | match goal with
      | |- emits _ (if ?b then _ else _) => destruct b
      | |- emits _ (match ?x with _ => _ end) => destruct x
      end ].

Ltac time_walk := cbv zeta; repeat time_step.

Section OneTimestamp.

Variable pe : Q -> Number.
Variable W : WebMidiModule.
Variable this : OutputChannel.

Local Abbreviation at_time t :=
  (fun m : Message => timestamp m = convertToTimestamp W t).

Lemma time_sendControlChange controller value options t :
  time (orEmpty options) = t ->
  emits (at_time t) (sendControlChange W this controller value options).
Proof. intros Ht. unfold sendControlChange. time_walk. Qed.

Lemma time_sendChannelMode command value options t :
  time (orEmpty options) = t ->
  emits (at_time t) (sendChannelMode pe W this command value options).
Proof. intros Ht. unfold sendChannelMode. time_walk. Qed.

Lemma time_selectRegistered parameter t :
  emits (at_time t) (_selectRegisteredParameter W this parameter t).
Proof.
  unfold _selectRegisteredParameter. cbv zeta.
  repeat match goal with
         | |- emits _ (if ?b then _ else _) => destruct b
         end;
    try apply emits_throw.
  apply emits_bind; [| intros _]; now apply time_sendControlChange.
Qed.

Lemma time_deselectRegistered t :
  emits (at_time t) (_deselectRegisteredParameter W this t).
Proof.
  unfold _deselectRegisteredParameter.
  apply emits_bind; [| intros _]; now apply time_sendControlChange.
Qed.

Lemma time_incrementRegisteredParameter parameter options :
  emits (at_time (time (orEmpty options)))
        (incrementRegisteredParameter W this parameter options).
Proof.
  unfold incrementRegisteredParameter. cbv zeta.
  apply emits_bind; [time_walk | intros bytes].
  apply emits_bind; [apply time_selectRegistered | intros _].
  apply emits_bind; [now apply time_sendControlChange | intros _].
  apply time_deselectRegistered.
Qed.

Lemma time_sendNoteOff note options :
  emits (at_time (time (orEmpty options))) (sendNoteOff W this note options).
Proof.
  destruct options as [o |].
  - apply emits_sendNoteOff_time.
  - apply emits_throw.
Qed.

(** X22: for every operation other than the eight that route through
    [setRegisteredParameter], [setNonRegisteredParameter] or
    [decrementRegisteredParameter], every message the operation emits is
    timestamped with the resolution of [options.time]. *)
Theorem one_timestamp_operations (op : Operation) (options : option Options)
    (m : Message) :
  oneTimestamp op = true ->
  In m (sent (perform pe W this op options)) ->
  timestamp m = convertToTimestamp W (time (orEmpty options)).
Proof.
  intros Hop Hm.
  assert (Hall : emits (at_time (time (orEmpty options)))
                       (perform pe W this op options)).
  { destruct op; try discriminate Hop; simpl perform.
    - unfold setKeyAftertouch. time_walk.
    - now apply time_sendControlChange.
    - apply time_incrementRegisteredParameter.
    - apply playNote_one_timestamp.
    - apply emits_bind; [apply time_sendNoteOff | intros _; apply emits_ret].
    - apply emits_bind; [apply time_sendNoteOff | intros _; apply emits_ret].
    - apply emits_bind; [apply emits_sendNoteOn_time | intros _; apply emits_ret].
    - now apply time_sendChannelMode.
    - unfold setOmniMode. cbv zeta.
      destruct (match state with JUndefined => true | _ => truthy state end);
        now apply time_sendChannelMode.
    - unfold setChannelAftertouch. time_walk.
    - unfold setPitchBend. time_walk.
    - unfold setProgram. time_walk.
    - unfold setLocalControl. cbv zeta.
      destruct (truthy state); now apply time_sendChannelMode.
    - now apply time_sendChannelMode.
    - now apply time_sendChannelMode.
    - now apply time_sendChannelMode.
    - unfold setPolyphonicMode. cbv zeta.
      destruct (bool_decide (mode = Some "mono"));
        now apply time_sendChannelMode. }
  unfold emits in Hall. rewrite List.Forall_forall in Hall. exact (Hall m Hm).
Qed.

End OneTimestamp.

Lemma one_timestamp_operations_witness :
  timestamp (mkMessage 177 [JInt 0x60; JInt 0] (JInt 40))
  = convertToTimestamp (Reference.WebMidi 0)
      (time (orEmpty (Some (timeOptions (TimeAbsolute 40))))).
Proof.
  apply (one_timestamp_operations Reference.noExponent (Reference.WebMidi 0)
           (Reference.channel 2)
           (IncrementRegisteredParameter (ParameterArray [JInt 0; JInt 5]))
           (Some (timeOptions (TimeAbsolute 40)))
           (mkMessage 177 [JInt 0x60; JInt 0] (JInt 40))).
  - reflexivity.
  - vm_compute. right. right. left. reflexivity.
Defined.

(** *** What the parameter family sends *)

Lemma between_inv (lo hi : Z) (n : Number) :
  between lo hi n = true ->
  exists q, n = Fin q /\ (inject_Z lo <= q)%Q /\ (q <= inject_Z hi)%Q.
Proof.
  unfold between, num_ge, num_le, num. destruct n as [| q]; [discriminate |].
  intros H. apply andb_true_iff in H. destruct H as [H0 H1].
  exists q. repeat split; now apply Qle_bool_iff.
Qed.

Section ProtocolMessages.

Variable pe : Q -> Number.
Variable W : WebMidiModule.
Variable this : OutputChannel.

Local Abbreviation protocol := (protocol_message W this).

Lemma protocol_controlChange (c : Z) (n : Number) (t : TimeSpec) :
  In c protocolControllers -> between 0 127 n = true ->
  emits protocol
    (sendControlChange W this (ControllerValue (JInt c)) (JNumber n)
       (Some (timeOptions t))).
Proof.
  intros Hc Hn.
  assert (Hrange : 0 <= c <= 119)
    by (unfold protocolControllers in Hc; simpl in Hc; lia).
  rewrite sendControlChange_number by exact Hrange.
  destruct (between_inv 0 127 n Hn) as (q & -> & H0 & H1).
  repeat constructor. exists c, q. repeat split; assumption.
Qed.

Lemma protocol_select (c0 c1 : Z) (err0 err1 : string)
    (parameter : list JsValue) (t : TimeSpec) :
  In c0 protocolControllers -> In c1 protocolControllers ->
  emits protocol
    (let p0 := Math_floor (ToNumber (array_get parameter 0)) in
     if negb (between 0 127 p0) then throw (RangeError err0)
     else
       let p1 := Math_floor (ToNumber (array_get parameter 1)) in
       if negb (between 0 127 p1) then throw (RangeError err1)
       else
         sendControlChange W this (ControllerValue (JInt c0)) (JNumber p0)
                           (Some (timeOptions t)) ;;
         sendControlChange W this (ControllerValue (JInt c1)) (JNumber p1)
                           (Some (timeOptions t))).
Proof.
  intros Hc0 Hc1. cbv zeta.
  destruct (between 0 127 (Math_floor (ToNumber (array_get parameter 0))))
    eqn:E0; [| apply emits_throw].
  destruct (between 0 127 (Math_floor (ToNumber (array_get parameter 1))))
    eqn:E1; [| apply emits_throw].
  apply emits_bind; [| intros _]; now apply protocol_controlChange.
Qed.

Lemma protocol_selectRegistered parameter t :
  emits protocol (_selectRegisteredParameter W this parameter t).
Proof. apply protocol_select; simpl; tauto. Qed.

Lemma protocol_selectNonRegistered parameter t :
  emits protocol (_selectNonRegisteredParameter W this parameter t).
Proof. apply protocol_select; simpl; tauto. Qed.

Lemma protocol_deselect t :
  emits protocol (_deselectRegisteredParameter W this t).
Proof.
  unfold _deselectRegisteredParameter.
  apply emits_bind; [| intros _];
    apply (protocol_controlChange _ (num 127));
    solve [simpl; tauto | reflexivity].
Qed.

Lemma protocol_setCurrent d t :
  emits protocol (_setCurrentRegisteredParameter pe W this d t).
Proof.
  unfold _setCurrentRegisteredParameter. cbv zeta.
  apply emits_bind.
  - destruct (negb (isNaN _) && between 0 127 _) eqn:E; [| apply emits_throw].
    apply andb_true_iff in E. destruct E as [_ E].
    apply protocol_controlChange; [simpl; tauto | exact E].
  - intros _. destruct (length _ <? 2)%nat; [apply emits_ret |].
    destruct (negb (isNaN _) && between 0 127 _) eqn:E; [| apply emits_throw].
    apply andb_true_iff in E. destruct E as [_ E].
    apply protocol_controlChange; [simpl; tauto | exact E].
Qed.

Lemma protocol_lookup (p : ParameterId) (e : JsError) :
  emits protocol
    (match p with
     | ParameterArray l => mret l
     | ParameterName s =>
         match MIDI_REGISTERED_PARAMETER W !! s with
         | None => throw e
         | Some l => mret l
         end
     end : Run (list JsValue)).
Proof.
  destruct p as [s | l]; [destruct (_ !! s) |]; constructor.
Qed.

Lemma protocol_setRegisteredParameter p d options :
  emits protocol (setRegisteredParameter pe W this p d options).
Proof.
  unfold setRegisteredParameter. cbv zeta.
  apply emits_bind; [apply protocol_lookup | intros bytes].
  apply emits_bind; [apply protocol_selectRegistered | intros _].
  apply emits_bind; [apply protocol_setCurrent | intros _].
  apply protocol_deselect.
Qed.

(** X23: whatever their arguments, the nine operations of the parameter
    family (set, increment and decrement of a registered parameter, set of
    a non-registered parameter, master tuning, pitch-bend range, modulation
    range, tuning bank and tuning program) only ever emit control changes
    on the eight protocol controllers 0x65, 0x64, 0x63, 0x62, 0x06, 0x26,
    0x60 and 0x61, each with a value in [0, 127]; this holds for the
    messages sent before a failure too. *)
Theorem parameter_family_messages (op : Operation) (options : option Options)
    (m : Message) :
  parameterFamily op = true ->
  In m (sent (perform pe W this op options)) ->
  protocol_message W this m.
Proof.
  intros Hop Hm.
  assert (Hall : emits protocol (perform pe W this op options)).
  { destruct op; try discriminate Hop; simpl perform.
    - unfold decrementRegisteredParameter. cbv zeta.
      apply emits_bind; [apply protocol_lookup | intros bytes].
      apply emits_bind; [apply protocol_selectRegistered | intros _].
      apply emits_bind; [| intros _; apply protocol_deselect].
      apply (protocol_controlChange _ (num 0) TimeUndefined);
        [simpl; tauto | reflexivity].
    - unfold incrementRegisteredParameter. cbv zeta.
      apply emits_bind; [apply protocol_lookup | intros bytes].
      apply emits_bind; [apply protocol_selectRegistered | intros _].
      apply emits_bind; [| intros _; apply protocol_deselect].
      apply (protocol_controlChange _ (num 0)); [simpl; tauto | reflexivity].
    - unfold setMasterTuning. cbv zeta.
      destruct (num_le _ _ || num_ge _ _); [apply emits_throw |].
      apply emits_bind; [| intros _]; apply protocol_setRegisteredParameter.
    - apply protocol_setRegisteredParameter.
    - unfold setNonRegisteredParameter. cbv zeta.
      apply emits_bind; [apply protocol_selectNonRegistered | intros _].
      apply emits_bind; [apply protocol_setCurrent | intros _].
      apply protocol_deselect.
    - apply protocol_setRegisteredParameter.
    - apply protocol_setRegisteredParameter.
    - unfold setTuningBank. cbv zeta.
      destruct (isNaN _ || negb _); [apply emits_throw |].
      apply protocol_setRegisteredParameter.
    - unfold setTuningProgram. cbv zeta.
      destruct (isNaN _ || negb _); [apply emits_throw |].
      apply protocol_setRegisteredParameter. }
  unfold emits in Hall. rewrite List.Forall_forall in Hall. exact (Hall m Hm).
Qed.

End ProtocolMessages.

Lemma parameter_family_messages_witness :
  protocol_message (Reference.WebMidi 0) (Reference.channel 1)
    (mkMessage 176 [JInt 0x06; JInt 12] (JInt 1)).
Proof.
  apply (parameter_family_messages Reference.noExponent (Reference.WebMidi 0)
           (Reference.channel 1)
           (SetPitchBendRange (JInt 12) (JInt 200)) None
           (mkMessage 176 [JInt 0x06; JInt 12] (JInt 1))).
  - reflexivity.
  - vm_compute. right. right. left. reflexivity.
Defined.

(** *** Fractional bytes *)

Lemma parseInt_small_negative (pe : Q -> Number) (q : Q) :
  (-1 < q)%Q -> (q <= - (1 # 1000000))%Q ->
  parseInt pe (JNumber (Fin q)) = num 0.
Proof.
  intros Hlo Hhi. unfold parseInt.
  assert (Habs : (Qabs q == - q)%Q) by (apply Qabs_neg; lra).
  assert (Hplain : plain_decimal q = true).
  { unfold plain_decimal. apply orb_true_iff. right. apply andb_true_iff. split.
    - apply Qle_bool_iff. rewrite Habs. lra.
    - apply negb_true_iff, not_true_is_false. rewrite Qle_bool_iff, Habs.
      intros H. assert (H1 : (inject_Z (10 ^ 21) <= 1)%Q) by lra.
      change 1%Q with (inject_Z 1) in H1. rewrite <- Zle_Qle in H1. lia. }
  rewrite Hplain. unfold num. do 2 f_equal.
  destruct q as [n d]. unfold Qtrunc. simpl.
  unfold Qlt, Qle in Hlo, Hhi. simpl in Hlo, Hhi.
  assert (Hn : 0 <= - n < Z.pos d) by lia.
  rewrite <- (Z.opp_involutive n), Z.quot_opp_l by lia.
  rewrite Z.quot_small by exact Hn. reflexivity.
Qed.

Lemma setCurrent_one_parsed (pe : Q -> Number) (W : WebMidiModule)
    (this : OutputChannel) (d : Data) (v : JsValue) (d0 : Z) (t : TimeSpec) :
  concat_data d = [v] -> parseInt pe v = num d0 -> 0 <= d0 <= 127 ->
  _setCurrentRegisteredParameter pe W this d t
  = mkRun (Normal tt) [controlChangeMessage W this (JInt 0x06) (JInt d0) t].
Proof.
  intros Hd Hv Hd0. unfold _setCurrentRegisteredParameter. cbv zeta.
  rewrite Hd, array_get_0, Hv.
  assert (Hok : negb (isNaN (JNumber (num d0))) && between 0 127 (num d0) = true).
  { rewrite between_num. apply andb_true_iff. split; [reflexivity |].
    apply andb_true_iff. split; apply Z.leb_le; lia. }
  rewrite Hok, sendControlChange_number by lia. reflexivity.
Qed.

(** X24: select bytes are floored, data bytes are truncated towards zero.
    A number q with -1 < q <= -0.000001 is therefore rejected as a select
    byte (its floor is -1: RangeError, nothing sent) but accepted as a data
    byte, which is sent as 0. *)
Theorem fractional_negative_byte
    (pe : Q -> Number) (W : WebMidiModule) (this : OutputChannel)
    (q : Q) (a b : Z) (d : Data) (options : option Options) :
  (-1 < q)%Q -> (q <= - (1 # 1000000))%Q ->
  0 <= a <= 127 -> 0 <= b <= 127 ->
  (exists msg,
     setRegisteredParameter pe W this
       (ParameterArray [JNumber (Fin q); JInt b]) d options
     = mkRun (Throw (RangeError msg)) [])
  /\ setRegisteredParameter pe W this (ParameterArray [JInt a; JInt b])
       (DataValue (JNumber (Fin q))) options
     = mkRun (Normal tt)
         [ controlChangeMessage W this (JInt 0x65) (JInt a) (channelNumberAsTime this);
           controlChangeMessage W this (JInt 0x64) (JInt b) (channelNumberAsTime this);
           controlChangeMessage W this (JInt 0x06) (JInt 0) (channelNumberAsTime this);
           controlChangeMessage W this (JInt 0x65) (JInt 127) (time (orEmpty options));
           controlChangeMessage W this (JInt 0x64) (JInt 127) (time (orEmpty options)) ].
Proof.
  intros Hlo Hhi Ha Hb. split.
  - assert (Hnot : ~ select_in_range [JNumber (Fin q); JInt b]).
    { intros [[H0 _] _]. simpl in H0. lra. }
    destruct (selectRegistered_rejects W this _ (channelNumberAsTime this) Hnot)
      as [msg Hmsg].
    exists msg. unfold setRegisteredParameter. rewrite bind_mret.
    fold (channelNumberAsTime this). rewrite Hmsg. reflexivity.
  - rewrite (setRegisteredParameter_selected pe W this _ a b [])
      by (reflexivity || assumption).
    rewrite (setCurrent_one_parsed pe W this _ (JNumber (Fin q)) 0)
      by (reflexivity || lia || now apply parseInt_small_negative).
    reflexivity.
Qed.

Lemma fractional_negative_byte_witness :
  setRegisteredParameter Reference.noExponent (Reference.WebMidi 0)
    (Reference.channel 1) (ParameterArray [JInt 0; JInt 0])
    (DataValue (JNumber (Fin (-1 # 2)))) None
  = mkRun (Normal tt)
      [ mkMessage 176 [JInt 0x65; JInt 0] (JInt 1);
        mkMessage 176 [JInt 0x64; JInt 0] (JInt 1);
        mkMessage 176 [JInt 0x06; JInt 0] (JInt 1);
        mkMessage 176 [JInt 0x65; JInt 127] (JInt 0);
        mkMessage 176 [JInt 0x64; JInt 127] (JInt 0) ].
Proof.
  apply (fractional_negative_byte Reference.noExponent (Reference.WebMidi 0)
           (Reference.channel 1) (-1 # 2) 0 0 (DataValue (JInt 0)) None).
  - reflexivity.
  - vm_compute. discriminate.
  - lia.
  - lia.
Defined.
